(** * The chat session state machine of [ChatContext.tsx]

    A shallow embedding of the chat provider: the React state [ChatState],
    the two refs ([abortControllerRef], [typingIntervalRef]), every
    [setState] updater as a pure function on [ChatState], and every
    operation of the provider as a function on the [World] made of the state,
    the refs and the log of backend calls.  An [async] operation is cut at
    its [await]s: one function for the part that runs when it is called, one
    for each way the awaited promise settles.  The input area is embedded
    as far as [handleSend] and [handleCancel] go.

    A string is the sequence of its units, and [split('')], [slice] and
    [length] are the list operations on them; for text below 128 the units
    of a Rocq [string] are those of the JavaScript string.  A callback that
    reads [state.x] reads the state of the render it closes over; the
    embedding takes that to be the state at the moment of the call and keeps
    what an operation read before an [await] in the frame of the suspended
    call. *)

From Stdlib Require Import String Ascii List Bool Arith Lia.
From stdpp Require Import gmap strings list fin_maps pretty.

Open Scope string_scope.
Open Scope list_scope.

(** ** JavaScript truthiness *)

(** [!s] on a string is true exactly on the empty string. *)
Definition truthy (s : string) : bool :=
  match s with
  | EmptyString => false
  | String _ _ => true
  end.

(** The same test on [string | null] and [string | undefined]. *)
Definition truthy_opt (o : option string) : bool :=
  match o with
  | Some s => truthy s
  | None => false
  end.

(** ** Property reads *)

(** The names of the properties every object inherits from
    [Object.prototype]. *)
Definition Object_prototype : list string :=
  [ "constructor"; "__defineGetter__"; "__defineSetter__"; "hasOwnProperty";
    "__lookupGetter__"; "__lookupSetter__"; "isPrototypeOf";
    "propertyIsEnumerable"; "toString"; "valueOf"; "__proto__";
    "toLocaleString" ].

(** What [draftMessages] holds and what a read of it gives: a string, or
    the property of [Object.prototype] of the name [key] (a function; the
    prototype itself for [__proto__]), which is an object and so truthy. *)
Inductive Draft : Type :=
| Text (s : string)
| Inherited (key : string).

Coercion Text : string >-> Draft.

(** [drafts[chatId]]: the object's own property, else the inherited one,
    else [undefined]. *)
Definition read_draft (drafts : gmap string Draft) (chatId : string)
    : option Draft :=
  match drafts !! chatId with
  | Some d => Some d
  | None =>
      if bool_decide (chatId ∈ Object_prototype)
      then Some (Inherited chatId)
      else None
  end.

(** [v || '']: the empty string is the only falsy value read. *)
Definition or_empty (v : option Draft) : Draft :=
  match v with
  | Some d => d
  | None => Text ""
  end.

(** ** Data model ([types/chat.types.ts]) *)

Inductive MessageRole : Type := user | assistant.

Inductive MessageStatus : Type :=
  sending | sent | failed | typing | thinking | interrupted.

#[global] Instance MessageRole_eq_dec : EqDecision MessageRole.
Proof. solve_decision. Defined.

#[global] Instance MessageStatus_eq_dec : EqDecision MessageStatus.
Proof. solve_decision. Defined.

(** [status] and [wasInterrupted] are optional properties. *)
Record Message : Type := mkMessage {
  m_id : string;
  m_chatId : string;
  m_role : MessageRole;
  m_content : string;
  m_timestamp : string;
  m_status : option MessageStatus;
  m_wasInterrupted : option bool
}.

Record Chat : Type := mkChat {
  c_id : string;
  c_userId : string;
  c_title : string;
  c_lastMessage : option string;
  c_lastMessageAt : string;
  c_createdAt : string;
  c_messageCount : N
}.

Record ChatState : Type := mkChatState {
  currentChatId : option string;
  chats : list Chat;
  messages : gmap string (list Message);
  draftMessages : gmap string Draft;
  isLoadingMessages : bool;
  isLoadingChats : bool;
  isSendingMessage : bool;
  isSwitchingChat : bool;
  isAITyping : bool;
  isAIThinking : bool;
  isCreatingChat : bool;
  isExporting : bool;
  isDeletingChat : bool;
  hasMoreMessages : gmap string bool;
  nextCursor : option string;
  error : option string;
  typingMessage : option string
}.

(** The spread update [{ ...prev, field: v }], one setter for each field
    the provider writes. *)
Definition set_currentChatId (v : option string) (s : ChatState) : ChatState :=
  mkChatState v (chats s) (messages s) (draftMessages s) (isLoadingMessages s)
    (isLoadingChats s) (isSendingMessage s) (isSwitchingChat s)
    (isAITyping s) (isAIThinking s) (isCreatingChat s) (isExporting s)
    (isDeletingChat s) (hasMoreMessages s) (nextCursor s) (error s)
    (typingMessage s).

Definition set_chats (v : list Chat) (s : ChatState) : ChatState :=
  mkChatState (currentChatId s) v (messages s) (draftMessages s)
    (isLoadingMessages s) (isLoadingChats s) (isSendingMessage s)
    (isSwitchingChat s) (isAITyping s) (isAIThinking s) (isCreatingChat s)
    (isExporting s) (isDeletingChat s) (hasMoreMessages s) (nextCursor s)
    (error s) (typingMessage s).

Definition set_messages (v : gmap string (list Message)) (s : ChatState) : ChatState :=
  mkChatState (currentChatId s) (chats s) v (draftMessages s) (isLoadingMessages s)
    (isLoadingChats s) (isSendingMessage s) (isSwitchingChat s)
    (isAITyping s) (isAIThinking s) (isCreatingChat s) (isExporting s)
    (isDeletingChat s) (hasMoreMessages s) (nextCursor s) (error s)
    (typingMessage s).

Definition set_draftMessages (v : gmap string Draft) (s : ChatState) : ChatState :=
  mkChatState (currentChatId s) (chats s) (messages s) v (isLoadingMessages s)
    (isLoadingChats s) (isSendingMessage s) (isSwitchingChat s)
    (isAITyping s) (isAIThinking s) (isCreatingChat s) (isExporting s)
    (isDeletingChat s) (hasMoreMessages s) (nextCursor s) (error s)
    (typingMessage s).

Definition set_isLoadingMessages (v : bool) (s : ChatState) : ChatState :=
  mkChatState (currentChatId s) (chats s) (messages s) (draftMessages s) v
    (isLoadingChats s) (isSendingMessage s) (isSwitchingChat s)
    (isAITyping s) (isAIThinking s) (isCreatingChat s) (isExporting s)
    (isDeletingChat s) (hasMoreMessages s) (nextCursor s) (error s)
    (typingMessage s).

Definition set_isLoadingChats (v : bool) (s : ChatState) : ChatState :=
  mkChatState (currentChatId s) (chats s) (messages s) (draftMessages s)
    (isLoadingMessages s) v (isSendingMessage s) (isSwitchingChat s)
    (isAITyping s) (isAIThinking s) (isCreatingChat s) (isExporting s)
    (isDeletingChat s) (hasMoreMessages s) (nextCursor s) (error s)
    (typingMessage s).

Definition set_isSendingMessage (v : bool) (s : ChatState) : ChatState :=
  mkChatState (currentChatId s) (chats s) (messages s) (draftMessages s)
    (isLoadingMessages s) (isLoadingChats s) v (isSwitchingChat s)
    (isAITyping s) (isAIThinking s) (isCreatingChat s) (isExporting s)
    (isDeletingChat s) (hasMoreMessages s) (nextCursor s) (error s)
    (typingMessage s).

Definition set_isDeletingChat (v : bool) (s : ChatState) : ChatState :=
  mkChatState (currentChatId s) (chats s) (messages s) (draftMessages s)
    (isLoadingMessages s) (isLoadingChats s) (isSendingMessage s)
    (isSwitchingChat s) (isAITyping s) (isAIThinking s) (isCreatingChat s)
    (isExporting s) v (hasMoreMessages s) (nextCursor s) (error s)
    (typingMessage s).

Definition set_hasMoreMessages (v : gmap string bool) (s : ChatState) : ChatState :=
  mkChatState (currentChatId s) (chats s) (messages s) (draftMessages s)
    (isLoadingMessages s) (isLoadingChats s) (isSendingMessage s)
    (isSwitchingChat s) (isAITyping s) (isAIThinking s) (isCreatingChat s)
    (isExporting s) (isDeletingChat s) v (nextCursor s) (error s)
    (typingMessage s).

Definition set_error (v : option string) (s : ChatState) : ChatState :=
  mkChatState (currentChatId s) (chats s) (messages s) (draftMessages s)
    (isLoadingMessages s) (isLoadingChats s) (isSendingMessage s)
    (isSwitchingChat s) (isAITyping s) (isAIThinking s) (isCreatingChat s)
    (isExporting s) (isDeletingChat s) (hasMoreMessages s) (nextCursor s)
    v (typingMessage s).

Definition set_typingMessage (v : option string) (s : ChatState) : ChatState :=
  mkChatState (currentChatId s) (chats s) (messages s) (draftMessages s)
    (isLoadingMessages s) (isLoadingChats s) (isSendingMessage s)
    (isSwitchingChat s) (isAITyping s) (isAIThinking s) (isCreatingChat s)
    (isExporting s) (isDeletingChat s) (hasMoreMessages s) (nextCursor s)
    (error s) v.

Definition initialState : ChatState :=
  mkChatState None [] ∅ ∅ false false false false false false false false
    false ∅ None None None.

(** [prev.messages[chatId] || []]: an array is always truthy, so the
    default is taken exactly when the key is absent. *)
Definition messages_of (s : ChatState) (chatId : string) : list Message :=
  default [] (messages s !! chatId).

(** [msg.status === st] *)
Definition status_is (st : MessageStatus) (msg : Message) : bool :=
  bool_decide (m_status msg = Some st).


(** ** The backend collaborator ([mockApi.chat]) and the signed-in user *)

Record User : Type := mkUser {
  u_id : string;
  u_username : string;
  u_email : option string;
  u_name : option string
}.

(** What [getMessages] resolves to. *)
Record MessagesPage : Type := mkMessagesPage {
  r_messages : list Message;
  r_hasMore : bool;
  r_nextCursor : option string
}.

(** What [deleteChat] resolves to. *)
Record DeleteResult : Type := mkDeleteResult {
  success : bool;
  remainingChats : list Chat
}.

Inductive UpdateStatus : Type := upd_interrupted | upd_cancelled.

(** A request issued to the backend; [signal] is the controller whose
    signal was passed, if any. *)
Inductive BackendCall : Type :=
| call_getChats
| call_getMessages (chatId : string) (cursor : option string)
| call_createChat (firstMessage : string)
| call_sendMessage (chatId content : string) (signal : option nat)
| call_updateMessage (chatId messageId : string) (status : UpdateStatus)
    (finalContent : string)
| call_deleteChat (chatId : string).

(** A value a rejected promise carries into a [catch]: an [Error] object
    (a [DOMException] is one), some other value without a [name], or
    [null]/[undefined]. *)
Inductive Thrown : Type :=
| ErrorObject (name message : string)
| PlainValue
| Nullish.

(** [error instanceof Error ? error.message : fallback] *)
Definition error_message (fallback : string) (e : Thrown) : string :=
  match e with
  | ErrorObject _ message => message
  | PlainValue | Nullish => fallback
  end.

(** How the promise of an [async] operation settles. *)
Inductive Settled : Type :=
| Fulfilled
| Rejected (e : Thrown).

(** ** The provider: state, refs and issued calls *)

(** The closure of the [setInterval] callback of [startTypingAnimation]. *)
Record Interval : Type := mkInterval {
  fullMessage : string;
  messageId : string;
  currentIndex : nat
}.

(** An [AbortController] is its number; [aborted] holds those whose signal
    has fired. *)
Record World : Type := mkWorld {
  state : ChatState;
  abortControllerRef : option nat;
  aborted : gset nat;
  controllers : nat;
  typingIntervalRef : option Interval;
  calls : list BackendCall
}.

Definition set_state (v : ChatState) (w : World) : World :=
  mkWorld v (abortControllerRef w) (aborted w) (controllers w)
    (typingIntervalRef w) (calls w).

Definition set_abortControllerRef (v : option nat) (w : World) : World :=
  mkWorld (state w) v (aborted w) (controllers w) (typingIntervalRef w)
    (calls w).

Definition set_aborted (v : gset nat) (w : World) : World :=
  mkWorld (state w) (abortControllerRef w) v (controllers w)
    (typingIntervalRef w) (calls w).

Definition set_controllers (v : nat) (w : World) : World :=
  mkWorld (state w) (abortControllerRef w) (aborted w) v
    (typingIntervalRef w) (calls w).

Definition set_typingIntervalRef (v : option Interval) (w : World) : World :=
  mkWorld (state w) (abortControllerRef w) (aborted w) (controllers w) v
    (calls w).

Definition set_calls (v : list BackendCall) (w : World) : World :=
  mkWorld (state w) (abortControllerRef w) (aborted w) (controllers w)
    (typingIntervalRef w) v.

Definition initialWorld : World :=
  mkWorld initialState None ∅ 0 None [].

(** [setState(prev => f prev)] *)
Definition setState (f : ChatState -> ChatState) (w : World) : World :=
  set_state (f (state w)) w.

(** A call to [mockApi.chat]. *)
Definition issue (c : BackendCall) (w : World) : World :=
  set_calls (calls w ++ [c]) w.

(** [if (abortControllerRef.current) abortControllerRef.current.abort()] *)
Definition abort_current (w : World) : World :=
  match abortControllerRef w with
  | Some c => set_aborted ({[c]} ∪ aborted w) w
  | None => w
  end.

(** [abortControllerRef.current = new AbortController()] *)
Definition new_controller (w : World) : World :=
  set_controllers (S (controllers w))
    (set_abortControllerRef (Some (controllers w)) w).

(** [controller?.signal.aborted] *)
Definition signal_aborted (controller : option nat) (w : World) : bool :=
  match controller with
  | Some c => bool_decide (c ∈ aborted w)
  | None => false
  end.

Definition clearTypingAnimation (w : World) : World :=
  set_typingIntervalRef None w.

(** ** loadChats and loadMessages *)

Definition loadChats_begin (prev : ChatState) : ChatState :=
  set_error None (set_isLoadingChats true prev).

Definition loadChats_success (loaded : list Chat) (prev : ChatState)
    : ChatState :=
  set_isLoadingChats false (set_chats loaded prev).

Definition loadChats_failure (e : Thrown) (prev : ChatState) : ChatState :=
  set_error (Some (error_message "Failed to load chats" e))
    (set_isLoadingChats false prev).

Definition loadChats (isAuthenticated : bool) (w : World) : World :=
  if isAuthenticated then issue call_getChats (setState loadChats_begin w)
  else w.

Definition loadChats_resolved (loaded : list Chat) (w : World) : World :=
  setState (loadChats_success loaded) w.

Definition loadChats_rejected (e : Thrown) (w : World) : World :=
  setState (loadChats_failure e) w.

Definition loadMessages_begin (prev : ChatState) : ChatState :=
  set_error None (set_isLoadingMessages true prev).

Definition loadMessages_success (chatId : string) (cursor : option string)
    (response : MessagesPage) (prev : ChatState) : ChatState :=
  let existingMessages := messages_of prev chatId in
  let newMessages :=
    if truthy_opt cursor
    then existingMessages ++ r_messages response
    else r_messages response in
  set_isLoadingMessages false
    (set_hasMoreMessages (<[chatId := r_hasMore response]> (hasMoreMessages prev))
       (set_messages (<[chatId := newMessages]> (messages prev)) prev)).

Definition loadMessages_failure (e : Thrown) (prev : ChatState) : ChatState :=
  set_error (Some (error_message "Failed to load messages" e))
    (set_isLoadingMessages false prev).

(** The call, up to the [await]. *)
Definition loadMessages (chatId : string) (cursor : option string)
    (w : World) : World :=
  issue (call_getMessages chatId cursor) (setState loadMessages_begin w).

Definition loadMessages_resolved (chatId : string) (cursor : option string)
    (response : MessagesPage) (w : World) : World :=
  setState (loadMessages_success chatId cursor response) w.

Definition loadMessages_rejected (e : Thrown) (w : World) : World :=
  setState (loadMessages_failure e) w.

(** ** selectChat and createNewChat *)

Definition selectChat_update (chatId : string) (prev : ChatState) : ChatState :=
  set_draftMessages
    (<[chatId := or_empty (read_draft (draftMessages prev) chatId)]>
       (draftMessages prev))
    (set_hasMoreMessages (<[chatId := true]> (hasMoreMessages prev))
       (set_messages (<[chatId := []]> (messages prev))
          (set_isSendingMessage false
             (set_typingMessage None
                (set_currentChatId (Some chatId) prev))))).

Definition selectChat (chatId : string) (w : World) : World :=
  let w := clearTypingAnimation w in
  let w := set_abortControllerRef None (abort_current w) in
  let w := setState (selectChat_update chatId) w in
  loadMessages chatId None w.

(** [`new-chat-${Date.now()}`] *)
Definition temporary_id (now : N) : string := "new-chat-" +:+ pretty now.

Definition createNewChat_update (newChatId : string) (prev : ChatState)
    : ChatState :=
  set_isSendingMessage false
    (set_typingMessage None
       (set_draftMessages (<[newChatId := Text ""]> (draftMessages prev))
          (set_messages (<[newChatId := []]> (messages prev))
             (set_currentChatId (Some newChatId) prev)))).

Definition createNewChat (now : N) (w : World) : World :=
  let w := clearTypingAnimation w in
  let w := set_abortControllerRef None (abort_current w) in
  setState (createNewChat_update (temporary_id now)) w.

(** ** The typing animation *)

(** [chars.slice(0, n).join('')] for [chars = fullMessage.split('')] *)
Definition revealed (n : nat) (fullMessage : string) : string :=
  substring 0 n fullMessage.

Definition typing_reveal (partialMessage : string) (prev : ChatState)
    : ChatState :=
  set_typingMessage (Some partialMessage) prev.

Definition finish_typing (fullMessage : string) (msg : Message) : Message :=
  mkMessage (m_id msg) (m_chatId msg) (m_role msg) fullMessage
    (m_timestamp msg) (Some sent) (m_wasInterrupted msg).

Definition typing_complete (fullMessage messageId : string)
    (prev : ChatState) : ChatState :=
  match currentChatId prev with
  | Some chatId =>
      if truthy chatId then
        let updatedMessages :=
          map (fun msg =>
                 if bool_decide (m_id msg = messageId)
                 then finish_typing fullMessage msg
                 else msg)
              (messages_of prev chatId) in
        set_isSendingMessage false
          (set_typingMessage None
             (set_messages (<[chatId := updatedMessages]> (messages prev)) prev))
      else prev
  | None => prev
  end.

Definition startTypingAnimation (fullMessage messageId : string)
    (w : World) : World :=
  set_typingIntervalRef (Some (mkInterval fullMessage messageId 0))
    (clearTypingAnimation w).

(** One firing of the interval callback; without an interval there is no
    callback to fire. *)
Definition tick (w : World) : World :=
  match typingIntervalRef w with
  | None => w
  | Some iv =>
      if (currentIndex iv <? String.length (fullMessage iv))%nat then
        let partialMessage := revealed (currentIndex iv + 1) (fullMessage iv) in
        set_typingIntervalRef
          (Some (mkInterval (fullMessage iv) (messageId iv) (currentIndex iv + 1)))
          (setState (typing_reveal partialMessage) w)
      else
        setState (typing_complete (fullMessage iv) (messageId iv))
          (clearTypingAnimation w)
  end.

Fixpoint ticks (n : nat) (w : World) : World :=
  match n with
  | 0 => w
  | S n => ticks n (tick w)
  end.

(** ** sendMessage *)

(** The readings of [Date.now()] and [new Date().toISOString()] one call
    of [sendMessage] takes, in the order it takes them. *)
Record Clock : Type := mkClock {
  now_chat : N;
  now_msg : N;
  now_thinking : N;
  iso_msg : string;
  iso_thinking : string
}.

Definition sendMessage_newChat (chatId : string) (prev : ChatState)
    : ChatState :=
  set_messages (<[chatId := []]> (messages prev))
    (set_currentChatId (Some chatId) prev).

Definition sendMessage_optimistic (chatId : string)
    (userMessage thinkingMessage : Message) (prev : ChatState) : ChatState :=
  set_draftMessages (<[chatId := Text ""]> (draftMessages prev))
    (set_messages
       (<[chatId := messages_of prev chatId ++ [userMessage; thinkingMessage]]>
          (messages prev))
       (set_error None (set_isSendingMessage true prev))).

(** [{ ...msg, chatId: actualChatId }] *)
Definition relabel (actualChatId : string) (msg : Message) : Message :=
  mkMessage (m_id msg) actualChatId (m_role msg) (m_content msg)
    (m_timestamp msg) (m_status msg) (m_wasInterrupted msg).

Definition sendMessage_rekey (chatId : string) (newChat : Chat)
    (prev : ChatState) : ChatState :=
  let actualChatId := c_id newChat in
  let tempMessages := messages_of prev chatId in
  let newMessages :=
    <[actualChatId := map (relabel actualChatId) tempMessages]>
      (delete chatId (messages prev)) in
  set_messages newMessages
    (set_chats (newChat :: chats prev)
       (set_currentChatId (Some actualChatId) prev)).

Definition sendMessage_typing (actualChatId : string)
    (aiMessageWithTyping : Message) (prev : ChatState) : ChatState :=
  let currentMessages := messages_of prev actualChatId in
  let filteredMessages :=
    filter (fun msg => m_status msg <> Some thinking) currentMessages in
  set_messages
    (<[actualChatId := filteredMessages ++ [aiMessageWithTyping]]> (messages prev))
    prev.

Definition sendMessage_aborted (errorChatId : string) (prev : ChatState)
    : ChatState :=
  let currentMessages := messages_of prev errorChatId in
  let filteredMessages :=
    filter (fun msg => m_status msg <> Some thinking) currentMessages in
  set_isSendingMessage false
    (set_messages (<[errorChatId := filteredMessages]> (messages prev)) prev).

Definition sendMessage_errored (errorChatId : string) (text : string)
    (prev : ChatState) : ChatState :=
  let currentMessages := messages_of prev errorChatId in
  let filteredMessages :=
    filter (fun msg => m_status msg <> Some thinking) currentMessages in
  set_error (Some text)
    (set_isSendingMessage false
       (set_messages (<[errorChatId := filteredMessages]> (messages prev)) prev)).

(** The locals of a suspended call: [state.currentChatId] as the callback
    closed over it, [chatId], [content], [actualChatId] and [controller]. *)
Record SendFrame : Type := mkSendFrame {
  sf_closure : option string;
  sf_chatId : string;
  sf_content : string;
  sf_actualChatId : string;
  sf_controller : option nat
}.

Inductive SendAwait : Type :=
| AwaitCreateChat (f : SendFrame)
| AwaitSendMessage (f : SendFrame).

(** The call, up to its first [await]; [None] when it returned at
    [if (!user) return]. *)
Definition sendMessage (auth_user : option User) (content : string)
    (clk : Clock) (w : World) : World * option SendAwait :=
  let closure := currentChatId (state w) in
  match auth_user with
  | None => (w, None)
  | Some _ =>
      let fresh :=
        let chatId := temporary_id (now_chat clk) in
        (chatId, setState (sendMessage_newChat chatId) w) in
      let '(chatId, w) :=
        match closure with
        | Some c => if truthy c then (c, w) else fresh
        | None => fresh
        end in
      let w := new_controller (abort_current w) in
      let userMessage :=
        mkMessage ("msg-" +:+ pretty (now_msg clk)) chatId user content
          (iso_msg clk) (Some sent) None in
      let thinkingMessage :=
        mkMessage ("thinking-" +:+ pretty (now_thinking clk)) chatId assistant
          "" (iso_thinking clk) (Some thinking) None in
      let w := setState (sendMessage_optimistic chatId userMessage thinkingMessage) w in
      if String.prefix "new-chat-" chatId then
        (issue (call_createChat content) w,
         Some (AwaitCreateChat (mkSendFrame closure chatId content chatId None)))
      else
        let controller := abortControllerRef w in
        (issue (call_sendMessage chatId content controller) w,
         Some (AwaitSendMessage
                 (mkSendFrame closure chatId content chatId controller)))
  end.

(** [createChat] resolved with [newChat]: the re-keying update, then the
    request for the reply under whatever controller the ref holds now. *)
Definition sendMessage_chatCreated (f : SendFrame) (newChat : Chat)
    (w : World) : World * SendAwait :=
  let actualChatId := c_id newChat in
  let w := setState (sendMessage_rekey (sf_chatId f) newChat) w in
  let controller := abortControllerRef w in
  (issue (call_sendMessage actualChatId (sf_content f) controller) w,
   AwaitSendMessage
     (mkSendFrame (sf_closure f) (sf_chatId f) (sf_content f) actualChatId
        controller)).

(** The backend's [sendMessage] resolved with [aiResponse]. *)
Definition sendMessage_resolved (f : SendFrame) (aiResponse : Message)
    (w : World) : World :=
  if signal_aborted (sf_controller f) w then w
  else
    let aiMessageWithTyping :=
      mkMessage (m_id aiResponse) (sf_actualChatId f) (m_role aiResponse)
        (m_content aiResponse) (m_timestamp aiResponse) (Some typing)
        (m_wasInterrupted aiResponse) in
    startTypingAnimation (m_content aiResponse) (m_id aiResponse)
      (setState (sendMessage_typing (sf_actualChatId f) aiMessageWithTyping) w).

(** [state.currentChatId || chatId] *)
Definition errorChatId (f : SendFrame) : string :=
  match sf_closure f with
  | Some c => if truthy c then c else sf_chatId f
  | None => sf_chatId f
  end.

(** Either awaited promise rejected with [e]: the [catch] block.  Reading
    [.name] of [null] throws out of the block; nothing else does. *)
Definition sendMessage_rejected (f : SendFrame) (e : Thrown) (w : World)
    : World * Settled :=
  match e with
  | Nullish =>
      (w, Rejected (ErrorObject "TypeError" "Cannot read properties of null"))
  | ErrorObject name _ =>
      if bool_decide (name = "AbortError")
      then (setState (sendMessage_aborted (errorChatId f)) w, Fulfilled)
      else (setState (sendMessage_errored (errorChatId f)
                        (error_message "Failed to send message" e)) w,
            Fulfilled)
  | PlainValue =>
      (setState (sendMessage_errored (errorChatId f)
                   (error_message "Failed to send message" e)) w,
       Fulfilled)
  end.

(** ** cancelMessage *)

(** The marker appended to an interrupted reply: U+2014, written as the
    three units of its UTF-8 form. *)
Definition em_dash : string :=
  String (ascii_of_nat 226) (String (ascii_of_nat 128)
    (String (ascii_of_nat 148) EmptyString)).

(** [messages[messages.length - 2]] *)
Definition second_last (l : list Message) : option Message :=
  if (length l <? 2)%nat then None else l !! (length l - 2)%nat.

Definition interrupt_typing (interruptedContent : string) (msg : Message)
    : Message :=
  mkMessage (m_id msg) (m_chatId msg) (m_role msg) interruptedContent
    (m_timestamp msg) (Some interrupted) (Some true).

Definition interrupt_thinking (msg : Message) : Message :=
  mkMessage (m_id msg) (m_chatId msg) assistant "" (m_timestamp msg)
    (Some interrupted) (Some true).

(** The body of both [if (isTyping)] branches. *)
Definition cancel_typing (chatId : string) (lastMessage : Message)
    (prev : ChatState) : ChatState * list BackendCall :=
  let interruptedContent :=
    match typingMessage prev with
    | Some t => if truthy t then t +:+ em_dash else ""
    | None => ""
    end in
  let updatedMessages :=
    map (fun msg =>
           if status_is typing msg then interrupt_typing interruptedContent msg
           else msg)
        (messages_of prev chatId) in
  (set_typingMessage None
     (set_isSendingMessage false
        (set_messages (<[chatId := updatedMessages]> (messages prev)) prev)),
   if truthy_opt (typingMessage prev)
   then [call_updateMessage chatId (m_id lastMessage) upd_interrupted
           interruptedContent]
   else []).

(** The body of both [else if (isThinking)] branches. *)
Definition cancel_thinking (chatId : string) (lastMessage : Message)
    (prev : ChatState) : ChatState * list BackendCall :=
  let updatedMessages :=
    map (fun msg => if status_is thinking msg then interrupt_thinking msg else msg)
        (messages_of prev chatId) in
  (set_typingMessage None
     (set_isSendingMessage false
        (set_messages (<[chatId := updatedMessages]> (messages prev)) prev)),
   match second_last (messages_of prev chatId) with
   | Some secondLastMessage =>
       if bool_decide (m_role secondLastMessage = user)
       then [call_updateMessage chatId (m_id lastMessage) upd_cancelled ""]
       else []
   | None => []
   end).

(** [// No active message to cancel] *)
Definition cancel_nothing (prev : ChatState) : ChatState * list BackendCall :=
  (set_typingMessage None (set_isSendingMessage false prev), []).

(** The updater of [cancelMessage], with the backend calls it makes.  On an
    empty list [lastMessage?.status] is [undefined] and both tests fail. *)
Definition cancelMessage_update (isInterruption : bool)
    (newContent : option string) (chatId : string) (prev : ChatState)
    : ChatState * list BackendCall :=
  match last (messages_of prev chatId) with
  | None => cancel_nothing prev
  | Some lastMessage =>
      let isTyping :=
        status_is typing lastMessage && truthy_opt (typingMessage prev) in
      let isThinking := status_is thinking lastMessage in
      if isInterruption && truthy_opt newContent then
        if isTyping then cancel_typing chatId lastMessage prev
        else if isThinking then cancel_thinking chatId lastMessage prev
        else cancel_nothing prev
      else
        if isTyping then cancel_typing chatId lastMessage prev
        else if isThinking then cancel_thinking chatId lastMessage prev
        else cancel_nothing prev
  end.

Definition cancelMessage (isInterruption : bool) (newContent : option string)
    (w : World) : World :=
  let closure := currentChatId (state w) in
  let w := set_abortControllerRef None (abort_current w) in
  let w := clearTypingAnimation w in
  match closure with
  | Some chatId =>
      if truthy chatId then
        let '(s, notified) :=
          cancelMessage_update isInterruption newContent chatId (state w) in
        set_calls (calls w ++ notified) (set_state s w)
      else w
  | None => w
  end.

(** ** Drafts *)

(** [content || ''] is [content]. *)
Definition saveDraft (chatId content : string) (w : World) : World :=
  if truthy chatId then
    setState (fun prev =>
                set_draftMessages (<[chatId := Text content]> (draftMessages prev))
                  prev)
             w
  else w.

(** [if (!chatId) return ''; return state.draftMessages[chatId] || ''] *)
Definition getDraft (chatId : string) (s : ChatState) : Draft :=
  if truthy chatId then or_empty (read_draft (draftMessages s) chatId)
  else Text "".

(** ** deleteChat *)

Definition deleteChat_begin (prev : ChatState) : ChatState :=
  set_error None (set_isDeletingChat true prev).

Definition deleteChat_success (chatId : string) (prev : ChatState)
    : ChatState :=
  let remainingChats := filter (fun chat => c_id chat <> chatId) (chats prev) in
  let newMessages := delete chatId (messages prev) in
  let newDrafts := delete chatId (draftMessages prev) in
  let newHasMoreMessages := delete chatId (hasMoreMessages prev) in
  set_error None
    (set_isDeletingChat false
       (set_currentChatId
          (if bool_decide (currentChatId prev = Some chatId) then None
           else currentChatId prev)
          (set_hasMoreMessages newHasMoreMessages
             (set_draftMessages newDrafts
                (set_messages newMessages (set_chats remainingChats prev)))))).

Definition deleteChat_failure (e : Thrown) (prev : ChatState) : ChatState :=
  set_error (Some (error_message "Failed to delete chat" e))
    (set_isDeletingChat false prev).

(** The locals of a suspended call: [state.currentChatId] as the callback
    closed over it, and [chatId]. *)
Record DeleteFrame : Type := mkDeleteFrame {
  df_closure : option string;
  df_chatId : string
}.

Definition deleteChat (chatId : string) (w : World) : World * DeleteFrame :=
  let closure := currentChatId (state w) in
  let w := setState deleteChat_begin w in
  let w :=
    if bool_decide (closure = Some chatId)
       && bool_decide (is_Some (abortControllerRef w))
    then clearTypingAnimation (set_abortControllerRef None (abort_current w))
    else w in
  (issue (call_deleteChat chatId) w, mkDeleteFrame closure chatId).

(** The backend resolved with [result]; [now] is the clock reading of the
    [createNewChat] that replaces a deleted current chat. *)
Definition deleteChat_resolved (f : DeleteFrame) (result : DeleteResult)
    (now : N) (w : World) : World * Settled :=
  if success result then
    let w := setState (deleteChat_success (df_chatId f)) w in
    let w :=
      if bool_decide (df_closure f = Some (df_chatId f))
      then createNewChat now w
      else w in
    (w, Fulfilled)
  else (w, Fulfilled).

(** The backend rejected with [e]: the [catch] block, which rethrows. *)
Definition deleteChat_rejected (f : DeleteFrame) (e : Thrown) (w : World)
    : World * Settled :=
  (setState (deleteChat_failure e) w, Rejected e).

(** ** The input area ([InputArea.tsx]) *)

(** The white space [trim] removes, among the units below 128. *)
Definition is_space (a : ascii) : bool :=
  let n := nat_of_ascii a in
  ((9 <=? n) && (n <=? 13) || (n =? 32))%nat.

Fixpoint trim_start (s : string) : string :=
  match s with
  | EmptyString => EmptyString
  | String a rest => if is_space a then trim_start rest else s
  end.

Fixpoint trim_end (s : string) : string :=
  match s with
  | EmptyString => EmptyString
  | String a rest =>
      match trim_end rest with
      | EmptyString => if is_space a then EmptyString else String a EmptyString
      | t => String a t
      end
  end.

Definition trim (s : string) : string := trim_end (trim_start s).

(** The provider together with the [message] state of the input area. *)
Record Page : Type := mkPage {
  world : World;
  message : string
}.

Definition setMessage (v : string) (p : Page) : Page := mkPage (world p) v.

Definition in_world (f : World -> World) (p : Page) : Page :=
  mkPage (f (world p)) (message p).

(** Where [handleSend] is suspended: it has returned, it waits for the
    100 ms timer after cancelling, or it awaits [sendMessage]. *)
Inductive HandleAwait : Type :=
| Returned
| AwaitTimer (trimmedMessage : string)
| AwaitSend (trimmedMessage : string) (pending : option SendAwait).

Definition handleSend_send (auth_user : option User) (clk : Clock)
    (trimmedMessage : string) (p : Page) : Page * HandleAwait :=
  let '(w, pending) := sendMessage auth_user trimmedMessage clk (world p) in
  (mkPage w (message p), AwaitSend trimmedMessage pending).

Definition handleSend (auth_user : option User) (clk : Clock) (p : Page)
    : Page * HandleAwait :=
  let trimmedMessage := trim (message p) in
  if truthy trimmedMessage then
    let p := setMessage "" p in
    if isSendingMessage (state (world p)) then
      (in_world (cancelMessage true None) p, AwaitTimer trimmedMessage)
    else handleSend_send auth_user clk trimmedMessage p
  else (p, Returned).

(** The timer fired: [sendMessage] is called. *)
Definition handleSend_timer (auth_user : option User) (clk : Clock)
    (trimmedMessage : string) (p : Page) : Page * HandleAwait :=
  handleSend_send auth_user clk trimmedMessage p.

(** The promise of [sendMessage] settled: the [catch] restores the text. *)
Definition handleSend_settled (trimmedMessage : string) (r : Settled)
    (p : Page) : Page :=
  match r with
  | Fulfilled => p
  | Rejected _ => setMessage trimmedMessage p
  end.

(** [handleCancel] *)
Definition handleCancel (p : Page) : Page :=
  in_world (cancelMessage false None) p.

(** ** Vocabulary of the specification *)

(** The chat the provider treats as selected: [currentChatId] when it
    passes the test [if (!chatId) return]. *)
Definition active_chat (s : ChatState) : option string :=
  match currentChatId s with
  | Some chatId => if truthy chatId then Some chatId else None
  | None => None
  end.

(** A message of an assistant turn that has not reached a final status. *)
Definition in_flight (msg : Message) : bool :=
  status_is thinking msg || status_is typing msg.

Definition in_flight_count (s : ChatState) (chatId : string) : nat :=
  length (List.filter in_flight (messages_of s chatId)).

Definition single_in_flight (s : ChatState) : Prop :=
  forall chatId, in_flight_count s chatId <= 1.

(** Controllers are numbered in the order they are created: the ref and
    the fired signals only know controllers that exist. *)
Definition controllers_known (w : World) : Prop :=
  (forall c, abortControllerRef w = Some c -> c < controllers w) /\
  (forall c, c ∈ aborted w -> c < controllers w).

(** The frame of a call of [handleSend] that has reached the backend's
    [sendMessage]. *)
Definition reply_frame (a : HandleAwait) : option SendFrame :=
  match a with
  | AwaitSend _ (Some (AwaitSendMessage f)) => Some f
  | _ => None
  end.

(** ** Scenarios *)

Module Scenario.

Definition alice : User := mkUser "user-001" "demo_user" None None.

Definition clk1 : Clock :=
  mkClock 1700000000000 1700000000001 1700000000002
    "2023-11-14T22:13:20.001Z" "2023-11-14T22:13:20.002Z".

Definition clk2 : Clock :=
  mkClock 1700000005000 1700000005001 1700000005002
    "2023-11-14T22:13:25.001Z" "2023-11-14T22:13:25.002Z".

Definition chat1 : Chat :=
  mkChat "chat-001" "user-001" "General Health Questions"
    (Some "Thank you for the information about vitamins.")
    "2023-11-13T22:13:20.000Z" "2023-11-12T22:13:20.000Z" 42.

Definition chat2 : Chat :=
  mkChat "chat-002" "user-001" "Nutrition and Diet"
    (Some "What are good sources of protein?")
    "2023-11-14T21:13:20.000Z" "2023-11-07T22:13:20.000Z" 28.

Definition reply : Message :=
  mkMessage "msg-k3x9q0z1a" "chat-001" assistant "Rest and fluids."
    "2023-11-14T22:13:23.000Z" (Some sent) None.

(** Signed in, chat list loaded, [chat-001] opened with an empty
    history. *)
Definition opened : World :=
  loadMessages_resolved "chat-001" None (mkMessagesPage [] false None)
    (selectChat "chat-001"
       (loadChats_resolved [chat1; chat2] (loadChats true initialWorld))).

(** A question is sent from the input area and the reply arrives; no
    tick of the animation has fired yet. *)
Definition reply_arrived : option (Page * SendFrame) :=
  let '(p, a) :=
    handleSend (Some alice) clk1 (mkPage opened "What are symptoms of flu?") in
  match reply_frame a with
  | Some f => Some (in_world (sendMessage_resolved f reply) p, f)
  | None => None
  end.

(** At that moment the user presses Escape. *)
Definition escape_before_first_tick : option World :=
  match reply_arrived with
  | Some (p, _) => Some (world (handleCancel p))
  | None => None
  end.

(** At that moment the user instead types a second question and presses
    Enter: [handleSend] cancels, waits for its timer and sends. *)
Definition enter_before_first_tick : option World :=
  match reply_arrived with
  | Some (p, _) =>
      match handleSend (Some alice) clk2 (setMessage "And of a cold?" p) with
      | (p, AwaitTimer trimmedMessage) =>
          Some (world (handleSend_timer (Some alice) clk2 trimmedMessage p).1)
      | _ => None
      end
  | None => None
  end.

(** The backend rejects the reply to a question with an [Error]. *)
Definition network_down : Thrown := ErrorObject "Error" "Network down".

Definition send_fails : option Page :=
  let '(p, a) := handleSend (Some alice) clk1 (mkPage opened "hello") in
  match reply_frame a with
  | Some f =>
      let '(w, r) := sendMessage_rejected f network_down (world p) in
      Some (handleSend_settled "hello" r (mkPage w (message p)))
  | None => None
  end.

(** A first message in a fresh session: the chat is created and re-keyed,
    then the backend rejects the reply. *)
Definition created : Chat :=
  mkChat "chat-7f3k2m9xq" "user-001" "hello" (Some "hello")
    "2023-11-14T22:13:21.000Z" "2023-11-14T22:13:21.000Z" 1.

Definition fresh_send_fails : option World :=
  match sendMessage (Some alice) "hello" clk1
          (loadChats_resolved [chat1; chat2] (loadChats true initialWorld)) with
  | (w, Some (AwaitCreateChat f)) =>
      match sendMessage_chatCreated f created w with
      | (w, AwaitSendMessage f) => Some (sendMessage_rejected f network_down w).1
      | _ => None
      end
  | _ => None
  end.

(** The backend answers a delete request with [success: false]. *)
Definition delete_unsuccessful : World * Settled :=
  let '(w, f) := deleteChat "chat-002" opened in
  deleteChat_resolved f (mkDeleteResult false [chat1; chat2]) 1700000009000 w.

(** A first question is sent in a fresh session.  While the chat is being
    created the user opens [chat-001] and sends a second question there.
    Then the creation is acknowledged, and then the reply to the second
    question, which nothing has cancelled, arrives. *)
Definition second_reply_after_rekey : option World :=
  match sendMessage (Some alice) "hello" clk1
          (loadChats_resolved [chat1; chat2] (loadChats true initialWorld)) with
  | (w, Some (AwaitCreateChat first)) =>
      let w :=
        loadMessages_resolved "chat-001" None (mkMessagesPage [] false None)
          (selectChat "chat-001" w) in
      match sendMessage (Some alice) "What are symptoms of flu?" clk2 w with
      | (w, Some (AwaitSendMessage second)) =>
          let w := (sendMessage_chatCreated first created w).1 in
          Some (sendMessage_resolved second reply w)
      | _ => None
      end
  | _ => None
  end.

End Scenario.

(** * The collaborators and the callers of the provider *)

(** ** JavaScript built-ins used by the backend *)

(** A number as the code below uses it: [NaN] or an integer.  Only
    integers below 2^53 in size are embedded, the ones a double holds
    exactly. *)
Inductive Number : Type :=
| NaN
| Int (z : Z).

Definition MAX_SAFE_INTEGER : Z := 9007199254740991.

(** White space among the units a [string] holds: TAB, LF, VT, FF, CR,
    SP and NBSP. *)
Definition is_white (a : ascii) : bool :=
  let n := nat_of_ascii a in
  ((9 <=? n) && (n <=? 13) || (n =? 32) || (n =? 160))%nat.

Definition digit_value (a : ascii) : option Z :=
  let n := nat_of_ascii a in
  if ((48 <=? n) && (n <=? 57))%nat then Some (Z.of_nat n - 48)%Z else None.

Fixpoint skip_white (s : string) : string :=
  match s with
  | EmptyString => EmptyString
  | String a rest => if is_white a then skip_white rest else s
  end.

(** The value of the longest prefix of decimal digits, after [acc];
    [seen] tells whether a digit has been read. *)
Fixpoint read_digits (acc : Z) (seen : bool) (s : string) : option Z :=
  match s with
  | EmptyString => if seen then Some acc else None
  | String a rest =>
      match digit_value a with
      | Some d => read_digits (10 * acc + d)%Z true rest
      | None => if seen then Some acc else None
      end
  end.

(** [parseInt(s, 10)]: leading white space, an optional sign, the longest
    run of digits; [NaN] when there is no digit.  [None] when the digits
    denote more than [MAX_SAFE_INTEGER], where the result is a rounded
    double, which is not embedded. *)
Definition parseInt10 (s : string) : option Number :=
  let s := skip_white s in
  let '(negative, s) :=
    match s with
    | String "-"%char rest => (true, rest)
    | String "+"%char rest => (false, rest)
    | _ => (false, s)
    end in
  match read_digits 0 false s with
  | None => Some NaN
  | Some v =>
      if (v <=? MAX_SAFE_INTEGER)%Z
      then Some (Int (if negative then - v else v)%Z)
      else None
  end.

(** The index [Array.prototype.slice] makes of a bound. *)
Definition slice_bound (len : nat) (k : Z) : nat :=
  if (k <? 0)%Z then Z.to_nat (Z.max (Z.of_nat len + k) 0)
  else Z.to_nat (Z.min k (Z.of_nat len)).

(** [l.slice(from, to)] *)
Definition js_slice {A : Type} (from to : Z) (l : list A) : list A :=
  let k := slice_bound (length l) from in
  let final := slice_bound (length l) to in
  take (final - k) (drop k l).

(** ** The mock backend ([services/mockResponses.ts]) *)

Module Mock.

Definition mockUser : User :=
  mkUser "user-001" "demo_user" (Some "demo@example.com") (Some "Demo User").

Definition DEMO_RESPONSE : string :=
  "This is a demo, so I will simply repeat this sentence about, idk like 1 more times, so you can see how the typing functionality is for the user to experience for a paragraph's long response.".

Definition userQuestions : list string :=
  [ "What are the symptoms of the common cold?";
    "How can I improve my sleep quality?";
    "What foods are good for heart health?";
    "How much water should I drink daily?";
    "What are the benefits of regular exercise?";
    "How can I manage stress effectively?";
    "What vitamins are essential for immune health?";
    "How often should I get health checkups?";
    "What are signs of dehydration?";
    "How can I improve my posture?";
    "What causes headaches?";
    "How can I boost my energy levels naturally?";
    "What are healthy snack options?";
    "How important is stretching before exercise?";
    "What are the risks of a sedentary lifestyle?" ].

(** The message pushed at step [i] of the loop of [generateMockMessages];
    [toISOString] renders a time in milliseconds. *)
Definition mock_message (toISOString : Z -> string) (baseTime : Z)
    (chatId : string) (i : nat) : Message :=
  let isUser := Nat.even i in
  mkMessage ("msg-" +:+ chatId +:+ "-" +:+ pretty i) chatId
    (if isUser then user else assistant)
    (if isUser
     then default "" (userQuestions !! ((i / 2) mod length userQuestions)%nat)
     else DEMO_RESPONSE)
    (toISOString (baseTime + Z.of_nat i * 300000)%Z) (Some sent) None.

(** [now] is the reading of [Date.now()]. *)
Definition generateMockMessages (toISOString : Z -> string) (now : Z)
    (chatId : string) (count : nat) : list Message :=
  let baseTime := (now - Z.of_nat count * 300000)%Z in
  rev (map (mock_message toISOString baseTime chatId) (seq 0 count)).

(** [getMessages(chatId, cursor)] with the default [limit] of 10: what the
    promise resolves to. *)
Definition getMessages (toISOString : Z -> string) (now : Z)
    (chatId : string) (cursor : option string) : option MessagesPage :=
  let limit := 10%Z in
  let allMessages := generateMockMessages toISOString now chatId 30 in
  let startIndex :=
    match cursor with
    | Some c => if truthy c then parseInt10 c else Some (Int 0)
    | None => Some (Int 0)
    end in
  match startIndex with
  | None => None
  | Some NaN => Some (mkMessagesPage [] false None)
  | Some (Int startIndex) =>
      let endIndex := Z.min (startIndex + limit) (Z.of_nat (length allMessages)) in
      let hasMore := (endIndex <? Z.of_nat (length allMessages))%Z in
      Some (mkMessagesPage (js_slice startIndex endIndex allMessages) hasMore
              (if hasMore then Some (pretty endIndex) else None))
  end.

(** What [sendMessage] resolves to when it is not aborted; [generated] is
    the result of [generateId()], [iso] the rendering of the time. *)
Definition sendMessage (generated iso : string) (chatId _content : string)
    : Message :=
  mkMessage ("msg-" +:+ generated) chatId assistant
    (DEMO_RESPONSE +:+ " " +:+ DEMO_RESPONSE) iso (Some sent) None.

Definition createChat (generated iso_lastMessageAt iso_createdAt : string)
    (firstMessage : string) : Chat :=
  mkChat ("chat-" +:+ generated) (u_id mockUser)
    (substring 0 50 firstMessage
       +:+ (if (50 <? String.length firstMessage)%nat then "..." else ""))
    (Some firstMessage) iso_lastMessageAt iso_createdAt 1.

(** [deleteChat] on the module's [mockChats]: the result and the new
    [mockChats]. *)
Definition deleteChat (chatId : string) (mockChats : list Chat)
    : DeleteResult * list Chat :=
  let remainingChats := filter (fun chat => c_id chat <> chatId) mockChats in
  (mkDeleteResult true remainingChats, remainingChats).

Definition quote : string := String (ascii_of_nat 34) EmptyString.

Definition newline : string := String (ascii_of_nat 10) EmptyString.

(** [content.replace]: every double quote becomes two. *)
Fixpoint double_quotes (s : string) : string :=
  match s with
  | EmptyString => EmptyString
  | String a rest =>
      if bool_decide (a = ascii_of_nat 34)
      then String a (String a (double_quotes rest))
      else String a (double_quotes rest)
  end.

Definition role_text (r : MessageRole) : string :=
  match r with
  | user => "user"
  | assistant => "assistant"
  end.

Definition csv_row (msg : Message) : string :=
  quote +:+ m_timestamp msg +:+ quote +:+ "," +:+
  quote +:+ role_text (m_role msg) +:+ quote +:+ "," +:+
  quote +:+ double_quotes (m_content msg) +:+ quote.

(** [rows.join('\n')] *)
Fixpoint join_lines (rows : list string) : string :=
  match rows with
  | [] => ""
  | [row] => row
  | row :: rest => row +:+ newline +:+ join_lines rest
  end.

Definition csv_of (msgs : list Message) : string :=
  let headers := "Timestamp,Role,Message" +:+ newline in
  let rows := join_lines (map csv_row msgs) in
  let disclaimer :=
    quote +:+ "DISCLAIMER" +:+ quote +:+ "," +:+ quote +:+ quote +:+ "," +:+
    quote +:+ "This chat history is for educational purposes only and should not be considered medical advice."
    +:+ quote +:+ newline in
  disclaimer +:+ headers +:+ rows.

(** The text and the type of the [Blob] that [exportChat] resolves to for
    the format [csv]. *)
Definition exportChat_csv (toISOString : Z -> string) (now : Z)
    (chatId : string) : string * string :=
  (csv_of (generateMockMessages toISOString now chatId 50), "text/csv").

End Mock.

(** ** The message list and the sidebar *)

(** [currentMessages] of [ChatWindow], the [messages] prop of the list. *)
Definition currentMessages (s : ChatState) : list Message :=
  match currentChatId s with
  | Some chatId => if truthy chatId then messages_of s chatId else []
  | None => []
  end.

(** [hasMore] of [MessageList]; a missing flag is [undefined], falsy. *)
Definition hasMore (s : ChatState) : bool :=
  match currentChatId s with
  | Some chatId =>
      if truthy chatId then default false (hasMoreMessages s !! chatId) else false
  | None => false
  end.

(** [handleLoadMore]; [container] tells whether the scroll container is
    mounted.  The result names the request it is suspended on. *)
Definition handleLoadMore (container : bool) (w : World)
    : World * option (string * string) :=
  match currentChatId (state w) with
  | Some chatId =>
      if negb (truthy chatId) || isLoadingMessages (state w)
         || negb (hasMore (state w))
      then (w, None)
      else if negb container then (w, None)
      else
        let cursor := pretty (length (currentMessages (state w))) in
        (loadMessages chatId (Some cursor) w, Some (chatId, cursor))
  | None => (w, None)
  end.

(** The delete dialog of [ChatSidebar]. *)
Record DeleteDialog : Type := mkDeleteDialog {
  deleteDialogOpen : bool;
  chatToDelete : option Chat;
  deleteError : option string
}.

Definition handleDeleteClick (chat : Chat) (d : DeleteDialog) : DeleteDialog :=
  mkDeleteDialog true (Some chat) None.

Definition handleDeleteCancel (d : DeleteDialog) : DeleteDialog :=
  mkDeleteDialog false None None.

(** The call, up to the [await]; [None] when there is no chat to
    delete. *)
Definition handleDeleteConfirm (d : DeleteDialog) (w : World)
    : World * option DeleteFrame :=
  match chatToDelete d with
  | None => (w, None)
  | Some chat => let '(w, f) := deleteChat (c_id chat) w in (w, Some f)
  end.

(** The promise of [deleteChat] settled. *)
Definition handleDeleteConfirm_settled (r : Settled) (d : DeleteDialog)
    : DeleteDialog :=
  match r with
  | Fulfilled => mkDeleteDialog false None None
  | Rejected e =>
      mkDeleteDialog (deleteDialogOpen d) (chatToDelete d)
        (Some (error_message "Failed to delete chat. Please try again." e))
  end.

(** ** The provider run against the mock backend *)

(** [selectChat], answered by the mock backend at time [now]. *)
Definition open_chat (toISOString : Z -> string) (now : Z) (chatId : string)
    (w : World) : World :=
  let w := selectChat chatId w in
  match Mock.getMessages toISOString now chatId None with
  | Some page => loadMessages_resolved chatId None page w
  | None => w
  end.

(** A press on the button that loads earlier messages, answered by the
    mock backend at time [now]. *)
Definition load_earlier (toISOString : Z -> string) (now : Z) (w : World)
    : World :=
  match handleLoadMore true w with
  | (w, Some (chatId, cursor)) =>
      match Mock.getMessages toISOString now chatId (Some cursor) with
      | Some page => loadMessages_resolved chatId (Some cursor) page w
      | None => w
      end
  | (w, None) => w
  end.

(** * Properties *)

(** Closed statements about a scenario are settled by running it. *)
Ltac by_running := vm_compute; reflexivity.

(** ** Strings and lists *)

Lemma truthy_true (s : string) : truthy s = true <-> s <> "".
Proof. destruct s; simpl; split; congruence. Qed.

Lemma truthy_false (s : string) : truthy s = false <-> s = "".
Proof. destruct s; simpl; split; congruence. Qed.

Lemma prefix_append (s t : string) : String.prefix s (s +:+ t) = true.
Proof.
  induction s as [|a s IH]; simpl.
  - now destruct t.
  - destruct (ascii_dec a a) as [_|Hne]; [exact IH | now elim Hne].
Qed.

Lemma prefix_truthy (s : string) :
  String.prefix "new-chat-" s = true -> truthy s = true.
Proof. destruct s; simpl; [discriminate | reflexivity]. Qed.

Lemma temporary_id_prefix (now : N) :
  String.prefix "new-chat-" (temporary_id now) = true.
Proof. apply prefix_append. Qed.

Lemma temporary_id_truthy (now : N) : truthy (temporary_id now) = true.
Proof. apply prefix_truthy, temporary_id_prefix. Qed.

Lemma revealed_all (s : string) : revealed (String.length s) s = s.
Proof.
  unfold revealed. induction s as [|a s IH]; simpl; [reflexivity|].
  now rewrite IH.
Qed.

Lemma revealed_length (n : nat) (s : string) :
  n <= String.length s -> String.length (revealed n s) = n.
Proof.
  unfold revealed. revert s.
  induction n as [|n IH]; intros [|a s] Hn; simpl in *;
    try reflexivity; try lia.
  rewrite IH by lia. reflexivity.
Qed.

Lemma revealed_prefix (n : nat) (s : string) :
  String.prefix (revealed n s) s = true.
Proof.
  unfold revealed. revert s.
  induction n as [|n IH]; intros [|a s]; simpl; try reflexivity.
  destruct (ascii_dec a a) as [_|Hne]; [apply IH | now elim Hne].
Qed.

Lemma last_map {A B : Type} (g : A -> B) (l : list A) :
  last (map g l) = g <$> last l.
Proof.
  induction l as [|x [|y l] IH]; try reflexivity.
  exact IH.
Qed.

Lemma messages_of_insert_eq (s : ChatState) (chatId : string)
    (l : list Message) (m : gmap string (list Message)) :
  messages_of (set_messages (<[chatId := l]> m) s) chatId = l.
Proof. unfold messages_of. simpl. now rewrite lookup_insert_eq. Qed.

(** ** What the helpers of the provider leave alone *)

Lemma state_setState (g : ChatState -> ChatState) (w : World) :
  state (setState g w) = g (state w).
Proof. reflexivity. Qed.

Lemma state_issue (c : BackendCall) (w : World) : state (issue c w) = state w.
Proof. reflexivity. Qed.

Lemma state_abort_current (w : World) : state (abort_current w) = state w.
Proof. unfold abort_current. now destruct (abortControllerRef w). Qed.

Lemma state_new_controller (w : World) : state (new_controller w) = state w.
Proof. reflexivity. Qed.

Lemma state_clearTypingAnimation (w : World) :
  state (clearTypingAnimation w) = state w.
Proof. reflexivity. Qed.

Lemma state_set_abortControllerRef (c : option nat) (w : World) :
  state (set_abortControllerRef c w) = state w.
Proof. reflexivity. Qed.

Lemma calls_setState (g : ChatState -> ChatState) (w : World) :
  calls (setState g w) = calls w.
Proof. reflexivity. Qed.

Lemma calls_issue (c : BackendCall) (w : World) :
  calls (issue c w) = calls w ++ [c].
Proof. reflexivity. Qed.

Lemma calls_abort_current (w : World) : calls (abort_current w) = calls w.
Proof. unfold abort_current. now destruct (abortControllerRef w). Qed.

Lemma calls_new_controller (w : World) : calls (new_controller w) = calls w.
Proof. reflexivity. Qed.

Lemma calls_clearTypingAnimation (w : World) :
  calls (clearTypingAnimation w) = calls w.
Proof. reflexivity. Qed.

Lemma calls_set_abortControllerRef (c : option nat) (w : World) :
  calls (set_abortControllerRef c w) = calls w.
Proof. reflexivity. Qed.

Create Rewrite HintDb world.

#[global] Hint Rewrite state_setState state_issue state_abort_current
  state_new_controller state_clearTypingAnimation state_set_abortControllerRef
  calls_setState calls_issue calls_abort_current calls_new_controller
  calls_clearTypingAnimation calls_set_abortControllerRef : world.

(** ** sendMessage on a fresh session *)

Lemma sendMessage_without_user (content : string) (clk : Clock) (w : World) :
  sendMessage None content clk w = (w, None).
Proof. reflexivity. Qed.

(** C2. With no chat selected and a user signed in, the part of
    [sendMessage] that runs before the backend answers makes the
    temporary id [new-chat-<now>] the current chat, binds it (and no other
    key) in the message map to exactly two messages, first the user's with
    the content sent and status [sent], then an assistant placeholder with
    empty content and status [thinking], leaves the chat directory alone, and
    is suspended on the request that creates the chat; when that request
    is answered, the directory gains that one chat. *)
Theorem sendMessage_fresh_session (u : User) (content : string) (clk : Clock)
    (w : World) :
  currentChatId (state w) = None ->
  let chatId := temporary_id (now_chat clk) in
  let w' := (sendMessage (Some u) content clk w).1 in
  exists userMessage thinkingMessage,
    String.prefix "new-chat-" chatId = true /\
    currentChatId (state w') = Some chatId /\
    messages (state w')
      = <[chatId := [userMessage; thinkingMessage]]> (messages (state w)) /\
    (m_role userMessage = user /\ m_content userMessage = content /\
     m_status userMessage = Some sent /\ m_chatId userMessage = chatId) /\
    (m_role thinkingMessage = assistant /\ m_content thinkingMessage = "" /\
     m_status thinkingMessage = Some thinking /\
     m_chatId thinkingMessage = chatId) /\
    chats (state w') = chats (state w) /\
    calls w' = calls w ++ [call_createChat content] /\
    (sendMessage (Some u) content clk w).2
      = Some (AwaitCreateChat (mkSendFrame None chatId content chatId None)) /\
    (forall newChat,
       chats (state (sendMessage_chatCreated
                       (mkSendFrame None chatId content chatId None) newChat w').1)
         = newChat :: chats (state w)).
Proof.
  intros Hnone chatId w'.
  pose proof (temporary_id_prefix (now_chat clk)) as Hpre. fold chatId in Hpre.
  assert (Hrun : sendMessage (Some u) content clk w
    = (issue (call_createChat content)
         (setState
            (sendMessage_optimistic chatId
               (mkMessage ("msg-" +:+ pretty (now_msg clk)) chatId user content
                  (iso_msg clk) (Some sent) None)
               (mkMessage ("thinking-" +:+ pretty (now_thinking clk)) chatId
                  assistant "" (iso_thinking clk) (Some thinking) None))
            (new_controller
               (abort_current (setState (sendMessage_newChat chatId) w)))),
       Some (AwaitCreateChat (mkSendFrame None chatId content chatId None)))).
  { unfold sendMessage. rewrite Hnone. fold chatId. cbv zeta beta iota.
    rewrite Hpre. reflexivity. }
  subst w'. rewrite Hrun. clear Hrun. cbn [fst snd].
  exists (mkMessage ("msg-" +:+ pretty (now_msg clk)) chatId user content
            (iso_msg clk) (Some sent) None),
         (mkMessage ("thinking-" +:+ pretty (now_thinking clk)) chatId assistant
            "" (iso_thinking clk) (Some thinking) None).
  split; [exact Hpre|].
  autorewrite with world.
  repeat split.
  - cbn. unfold messages_of. cbn.
    rewrite lookup_insert_eq, insert_insert_eq. reflexivity.
  - intros newChat. unfold sendMessage_chatCreated. cbn [fst].
    autorewrite with world. reflexivity.
Qed.

Lemma sendMessage_fresh_session_witness :
  currentChatId (state initialWorld) = None /\
  exists userMessage thinkingMessage,
    messages (state (sendMessage (Some Scenario.alice) "hello" Scenario.clk1
                       initialWorld).1) !! "new-chat-1700000000000"
      = Some [userMessage; thinkingMessage] /\
    m_content userMessage = "hello" /\
    m_status thinkingMessage = Some thinking.
Proof.
  split; [reflexivity|].
  destruct (sendMessage_fresh_session Scenario.alice "hello" Scenario.clk1
              initialWorld eq_refl)
    as (um & tm & _ & _ & Hm & (_ & Hc & _) & (_ & _ & Hs & _) & _).
  exists um, tm. rewrite Hm.
  split; [apply lookup_insert_eq | split; assumption].
Defined.

(** ** Re-keying a temporary chat *)

(** [sendMessage] asks the backend to create the chat exactly when the id
    it works on starts with [new-chat-]. *)
Lemma sendMessage_awaits_createChat (u : User) (content chatId : string)
    (clk : Clock) (w : World) :
  currentChatId (state w) = Some chatId ->
  String.prefix "new-chat-" chatId = true ->
  exists w1,
    sendMessage (Some u) content clk w
      = (w1, Some (AwaitCreateChat (mkSendFrame (Some chatId) chatId content
                                      chatId None))).
Proof.
  intros Hcur Hpre. unfold sendMessage. rewrite Hcur.
  rewrite (prefix_truthy _ Hpre). cbv zeta beta iota. rewrite Hpre.
  eexists. reflexivity.
Qed.

(** C4. When the backend acknowledges the creation of the chat with
    [newChat], whose id is not the temporary one, the provider makes one
    state update, and in the state it produces no list is stored under the
    temporary id while the list that was stored there is stored under the
    new id, message for message in the same order, each with its [chatId]
    set to the new id; lists under other ids are the same. *)
Theorem rekey_is_atomic (f : SendFrame) (newChat : Chat) (w : World) :
  c_id newChat <> sf_chatId f ->
  let w' := (sendMessage_chatCreated f newChat w).1 in
  let before := messages_of (state w) (sf_chatId f) in
  state w' = sendMessage_rekey (sf_chatId f) newChat (state w) /\
  messages (state w') !! sf_chatId f = None /\
  messages (state w') !! c_id newChat
    = Some (map (relabel (c_id newChat)) before) /\
  length (messages_of (state w') (c_id newChat)) = length before /\
  (forall i msg,
     before !! i = Some msg ->
     messages_of (state w') (c_id newChat) !! i
       = Some (mkMessage (m_id msg) (c_id newChat) (m_role msg) (m_content msg)
                 (m_timestamp msg) (m_status msg) (m_wasInterrupted msg))) /\
  (forall other,
     other <> sf_chatId f -> other <> c_id newChat ->
     messages (state w') !! other = messages (state w) !! other).
Proof.
  intros Hne w' before. subst w'.
  unfold sendMessage_chatCreated. cbn [fst]. autorewrite with world.
  split; [reflexivity|].
  unfold sendMessage_rekey. cbn [messages set_messages].
  assert (Hnew : messages_of
            (set_messages
               (<[c_id newChat := map (relabel (c_id newChat))
                                    (messages_of (state w) (sf_chatId f))]>
                  (delete (sf_chatId f) (messages (state w))))
               (set_chats (newChat :: chats (state w))
                  (set_currentChatId (Some (c_id newChat)) (state w))))
            (c_id newChat)
          = map (relabel (c_id newChat)) before)
    by apply messages_of_insert_eq.
  split; [rewrite lookup_insert_ne by exact Hne; apply lookup_delete_eq|].
  split; [apply lookup_insert_eq|].
  split; [rewrite Hnew; apply length_map|].
  split.
  - intros i msg Hi. rewrite Hnew, list_lookup_fmap, Hi. reflexivity.
  - intros other H1 H2.
    rewrite lookup_insert_ne by congruence.
    rewrite lookup_delete_ne by congruence. reflexivity.
Qed.

Lemma rekey_is_atomic_witness :
  c_id Scenario.created <> "new-chat-1700000000000" /\
  messages
    (state
       (sendMessage_chatCreated
          (mkSendFrame None "new-chat-1700000000000" "hello"
             "new-chat-1700000000000" None)
          Scenario.created
          (sendMessage (Some Scenario.alice) "hello" Scenario.clk1
             initialWorld).1).1) !! "new-chat-1700000000000" = None.
Proof.
  split; [discriminate|].
  exact (proj1 (proj2
    (rekey_is_atomic
       (mkSendFrame None "new-chat-1700000000000" "hello"
          "new-chat-1700000000000" None)
       Scenario.created
       (sendMessage (Some Scenario.alice) "hello" Scenario.clk1 initialWorld).1
       ltac:(discriminate)))).
Defined.

(** ** Drafts *)

Lemma getDraft_empty_id (s : ChatState) : getDraft "" s = "".
Proof. reflexivity. Qed.

Lemma saveDraft_empty_id (content : string) (w : World) :
  saveDraft "" content w = w.
Proof. reflexivity. Qed.

Lemma read_draft_insert_eq (drafts : gmap string Draft) (chatId : string)
    (d : Draft) :
  read_draft (<[chatId := d]> drafts) chatId = Some d.
Proof. unfold read_draft. now rewrite lookup_insert_eq. Qed.

Lemma read_draft_insert_ne (drafts : gmap string Draft)
    (chatId other : string) (d : Draft) :
  other <> chatId ->
  read_draft (<[other := d]> drafts) chatId = read_draft drafts chatId.
Proof. intros Hne. unfold read_draft. now rewrite lookup_insert_ne. Qed.

(** A stored draft hides whatever the prototype has under its name. *)
Lemma read_draft_own (drafts : gmap string Draft) (chatId : string) (d : Draft) :
  drafts !! chatId = Some d -> read_draft drafts chatId = Some d.
Proof. intros Hown. unfold read_draft. now rewrite Hown. Qed.

Lemma getDraft_saveDraft (chatId content : string) (w : World) :
  chatId <> "" -> getDraft chatId (state (saveDraft chatId content w)) = content.
Proof.
  intros Hne. apply truthy_true in Hne. unfold getDraft, saveDraft.
  rewrite Hne. cbn [state setState set_state draftMessages set_draftMessages].
  now rewrite read_draft_insert_eq.
Qed.

Lemma draftMessages_selectChat (chatId : string) (w : World) :
  draftMessages (state (selectChat chatId w))
    = <[chatId := or_empty (read_draft (draftMessages (state w)) chatId)]>
        (draftMessages (state w)).
Proof.
  unfold selectChat, loadMessages. autorewrite with world. reflexivity.
Qed.

(** [selectChat] changes the draft read for no chat at all: not for the
    chat it selects, not for any other. *)
Lemma getDraft_selectChat (chatId selected : string) (w : World) :
  getDraft chatId (state (selectChat selected w)) = getDraft chatId (state w).
Proof.
  unfold getDraft. destruct (truthy chatId); [|reflexivity].
  rewrite draftMessages_selectChat.
  destruct (decide (selected = chatId)) as [->|Hne].
  - now rewrite read_draft_insert_eq.
  - now rewrite read_draft_insert_ne by exact Hne.
Qed.

(** Neither does the arrival, or the failure, of the history that
    [selectChat] requested. *)
Lemma getDraft_loadMessages_resolved (chatId loaded : string)
    (cursor : option string) (response : MessagesPage) (w : World) :
  getDraft chatId (state (loadMessages_resolved loaded cursor response w))
    = getDraft chatId (state w).
Proof. reflexivity. Qed.

Lemma getDraft_loadMessages_rejected (chatId : string) (e : Thrown) (w : World) :
  getDraft chatId (state (loadMessages_rejected e w)) = getDraft chatId (state w).
Proof. reflexivity. Qed.

(** No id that the application gives a chat is the name of a property of
    [Object.prototype], and none is empty: a temporary id starts with
    [new-chat-], an id of the backend with [chat-]. *)
Lemma chat_ids_are_plain (id : string) :
  String.prefix "new-chat-" id = true \/ String.prefix "chat-" id = true ->
  id <> "" /\ id ∉ Object_prototype.
Proof.
  intros Hprefix. split.
  - intros ->. destruct Hprefix; discriminate.
  - intros Hin.
    assert (Hnone : Forall (fun name => String.prefix "new-chat-" name = false /\
                                        String.prefix "chat-" name = false)
                      Object_prototype)
      by (repeat constructor).
    rewrite Forall_forall in Hnone. destruct (Hnone id Hin) as [Hnew Hchat].
    destruct Hprefix; congruence.
Qed.

(** C5.  For every chat id and every text [x], after
    [saveDraft(id, x); selectChat(other); selectChat(id)] the draft read
    for [id] is exactly [x]; [selectChat] never changes the draft read
    for the chat it selects, nor the draft stored for it; and the draft
    read for a chat with no stored draft is the empty string.  A chat id
    is not the empty string, for which [saveDraft] and [getDraft] return
    at once, and for the last part not the name of a property of
    [Object.prototype], under which a read of an object with no own draft
    finds the inherited function; no id that is given to a chat is
    either ([chat_ids_are_plain]). *)
Theorem draft_round_trip (chatId other x : string) (w : World) :
  chatId <> "" ->
  getDraft chatId
    (state (selectChat chatId (selectChat other (saveDraft chatId x w)))) = x /\
  (forall (selected : string) (w0 : World),
     getDraft selected (state (selectChat selected w0))
       = getDraft selected (state w0)) /\
  (forall (selected : string) (w0 : World) (d : Draft),
     draftMessages (state w0) !! selected = Some d ->
     draftMessages (state (selectChat selected w0)) !! selected = Some d) /\
  (forall s : ChatState,
     draftMessages s !! chatId = None -> chatId ∉ Object_prototype ->
     getDraft chatId s = "").
Proof.
  intros Hne. split; [|split; [|split]].
  - rewrite !getDraft_selectChat. apply getDraft_saveDraft, Hne.
  - intros selected w0. apply getDraft_selectChat.
  - intros selected w0 d Hown.
    rewrite draftMessages_selectChat, lookup_insert_eq.
    now rewrite (read_draft_own _ _ _ Hown).
  - intros s Habs Hplain. unfold getDraft, read_draft.
    rewrite Habs, (bool_decide_eq_false_2 _ Hplain).
    now destruct (truthy chatId).
Qed.

Lemma draft_round_trip_witness :
  "chat-001" <> "" /\
  getDraft "chat-001"
    (state (selectChat "chat-001" (selectChat "chat-002"
              (saveDraft "chat-001" "x" Scenario.opened)))) = "x" /\
  getDraft "chat-001" initialState = "".
Proof.
  destruct (draft_round_trip "chat-001" "chat-002" "x" Scenario.opened
              ltac:(discriminate)) as (Hround & _ & _ & Habsent).
  split; [discriminate|]. split; [exact Hround|].
  apply Habsent; [reflexivity|].
  apply (chat_ids_are_plain "chat-001"). now right.
Defined.

(** The round trip also holds with the two history loads that the
    [selectChat] calls start resolving in between. *)
Lemma draft_round_trip_with_loads (chatId other x : string)
    (page1 page2 : MessagesPage) (w : World) :
  chatId <> "" ->
  getDraft chatId
    (state (loadMessages_resolved chatId None page2
              (selectChat chatId
                 (loadMessages_resolved other None page1
                    (selectChat other (saveDraft chatId x w)))))) = x.
Proof.
  intros Hne.
  rewrite getDraft_loadMessages_resolved, getDraft_selectChat,
    getDraft_loadMessages_resolved, getDraft_selectChat.
  apply getDraft_saveDraft, Hne.
Qed.

(** ** Pagination *)

Lemma messages_loadMessages (chatId : string) (cursor : option string)
    (w : World) :
  messages (state (loadMessages chatId cursor w)) = messages (state w).
Proof. reflexivity. Qed.

(** Called with a cursor, the page goes after the list already stored. *)
Lemma loadMessages_appends (chatId : string) (cursor : option string)
    (page : MessagesPage) (w : World) :
  truthy_opt cursor = true ->
  messages (state (loadMessages_resolved chatId cursor page w)) !! chatId
    = Some (messages_of (state w) chatId ++ r_messages page).
Proof.
  intros Hc. cbn. unfold loadMessages_success. rewrite Hc. cbn.
  apply lookup_insert_eq.
Qed.

(** C6. After [loadMessages(id)] has resolved with [page1] and then
    [loadMessages(id, cursor)], called with a cursor, has resolved with
    [page2], the list stored for [id] is [page1]'s messages followed by
    [page2]'s, its length is the sum of the two pages' lengths, and the
    [hasMoreMessages] flag of [id] is the [hasMore] of the second response. *)
Theorem pagination_accumulates (chatId cursor : string)
    (page1 page2 : MessagesPage) (w : World) :
  cursor <> "" ->
  let w1 := loadMessages_resolved chatId None page1 (loadMessages chatId None w) in
  let w2 :=
    loadMessages_resolved chatId (Some cursor) page2
      (loadMessages chatId (Some cursor) w1) in
  messages (state w1) !! chatId = Some (r_messages page1) /\
  messages (state w2) !! chatId = Some (r_messages page1 ++ r_messages page2) /\
  length (messages_of (state w2) chatId)
    = length (r_messages page1) + length (r_messages page2) /\
  hasMoreMessages (state w2) !! chatId = Some (r_hasMore page2).
Proof.
  intros Hcur w1 w2. apply truthy_true in Hcur.
  assert (H1 : messages (state w1) !! chatId = Some (r_messages page1)).
  { subst w1. cbn. apply lookup_insert_eq. }
  assert (H2 : messages (state w2) !! chatId
               = Some (r_messages page1 ++ r_messages page2)).
  { subst w2. rewrite loadMessages_appends by exact Hcur.
    unfold messages_of. rewrite messages_loadMessages, H1. reflexivity. }
  split; [exact H1|]. split; [exact H2|]. split.
  - unfold messages_of. rewrite H2. cbn. apply length_app.
  - subst w2. cbn. apply lookup_insert_eq.
Qed.

Lemma pagination_accumulates_witness :
  "10" <> "" /\
  length
    (messages_of
       (state
          (loadMessages_resolved "chat-001" (Some "10")
             (mkMessagesPage [Scenario.reply; Scenario.reply] false None)
             (loadMessages "chat-001" (Some "10")
                (loadMessages_resolved "chat-001" None
                   (mkMessagesPage [Scenario.reply] true (Some "10"))
                   (loadMessages "chat-001" None Scenario.opened)))))
       "chat-001") = 1 + 2.
Proof.
  split; [discriminate|].
  exact (proj1 (proj2 (proj2
    (pagination_accumulates "chat-001" "10"
       (mkMessagesPage [Scenario.reply] true (Some "10"))
       (mkMessagesPage [Scenario.reply; Scenario.reply] false None)
       Scenario.opened ltac:(discriminate))))).
Defined.

(** Without a cursor, or with the empty string for one, the page replaces
    the list. *)
Lemma loadMessages_replaces (chatId : string) (cursor : option string)
    (page : MessagesPage) (w : World) :
  truthy_opt cursor = false ->
  messages (state (loadMessages_resolved chatId cursor page w)) !! chatId
    = Some (r_messages page).
Proof.
  intros Hc. cbn. unfold loadMessages_success. rewrite Hc. cbn.
  apply lookup_insert_eq.
Qed.

(** ** The typing animation *)

(** A tick while characters remain reveals one more of them and touches
    nothing else. *)
Lemma tick_reveals (w : World) (full mid : string) (i : nat) :
  typingIntervalRef w = Some (mkInterval full mid i) ->
  i < String.length full ->
  tick w
    = set_typingIntervalRef (Some (mkInterval full mid (S i)))
        (setState (typing_reveal (revealed (S i) full)) w).
Proof.
  intros Hiv Hlt. unfold tick. rewrite Hiv. cbn [currentIndex fullMessage messageId].
  apply Nat.ltb_lt in Hlt. rewrite Hlt.
  replace (i + 1) with (S i) by lia. reflexivity.
Qed.

Lemma ticks_reveal (k : nat) :
  forall (w : World) (full mid : string) (i : nat),
    typingIntervalRef w = Some (mkInterval full mid i) ->
    i + S k <= String.length full ->
    ticks (S k) w
      = set_typingIntervalRef (Some (mkInterval full mid (i + S k)))
          (setState (typing_reveal (revealed (i + S k) full)) w).
Proof.
  induction k as [|k IH]; intros w full mid i Hiv Hle.
  - cbn [ticks]. rewrite (tick_reveals w full mid i Hiv) by lia.
    replace (i + 1) with (S i) by lia. reflexivity.
  - change (ticks (S (S k)) w) with (ticks (S k) (tick w)).
    rewrite (tick_reveals w full mid i Hiv) by lia.
    rewrite (IH _ full mid (S i)) by (reflexivity || lia).
    replace (S i + S k) with (i + S (S k)) by lia. reflexivity.
Qed.

(** The tick after the last character stops the interval and applies the
    completion update. *)
Lemma tick_completes (w : World) (full mid : string) :
  typingIntervalRef w = Some (mkInterval full mid (String.length full)) ->
  tick w = setState (typing_complete full mid) (clearTypingAnimation w).
Proof.
  intros Hiv. unfold tick. rewrite Hiv. cbn [currentIndex fullMessage messageId].
  rewrite Nat.ltb_irrefl. reflexivity.
Qed.

Lemma ticks_idle (n : nat) (w : World) :
  typingIntervalRef w = None -> ticks n w = w.
Proof.
  intros Hnone. induction n as [|n IH]; [reflexivity|].
  cbn [ticks]. unfold tick. rewrite Hnone. exact IH.
Qed.

Lemma ticks_add (a b : nat) (w : World) :
  ticks (a + b) w = ticks b (ticks a w).
Proof.
  revert w. induction a as [|a IH]; intros w; [reflexivity|].
  cbn [Nat.add ticks]. apply IH.
Qed.

Lemma filter_not_thinking (l : list Message) (msg : Message) :
  msg ∈ filter (fun m => m_status m <> Some thinking) l ->
  m_status msg <> Some thinking.
Proof. intros Hin. apply list_elem_of_filter in Hin. tauto. Qed.

(** A send on a selected chat with a server id reaches the backend under
    a controller that has not fired, with the chat still current: the
    premises of the next theorem hold when the reply arrives at once. *)
Lemma sendMessage_reaches_backend (u : User) (content chatId : string)
    (clk : Clock) (w : World) :
  currentChatId (state w) = Some chatId -> chatId <> "" ->
  String.prefix "new-chat-" chatId = false ->
  controllers_known w ->
  exists w1 f,
    sendMessage (Some u) content clk w = (w1, Some (AwaitSendMessage f)) /\
    sf_actualChatId f = chatId /\
    signal_aborted (sf_controller f) w1 = false /\
    currentChatId (state w1) = Some chatId.
Proof.
  intros Hcur Hne Hpre [Href Hab]. apply truthy_true in Hne.
  unfold sendMessage. rewrite Hcur, Hne. cbv zeta beta iota. rewrite Hpre.
  eexists _, _. split; [reflexivity|]. split; [reflexivity|].
  split; [|autorewrite with world; exact Hcur].
  cbn [sf_controller signal_aborted]. apply bool_decide_eq_false_2.
  unfold abort_current. intros Hin.
  destruct (abortControllerRef w) as [c|] eqn:Hc; cbn in Hin.
  - apply elem_of_union in Hin as [Hin|Hin].
    + apply elem_of_singleton in Hin. specialize (Href c eq_refl). lia.
    + specialize (Hab _ Hin). lia.
  - specialize (Hab _ Hin). lia.
Qed.

(** After the re-keying the new id is the current chat and the one the
    reply will be filed under. *)
Lemma sendMessage_chatCreated_current (f : SendFrame) (newChat : Chat)
    (w : World) :
  currentChatId (state (sendMessage_chatCreated f newChat w).1)
    = Some (c_id newChat) /\
  exists f', (sendMessage_chatCreated f newChat w).2 = AwaitSendMessage f' /\
             sf_actualChatId f' = c_id newChat.
Proof.
  unfold sendMessage_chatCreated. cbn [fst snd]. autorewrite with world.
  split; [reflexivity|]. eexists. split; reflexivity.
Qed.

(** The course of a reply while its chat stays the current one.  When the
    reply to a send that was not cancelled arrives, the list of its chat
    loses every [thinking] message and gains, at the end, the reply with
    status [typing] and its full text.  From then on, as long as nothing
    else intervenes, after [k] ticks ([1 <= k <= length]) the revealed
    text is the first [k] characters of the reply and the list is
    untouched; and, the chat being still the current one, the tick that
    follows the last character stops the interval, turns that message to
    status [sent] with the full text, and clears the revealed text, after
    which ticks change nothing. *)
Theorem reply_is_typed_out (f : SendFrame) (aiResponse : Message) (w : World) :
  signal_aborted (sf_controller f) w = false ->
  let actualChatId := sf_actualChatId f in
  let full := m_content aiResponse in
  let arrived (st : MessageStatus) :=
    mkMessage (m_id aiResponse) actualChatId (m_role aiResponse) full
      (m_timestamp aiResponse) (Some st) (m_wasInterrupted aiResponse) in
  let w1 := sendMessage_resolved f aiResponse w in
  (messages (state w1) !! actualChatId
     = Some (filter (fun msg => m_status msg <> Some thinking)
               (messages_of (state w) actualChatId) ++ [arrived typing]) /\
   forall msg, msg ∈ messages_of (state w1) actualChatId ->
               m_status msg <> Some thinking) /\
  (forall k, 1 <= k <= String.length full ->
     typingMessage (state (ticks k w1)) = Some (revealed k full) /\
     String.length (revealed k full) = k /\
     String.prefix (revealed k full) full = true /\
     messages (state (ticks k w1)) = messages (state w1) /\
     typingIntervalRef (ticks k w1)
       = Some (mkInterval full (m_id aiResponse) k)) /\
  (currentChatId (state w) = Some actualChatId -> actualChatId <> "" ->
   let w2 := ticks (S (String.length full)) w1 in
   typingIntervalRef w2 = None /\
   typingMessage (state w2) = None /\
   last (messages_of (state w2) actualChatId) = Some (arrived sent) /\
   length (messages_of (state w2) actualChatId)
     = length (messages_of (state w1) actualChatId) /\
   forall n, ticks n w2 = w2).
Proof.
  intros Hlive actualChatId full arrived w1.
  assert (Hw1 : w1 = startTypingAnimation full (m_id aiResponse)
                       (setState (sendMessage_typing actualChatId (arrived typing)) w)).
  { subst w1. unfold sendMessage_resolved. rewrite Hlive. reflexivity. }
  assert (Hiv : typingIntervalRef w1 = Some (mkInterval full (m_id aiResponse) 0))
    by (rewrite Hw1; reflexivity).
  assert (Hmsgs : messages (state w1) !! actualChatId
     = Some (filter (fun msg => m_status msg <> Some thinking)
               (messages_of (state w) actualChatId) ++ [arrived typing])).
  { rewrite Hw1. cbn. apply lookup_insert_eq. }
  assert (Hcur : currentChatId (state w1) = currentChatId (state w))
    by (rewrite Hw1; reflexivity).
  split; [split; [exact Hmsgs|]|split].
  - intros msg. unfold messages_of. rewrite Hmsgs. cbn [from_option id].
    intros Hin. apply elem_of_app in Hin as [Hin|Hin].
    + exact (filter_not_thinking _ _ Hin).
    + apply list_elem_of_singleton in Hin. subst msg. discriminate.
  - intros k [Hk1 Hkn]. destruct k as [|k]; [lia|].
    rewrite (ticks_reveal k w1 full (m_id aiResponse) 0 Hiv) by (cbn; lia).
    cbn [Nat.add]. split; [reflexivity|].
    split; [apply revealed_length; exact Hkn|].
    split; [apply revealed_prefix|]. split; reflexivity.
  - intros Hsel Hne w2. apply truthy_true in Hne.
    assert (Hw2 : w2 = setState (typing_complete full (m_id aiResponse))
                         (clearTypingAnimation (ticks (String.length full) w1))).
    { subst w2. replace (S (String.length full)) with (String.length full + 1) by lia.
      rewrite ticks_add. cbn [ticks]. apply tick_completes.
      destruct (String.length full) as [|n] eqn:Hlen; [exact Hiv|].
      rewrite (ticks_reveal n w1 full (m_id aiResponse) 0 Hiv) by (cbn; lia).
      cbn [Nat.add]. rewrite <- Hlen. reflexivity. }
    assert (Hst : messages (state (ticks (String.length full) w1)) = messages (state w1)
                  /\ currentChatId (state (ticks (String.length full) w1))
                     = currentChatId (state w1)).
    { destruct (String.length full) as [|n] eqn:Hlen; [split; reflexivity|].
      rewrite (ticks_reveal n w1 full (m_id aiResponse) 0 Hiv) by (cbn; lia).
      split; reflexivity. }
    destruct Hst as [Hm Hc].
    assert (Hlist : messages_of (state w2) actualChatId
              = map (fun msg => if bool_decide (m_id msg = m_id aiResponse)
                                then finish_typing full msg else msg)
                    (messages_of (state w1) actualChatId)).
    { rewrite Hw2. autorewrite with world. unfold typing_complete.
      rewrite Hc, Hcur, Hsel, Hne. unfold messages_of.
      cbn [messages set_isSendingMessage set_typingMessage set_messages].
      rewrite lookup_insert_eq, Hm. reflexivity. }
    split; [rewrite Hw2; reflexivity|].
    split.
    { rewrite Hw2. autorewrite with world. unfold typing_complete.
      rewrite Hc, Hcur, Hsel, Hne. reflexivity. }
    split.
    { rewrite Hlist, last_map. unfold messages_of at 1. rewrite Hmsgs.
      cbn [from_option id]. rewrite last_snoc. cbn [fmap option_fmap option_map].
      rewrite bool_decide_eq_true_2 by reflexivity. reflexivity. }
    split; [rewrite Hlist; apply length_map|].
    intros n. apply ticks_idle. rewrite Hw2. reflexivity.
Qed.

Lemma reply_is_typed_out_witness :
  let f := mkSendFrame (Some "chat-001") "chat-001" "What are symptoms of flu?"
             "chat-001" (Some 0) in
  let w := (sendMessage (Some Scenario.alice) "What are symptoms of flu?"
              Scenario.clk1 Scenario.opened).1 in
  let w1 := sendMessage_resolved f Scenario.reply w in
  (signal_aborted (sf_controller f) w = false /\
   currentChatId (state w) = Some "chat-001") /\
  typingMessage (state (ticks 4 w1)) = Some "Rest" /\
  last (messages_of (state (ticks 17 w1)) "chat-001")
    = Some (mkMessage "msg-k3x9q0z1a" "chat-001" assistant "Rest and fluids."
              "2023-11-14T22:13:23.000Z" (Some sent) None).
Proof.
  intros f w w1.
  pose proof (reply_is_typed_out f Scenario.reply w
                ltac:(by_running)) as (_ & Hreveal & Hdone).
  split; [split; by_running|].
  split.
  - exact (proj1 (Hreveal 4 ltac:(cbn; lia))).
  - exact (proj1 (proj2 (proj2
      (Hdone ltac:(by_running) ltac:(discriminate))))).
Defined.

(** A tick writes to the list of the current chat only. *)
Lemma tick_other_chat (chatId : string) (w : World) :
  currentChatId (state w) <> Some chatId ->
  messages_of (state (tick w)) chatId = messages_of (state w) chatId /\
  currentChatId (state (tick w)) = currentChatId (state w).
Proof.
  intros Hother. unfold tick.
  destruct (typingIntervalRef w) as [iv|]; [|now split].
  destruct (currentIndex iv <? String.length (fullMessage iv))%nat;
    [now split|].
  rewrite state_setState, state_clearTypingAnimation. unfold typing_complete.
  destruct (currentChatId (state w)) as [current|] eqn:Hcur; [|now split].
  destruct (truthy current); [|now rewrite Hcur].
  split; [|exact Hcur].
  unfold messages_of. cbn.
  rewrite lookup_insert_ne by congruence. reflexivity.
Qed.

Lemma ticks_other_chat (chatId : string) (n : nat) (w : World) :
  currentChatId (state w) <> Some chatId ->
  messages_of (state (ticks n w)) chatId = messages_of (state w) chatId.
Proof.
  revert w. induction n as [|n IH]; intros w Hother; [reflexivity|].
  cbn [ticks]. destruct (tick_other_chat chatId w Hother) as [Hmsgs Hcur].
  rewrite IH by (rewrite Hcur; exact Hother). exact Hmsgs.
Qed.

(** C7, at the failing run.  A first question is sent in a fresh session;
    while its chat is being created the user opens [chat-001] and sends a
    second question there, which nothing cancels; the creation is then
    acknowledged, which makes the created chat the current one without
    stopping the second request; and the reply to the second question
    arrives.  It is filed in [chat-001] with status [typing] and its text
    is revealed tick by tick.  The tick that follows the last character
    looks for the message in the list of the current chat, which is not
    [chat-001]: the interval stops, the revealed text is cleared and the
    sending flag drops, but the reply in [chat-001] keeps the status
    [typing], however many ticks follow. *)
Theorem reply_stays_typing_after_rekey :
  exists w : World,
    Scenario.second_reply_after_rekey = Some w /\
    currentChatId (state w) = Some "chat-7f3k2m9xq" /\
    typingMessage (state (ticks 16 w)) = Some "Rest and fluids." /\
    typingIntervalRef (ticks 17 w) = None /\
    typingMessage (state (ticks 17 w)) = None /\
    isSendingMessage (state (ticks 17 w)) = false /\
    forall n : nat,
      last (messages_of (state (ticks n w)) "chat-001")
        = Some (mkMessage "msg-k3x9q0z1a" "chat-001" assistant
                  "Rest and fluids." "2023-11-14T22:13:23.000Z"
                  (Some typing) None).
Proof.
  eexists. split; [by_running|].
  split; [by_running|]. split; [by_running|]. split; [by_running|].
  split; [by_running|]. split; [by_running|].
  intros n. rewrite ticks_other_chat by (vm_compute; discriminate).
  by_running.
Qed.

(** ** cancelMessage *)

(** Both arms of [if (isInterruption && newContent)] are the same. *)
Lemma cancelMessage_update_cases (isInterruption : bool)
    (newContent : option string) (chatId : string) (lastMessage : Message)
    (prev : ChatState) :
  last (messages_of prev chatId) = Some lastMessage ->
  cancelMessage_update isInterruption newContent chatId prev
    = if status_is typing lastMessage && truthy_opt (typingMessage prev)
      then cancel_typing chatId lastMessage prev
      else if status_is thinking lastMessage
           then cancel_thinking chatId lastMessage prev
           else cancel_nothing prev.
Proof.
  intros Hlast. unfold cancelMessage_update. rewrite Hlast.
  now destruct (isInterruption && truthy_opt newContent).
Qed.

Section Cancel.

(** A call [cancelMessage(isInterruption, newContent)] in a world [w] with
    an active chat [chatId]. *)
Variables (isInterruption : bool) (newContent : option string).
Variables (chatId : string) (w : World).
Hypothesis Hactive : active_chat (state w) = Some chatId.

Let w' : World := cancelMessage isInterruption newContent w.

(** What [cancelMessage] does around its state update. *)
Lemma cancelMessage_active :
  state w' = (cancelMessage_update isInterruption newContent chatId (state w)).1 /\
  calls w'
    = calls w ++ (cancelMessage_update isInterruption newContent chatId (state w)).2 /\
  abortControllerRef w' = None /\
  typingIntervalRef w' = None.
Proof using Hactive.
  subst w'. revert Hactive. unfold active_chat, cancelMessage. intros Hact.
  destruct (currentChatId (state w)) as [c|]; [|discriminate].
  destruct (truthy c) eqn:Hc; [|discriminate].
  injection Hact as ->.
  autorewrite with world.
  destruct (cancelMessage_update isInterruption newContent chatId (state w))
    as [s notified].
  repeat split.
Qed.

(** C10. With an active chat whose last message has status [typing] while
    no text has been revealed ([typingMessage] is [null]), [cancelMessage]
    takes neither the typing nor the thinking branch: the message map is the
    same (the message keeps status [typing] and its [wasInterrupted]), the
    backend is not notified, and of the state only [isSendingMessage] and
    [typingMessage] are cleared; the controller and the interval are
    dropped. *)
Theorem cancel_before_first_reveal (lastMessage : Message) :
  last (messages_of (state w) chatId) = Some lastMessage ->
  m_status lastMessage = Some typing ->
  typingMessage (state w) = None ->
  state w' = set_typingMessage None (set_isSendingMessage false (state w)) /\
  messages (state w') = messages (state w) /\
  last (messages_of (state w') chatId) = Some lastMessage /\
  calls w' = calls w /\
  isSendingMessage (state w') = false /\
  typingMessage (state w') = None /\
  abortControllerRef w' = None /\
  typingIntervalRef w' = None.
Proof using Hactive.
  intros Hlast Hst Hnull.
  destruct cancelMessage_active as (Hstate & Hcalls & Href & Hiv).
  rewrite (cancelMessage_update_cases _ _ _ lastMessage _ Hlast) in Hstate, Hcalls.
  rewrite Hnull in Hstate, Hcalls. cbn [truthy_opt] in Hstate, Hcalls.
  rewrite andb_false_r in Hstate, Hcalls.
  assert (Hth : status_is thinking lastMessage = false).
  { unfold status_is. rewrite Hst. reflexivity. }
  rewrite Hth in Hstate, Hcalls. cbn in Hstate, Hcalls.
  rewrite Hstate, Hcalls, app_nil_r.
  repeat split; try assumption.
Qed.

(** Cancelling while the last message is [thinking]: every [thinking]
    message of the chat, the last one among them, becomes [interrupted]
    with empty content and [wasInterrupted] set. *)
Lemma cancel_while_thinking (lastMessage : Message) :
  last (messages_of (state w) chatId) = Some lastMessage ->
  m_status lastMessage = Some thinking ->
  last (messages_of (state w') chatId)
    = Some (mkMessage (m_id lastMessage) (m_chatId lastMessage) assistant ""
              (m_timestamp lastMessage) (Some interrupted) (Some true)) /\
  isSendingMessage (state w') = false /\
  typingMessage (state w') = None.
Proof using Hactive.
  intros Hlast Hst.
  destruct cancelMessage_active as (Hstate & _).
  rewrite (cancelMessage_update_cases _ _ _ lastMessage _ Hlast) in Hstate.
  assert (Hty : status_is typing lastMessage = false)
    by (unfold status_is; rewrite Hst; reflexivity).
  assert (Hth : status_is thinking lastMessage = true)
    by (unfold status_is; rewrite Hst; reflexivity).
  rewrite Hty, Hth in Hstate. cbn [andb fst cancel_thinking] in Hstate.
  rewrite Hstate. repeat split.
  unfold messages_of at 1.
  cbn [messages set_typingMessage set_isSendingMessage set_messages].
  rewrite lookup_insert_eq. cbn [from_option id].
  rewrite last_map, Hlast. cbn [fmap option_fmap option_map].
  rewrite Hth. reflexivity.
Qed.

(** Cancelling while the last message is [typing] and some text [t] has
    been revealed: every [typing] message of the chat, the last one among
    them, becomes [interrupted] with content [t] followed by the dash, and
    the backend is told so. *)
Lemma cancel_while_typing (t : string) (lastMessage : Message) :
  last (messages_of (state w) chatId) = Some lastMessage ->
  m_status lastMessage = Some typing ->
  typingMessage (state w) = Some t -> t <> "" ->
  last (messages_of (state w') chatId)
    = Some (mkMessage (m_id lastMessage) (m_chatId lastMessage)
              (m_role lastMessage) (t +:+ em_dash) (m_timestamp lastMessage)
              (Some interrupted) (Some true)) /\
  calls w' = calls w ++ [call_updateMessage chatId (m_id lastMessage)
                           upd_interrupted (t +:+ em_dash)] /\
  isSendingMessage (state w') = false /\
  typingMessage (state w') = None.
Proof using Hactive.
  intros Hlast Hst Ht Hne. apply truthy_true in Hne.
  destruct cancelMessage_active as (Hstate & Hcalls & _).
  rewrite (cancelMessage_update_cases _ _ _ lastMessage _ Hlast) in Hstate, Hcalls.
  assert (Hty : status_is typing lastMessage = true)
    by (unfold status_is; rewrite Hst; reflexivity).
  rewrite Hty, Ht in Hstate, Hcalls. cbn [truthy_opt] in Hstate, Hcalls.
  rewrite Hne in Hstate, Hcalls. unfold cancel_typing in Hstate, Hcalls.
  rewrite Ht in Hstate, Hcalls. cbn [andb fst snd truthy_opt] in Hstate, Hcalls.
  rewrite Hne in Hstate, Hcalls.
  rewrite Hstate, Hcalls. repeat split.
  unfold messages_of at 1.
  cbn [messages set_typingMessage set_isSendingMessage set_messages].
  rewrite lookup_insert_eq. cbn [from_option id].
  rewrite last_map, Hlast. cbn [fmap option_fmap option_map].
  rewrite Hty. reflexivity.
Qed.

(** Cancelling when the last message, if any, is neither [typing] nor
    [thinking]: only the two transient fields are cleared. *)
Lemma cancel_while_idle :
  (forall lastMessage,
     last (messages_of (state w) chatId) = Some lastMessage ->
     m_status lastMessage <> Some typing /\
     m_status lastMessage <> Some thinking) ->
  state w' = set_typingMessage None (set_isSendingMessage false (state w)) /\
  calls w' = calls w.
Proof using Hactive.
  intros Hidle.
  destruct cancelMessage_active as (Hstate & Hcalls & _).
  assert (Hupd : cancelMessage_update isInterruption newContent chatId (state w)
                 = cancel_nothing (state w)).
  { destruct (last (messages_of (state w) chatId)) as [lastMessage|] eqn:Hlast.
    - rewrite (cancelMessage_update_cases _ _ _ lastMessage _ Hlast).
      destruct (Hidle lastMessage eq_refl) as [Hty Hth].
      unfold status_is. rewrite !bool_decide_eq_false_2 by assumption.
      reflexivity.
    - unfold cancelMessage_update. rewrite Hlast. reflexivity. }
  rewrite Hupd in Hstate, Hcalls. cbn in Hstate, Hcalls.
  rewrite Hstate, Hcalls, app_nil_r. split; reflexivity.
Qed.

End Cancel.

Lemma cancel_before_first_reveal_witness :
  let f := mkSendFrame (Some "chat-001") "chat-001" "What are symptoms of flu?"
             "chat-001" (Some 0) in
  let w := sendMessage_resolved f Scenario.reply
             (sendMessage (Some Scenario.alice) "What are symptoms of flu?"
                Scenario.clk1 Scenario.opened).1 in
  let lastMessage :=
    mkMessage "msg-k3x9q0z1a" "chat-001" assistant "Rest and fluids."
      "2023-11-14T22:13:23.000Z" (Some typing) None in
  (active_chat (state w) = Some "chat-001" /\
   last (messages_of (state w) "chat-001") = Some lastMessage /\
   m_status lastMessage = Some typing /\
   typingMessage (state w) = None) /\
  last (messages_of (state (cancelMessage false None w)) "chat-001")
    = Some lastMessage.
Proof.
  intros f w lastMessage.
  split; [repeat split; by_running|].
  exact (proj1 (proj2 (proj2
    (cancel_before_first_reveal false None "chat-001" w ltac:(by_running)
       lastMessage ltac:(by_running) eq_refl ltac:(by_running))))).
Defined.

(** C3, at the moment between the arrival of the reply and the first
    tick.  The reply is in its typing phase with nothing revealed; the user
    presses Escape.  The reply is left with status [typing], its full text
    and no [wasInterrupted], although the interval that would have finished
    it is gone and the sending flag is cleared. *)
Theorem cancel_leaves_unrevealed_reply_typing :
  exists w,
    Scenario.escape_before_first_tick = Some w /\
    last (messages_of (state w) "chat-001")
      = Some (mkMessage "msg-k3x9q0z1a" "chat-001" assistant "Rest and fluids."
                "2023-11-14T22:13:23.000Z" (Some typing) None) /\
    typingIntervalRef w = None /\
    isSendingMessage (state w) = false /\
    (forall n, ticks n w = w).
Proof.
  eexists. split; [by_running|].
  repeat split; try by_running.
  intros n. apply ticks_idle. reflexivity.
Qed.

(** ** The single in-flight turn *)

Lemma in_flight_by_status (msg : Message) :
  in_flight msg = match m_status msg with
                  | Some thinking | Some typing => true
                  | _ => false
                  end.
Proof.
  unfold in_flight, status_is. destruct (m_status msg) as [[]|]; reflexivity.
Qed.

(** [sendMessage] never looks for an in-flight message of the chat it
    works on: on a selected chat it adds one to those already there. *)
Lemma sendMessage_adds_in_flight (u : User) (content chatId : string)
    (clk : Clock) (w : World) :
  currentChatId (state w) = Some chatId -> chatId <> "" ->
  in_flight_count (state (sendMessage (Some u) content clk w).1) chatId
    = S (in_flight_count (state w) chatId).
Proof.
  intros Hcur Hne. apply truthy_true in Hne.
  unfold sendMessage. rewrite Hcur, Hne. cbv zeta beta iota.
  assert (Hcount : forall w1 : World,
            state w1 = sendMessage_optimistic chatId
              (mkMessage ("msg-" +:+ pretty (now_msg clk)) chatId user content
                 (iso_msg clk) (Some sent) None)
              (mkMessage ("thinking-" +:+ pretty (now_thinking clk)) chatId
                 assistant "" (iso_thinking clk) (Some thinking) None)
              (state w) ->
            in_flight_count (state w1) chatId = S (in_flight_count (state w) chatId)).
  { intros w1 ->. unfold in_flight_count, messages_of. cbn.
    rewrite lookup_insert_eq. cbn [from_option id].
    rewrite List.filter_app, length_app. cbn [List.filter].
    rewrite !in_flight_by_status. cbn. unfold messages_of. lia. }
  destruct (String.prefix "new-chat-" chatId); cbn [fst]; apply Hcount;
    autorewrite with world; reflexivity.
Qed.

(** C1, on a run of the page.  A question is sent; its reply arrives; before
    the first tick the user sends a second question, so [handleSend] cancels
    the first turn and sends.  The cancellation leaves the reply [typing],
    the send adds a [thinking] placeholder: the chat holds two in-flight
    messages. *)
Theorem two_turns_in_flight :
  exists w,
    Scenario.enter_before_first_tick = Some w /\
    map m_status (messages_of (state w) "chat-001")
      = [Some sent; Some typing; Some sent; Some thinking] /\
    in_flight_count (state w) "chat-001" = 2 /\
    ~ single_in_flight (state w).
Proof.
  eexists. split; [by_running|].
  split; [by_running|]. split; [by_running|].
  intros Hinv. specialize (Hinv "chat-001").
  vm_compute in Hinv. lia.
Qed.

(** ** Failures *)

(** The [catch] of [sendMessage] handles what it catches: unless the value
    thrown is [null] or [undefined], the promise of [sendMessage] is
    fulfilled. *)
Lemma sendMessage_rejected_fulfils (f : SendFrame) (e : Thrown) (w : World) :
  e <> Nullish -> (sendMessage_rejected f e w).2 = Fulfilled.
Proof.
  intros Hne. destruct e as [name text| |]; [| reflexivity | congruence].
  unfold sendMessage_rejected. now destruct (bool_decide (name = "AbortError")).
Qed.

(** The same [catch] surfaces an error that is not an abort and never
    touches the drafts. *)
Lemma sendMessage_rejected_error (f : SendFrame) (name text : string)
    (w : World) :
  name <> "AbortError" ->
  let w' := (sendMessage_rejected f (ErrorObject name text) w).1 in
  error (state w') = Some text /\
  isSendingMessage (state w') = false /\
  draftMessages (state w') = draftMessages (state w) /\
  (forall msg, msg ∈ messages_of (state w') (errorChatId f) ->
               m_status msg <> Some thinking).
Proof.
  intros Hne w'. subst w'. unfold sendMessage_rejected.
  rewrite bool_decide_eq_false_2 by exact Hne. cbn [fst].
  repeat split.
  intros msg. unfold messages_of. cbn. rewrite lookup_insert_eq.
  cbn [from_option id]. apply filter_not_thinking.
Qed.

(** [handleSend] restores the text only when [sendMessage] rejects. *)
Lemma handleSend_settled_fulfilled (trimmedMessage : string) (p : Page) :
  handleSend_settled trimmedMessage Fulfilled p = p.
Proof. reflexivity. Qed.

(** [handleSend] empties the input before it sends. *)
Lemma handleSend_clears_input (auth_user : option User) (clk : Clock)
    (p p1 : Page) (trimmedMessage : string) (pending : option SendAwait) :
  handleSend auth_user clk p = (p1, AwaitSend trimmedMessage pending) ->
  message p1 = "".
Proof.
  unfold handleSend, handleSend_send.
  destruct (truthy (trim (message p))); [|discriminate].
  destruct (isSendingMessage (state (world (setMessage "" p)))); [discriminate|].
  destruct (sendMessage auth_user (trim (message p)) clk (world (setMessage "" p)))
    as [w pend].
  intros [= <- _ _]. reflexivity.
Qed.

(** So, whatever [Error] the backend rejects with, the input is still
    empty once [handleSend] is over. *)
Lemma failed_send_never_restores (auth_user : option User) (clk : Clock)
    (p p1 : Page) (trimmedMessage : string) (pending : option SendAwait)
    (f : SendFrame) (e : Thrown) :
  handleSend auth_user clk p = (p1, AwaitSend trimmedMessage pending) ->
  e <> Nullish ->
  let '(w, r) := sendMessage_rejected f e (world p1) in
  message (handleSend_settled trimmedMessage r (mkPage w (message p1))) = "".
Proof.
  intros Hsend Hne.
  pose proof (sendMessage_rejected_fulfils f e (world p1) Hne) as Hful.
  destruct (sendMessage_rejected f e (world p1)) as [w r]. cbn in Hful.
  subst r. cbn. exact (handleSend_clears_input _ _ _ _ _ _ Hsend).
Qed.

(** C9, on a run of the page.  The user sends [hello] in an opened chat
    and the backend rejects with an [Error].  The error is surfaced and the
    placeholder removed, but the promise of [sendMessage] is fulfilled, so
    the [catch] of [handleSend] does not run: the input stays empty, and so
    does the draft of the chat. *)
Theorem failed_send_loses_text :
  exists p,
    Scenario.send_fails = Some p /\
    error (state (world p)) = Some "Network down" /\
    map m_status (messages_of (state (world p)) "chat-001") = [Some sent] /\
    message p = "" /\
    getDraft "chat-001" (state (world p)) = "".
Proof. eexists. split; [|repeat split]; by_running. Qed.

(** After a re-keying, the [catch] of [sendMessage] still filters the list
    of the id the call started with: the placeholder stays under the new
    id. *)
Lemma failed_send_after_rekey_keeps_placeholder :
  exists w,
    Scenario.fresh_send_fails = Some w /\
    error (state w) = Some "Network down" /\
    map m_status (messages_of (state w) "chat-7f3k2m9xq")
      = [Some sent; Some thinking] /\
    messages (state w) !! "new-chat-1700000000000" = Some [].
Proof. eexists. split; [|repeat split]; by_running. Qed.

(** When the backend rejects a delete, the flag is cleared, the error is
    surfaced and rethrown, and nothing is removed. *)
Lemma deleteChat_rejected_keeps_everything (chatId : string) (e : Thrown)
    (w : World) :
  let '(w1, f) := deleteChat chatId w in
  let '(w2, r) := deleteChat_rejected f e w1 in
  r = Rejected e /\
  isDeletingChat (state w2) = false /\
  error (state w2) = Some (error_message "Failed to delete chat" e) /\
  chats (state w2) = chats (state w) /\
  messages (state w2) = messages (state w) /\
  draftMessages (state w2) = draftMessages (state w) /\
  hasMoreMessages (state w2) = hasMoreMessages (state w) /\
  currentChatId (state w2) = currentChatId (state w).
Proof.
  unfold deleteChat, deleteChat_rejected.
  destruct (bool_decide (currentChatId (state w) = Some chatId)
            && bool_decide (is_Some (abortControllerRef (setState deleteChat_begin w))));
    autorewrite with world; repeat split.
Qed.

(** When the backend resolves a delete without success, nothing is
    removed either, and nothing else is done. *)
Lemma deleteChat_unsuccessful_keeps_everything (chatId : string)
    (result : DeleteResult) (now : N) (w : World) :
  success result = false ->
  let '(w1, f) := deleteChat chatId w in
  let '(w2, r) := deleteChat_resolved f result now w1 in
  r = Fulfilled /\
  isDeletingChat (state w2) = true /\
  error (state w2) = None /\
  chats (state w2) = chats (state w) /\
  messages (state w2) = messages (state w) /\
  draftMessages (state w2) = draftMessages (state w) /\
  hasMoreMessages (state w2) = hasMoreMessages (state w) /\
  currentChatId (state w2) = currentChatId (state w).
Proof.
  intros Hfail. unfold deleteChat, deleteChat_resolved. rewrite Hfail.
  destruct (bool_decide (currentChatId (state w) = Some chatId)
            && bool_decide (is_Some (abortControllerRef (setState deleteChat_begin w))));
    autorewrite with world; repeat split.
Qed.

(** C8, on a run.  The backend answers the request to delete [chat-002]
    with [success: false].  The promise of [deleteChat] is fulfilled, the
    deleting flag is still set and no error is surfaced. *)
Theorem unsuccessful_delete_stays_deleting :
  Scenario.delete_unsuccessful.2 = Fulfilled /\
  isDeletingChat (state Scenario.delete_unsuccessful.1) = true /\
  error (state Scenario.delete_unsuccessful.1) = None /\
  chats (state Scenario.delete_unsuccessful.1) = [Scenario.chat1; Scenario.chat2].
Proof. repeat split; by_running. Qed.

(** * Further properties of the provider *)

(** ** More of what the helpers leave alone *)

Lemma aborted_setState (g : ChatState -> ChatState) (w : World) :
  aborted (setState g w) = aborted w.
Proof. reflexivity. Qed.

Lemma aborted_issue (c : BackendCall) (w : World) :
  aborted (issue c w) = aborted w.
Proof. reflexivity. Qed.

Lemma aborted_new_controller (w : World) :
  aborted (new_controller w) = aborted w.
Proof. reflexivity. Qed.

Lemma aborted_clearTypingAnimation (w : World) :
  aborted (clearTypingAnimation w) = aborted w.
Proof. reflexivity. Qed.

Lemma aborted_set_abortControllerRef (c : option nat) (w : World) :
  aborted (set_abortControllerRef c w) = aborted w.
Proof. reflexivity. Qed.

Lemma ref_setState (g : ChatState -> ChatState) (w : World) :
  abortControllerRef (setState g w) = abortControllerRef w.
Proof. reflexivity. Qed.

Lemma ref_issue (c : BackendCall) (w : World) :
  abortControllerRef (issue c w) = abortControllerRef w.
Proof. reflexivity. Qed.

Lemma ref_abort_current (w : World) :
  abortControllerRef (abort_current w) = abortControllerRef w.
Proof.
  unfold abort_current. destruct (abortControllerRef w) eqn:Hc; cbn; congruence.
Qed.

Lemma ref_clearTypingAnimation (w : World) :
  abortControllerRef (clearTypingAnimation w) = abortControllerRef w.
Proof. reflexivity. Qed.

Lemma interval_setState (g : ChatState -> ChatState) (w : World) :
  typingIntervalRef (setState g w) = typingIntervalRef w.
Proof. reflexivity. Qed.

Lemma interval_issue (c : BackendCall) (w : World) :
  typingIntervalRef (issue c w) = typingIntervalRef w.
Proof. reflexivity. Qed.

Lemma interval_abort_current (w : World) :
  typingIntervalRef (abort_current w) = typingIntervalRef w.
Proof. unfold abort_current. now destruct (abortControllerRef w). Qed.

Lemma interval_new_controller (w : World) :
  typingIntervalRef (new_controller w) = typingIntervalRef w.
Proof. reflexivity. Qed.

Lemma interval_set_abortControllerRef (c : option nat) (w : World) :
  typingIntervalRef (set_abortControllerRef c w) = typingIntervalRef w.
Proof. reflexivity. Qed.

#[global] Hint Rewrite aborted_setState aborted_issue aborted_new_controller
  aborted_clearTypingAnimation aborted_set_abortControllerRef
  ref_setState ref_issue ref_abort_current ref_clearTypingAnimation
  interval_setState interval_issue interval_abort_current
  interval_new_controller interval_set_abortControllerRef : world.

(** Two worlds, or two states, with the same fields are the same. *)
Lemma World_eq (a b : World) :
  state a = state b -> abortControllerRef a = abortControllerRef b ->
  aborted a = aborted b -> controllers a = controllers b ->
  typingIntervalRef a = typingIntervalRef b -> calls a = calls b -> a = b.
Proof. destruct a, b; cbn; intros; subst; reflexivity. Qed.

Lemma flags_already_clear (s : ChatState) :
  isSendingMessage s = false -> typingMessage s = None ->
  set_typingMessage None (set_isSendingMessage false s) = s.
Proof. destruct s; cbn; intros; subst; reflexivity. Qed.

Lemma aborting_fires (c : nat) (w : World) :
  abortControllerRef w = Some c -> c ∈ aborted (abort_current w).
Proof. intros Hc. unfold abort_current. rewrite Hc. cbn. set_solver. Qed.

Lemma aborted_grows (c : nat) (w : World) :
  c ∈ aborted w -> c ∈ aborted (abort_current w).
Proof.
  intros Hc. unfold abort_current.
  destruct (abortControllerRef w); cbn; [set_solver | exact Hc].
Qed.

(** ** cancelMessage keeps what is settled *)

(** What the update of [cancelMessage] does to the message map: nothing,
    or a map over the list of the chat that keeps ids and leaves every
    message that is not in flight as it is. *)
Lemma cancelMessage_update_shape (isInterruption : bool)
    (newContent : option string) (chatId : string) (prev : ChatState) :
  let s := (cancelMessage_update isInterruption newContent chatId prev).1 in
  exists g : Message -> Message,
    (forall m, m_id (g m) = m_id m) /\
    (forall m, in_flight m = false -> g m = m) /\
    (forall cid, messages_of s cid
                 = if bool_decide (cid = chatId)
                   then map g (messages_of prev chatId)
                   else messages_of prev cid).
Proof.
  assert (Hnothing : exists g : Message -> Message,
    (forall m, m_id (g m) = m_id m) /\
    (forall m, in_flight m = false -> g m = m) /\
    (forall cid, messages_of (cancel_nothing prev).1 cid
                 = if bool_decide (cid = chatId)
                   then map g (messages_of prev chatId)
                   else messages_of prev cid)).
  { exists (fun m => m). repeat split. intros cid. cbn.
    case_bool_decide; [subst; now rewrite map_id | reflexivity]. }
  assert (Hmapped : forall (g : Message -> Message) (s : ChatState),
    messages s = <[chatId := map g (messages_of prev chatId)]> (messages prev) ->
    forall cid, messages_of s cid
                = if bool_decide (cid = chatId)
                  then map g (messages_of prev chatId)
                  else messages_of prev cid).
  { intros g s Hs cid. unfold messages_of at 1. rewrite Hs.
    case_bool_decide as Hc.
    - subst. now rewrite lookup_insert_eq.
    - now rewrite lookup_insert_ne by congruence. }
  assert (Htyping : forall lastMessage, exists g : Message -> Message,
    (forall m, m_id (g m) = m_id m) /\
    (forall m, in_flight m = false -> g m = m) /\
    (forall cid, messages_of (cancel_typing chatId lastMessage prev).1 cid
                 = if bool_decide (cid = chatId)
                   then map g (messages_of prev chatId)
                   else messages_of prev cid)).
  { intros lastMessage.
    exists (fun msg =>
              if status_is typing msg
              then interrupt_typing
                     match typingMessage prev with
                     | Some t => if truthy t then t +:+ em_dash else ""
                     | None => ""
                     end msg
              else msg).
    split; [intros m; now destruct (status_is typing m)|].
    split.
    - intros m Hm. unfold in_flight in Hm. apply orb_false_elim in Hm as [_ ->].
      reflexivity.
    - apply Hmapped. reflexivity. }
  assert (Hthinking : forall lastMessage, exists g : Message -> Message,
    (forall m, m_id (g m) = m_id m) /\
    (forall m, in_flight m = false -> g m = m) /\
    (forall cid, messages_of (cancel_thinking chatId lastMessage prev).1 cid
                 = if bool_decide (cid = chatId)
                   then map g (messages_of prev chatId)
                   else messages_of prev cid)).
  { intros lastMessage.
    exists (fun msg => if status_is thinking msg then interrupt_thinking msg else msg).
    split; [intros m; now destruct (status_is thinking m)|].
    split.
    - intros m Hm. unfold in_flight in Hm. apply orb_false_elim in Hm as [-> _].
      reflexivity.
    - apply Hmapped. reflexivity. }
  cbv zeta. unfold cancelMessage_update.
  destruct (last (messages_of prev chatId)) as [lastMessage|]; [|exact Hnothing].
  destruct (isInterruption && truthy_opt newContent),
    (status_is typing lastMessage && truthy_opt (typingMessage prev)),
    (status_is thinking lastMessage); auto.
Qed.

(** X1. [cancelMessage] never adds, removes or reorders a message, in any
    chat, and never alters a message that is not in flight: the ids of every
    list are the same before and after, and a message whose status is neither
    [thinking] nor [typing] is found unchanged at its place. *)
Theorem cancelMessage_keeps_settled (isInterruption : bool)
    (newContent : option string) (w : World) (cid : string) :
  let before := messages_of (state w) cid in
  let after := messages_of (state (cancelMessage isInterruption newContent w)) cid in
  map m_id after = map m_id before /\
  forall i msg, before !! i = Some msg -> in_flight msg = false ->
                after !! i = Some msg.
Proof.
  cbv zeta. unfold cancelMessage.
  destruct (currentChatId (state w)) as [chatId|] eqn:Hcur;
    [|autorewrite with world; split; [reflexivity | auto]].
  destruct (truthy chatId);
    [|autorewrite with world; split; [reflexivity | auto]].
  autorewrite with world.
  pose proof (cancelMessage_update_shape isInterruption newContent chatId (state w))
    as (g & Hid & Hfix & Hshape).
  destruct (cancelMessage_update isInterruption newContent chatId (state w))
    as [s notified]. cbn [fst] in Hshape. cbn [state set_calls set_state].
  rewrite Hshape. case_bool_decide as Hc; [subst cid|split; [reflexivity | auto]].
  split.
  - rewrite map_map. apply map_ext. exact Hid.
  - intros i msg Hi Hsettled. rewrite list_lookup_fmap, Hi. cbn.
    now rewrite Hfix.
Qed.

(** What the update of [cancelMessage] leaves behind: the two transient
    fields are cleared and the last message of the chat is not
    [thinking]. *)
Lemma cancelMessage_update_result (isInterruption : bool)
    (newContent : option string) (chatId : string) (prev : ChatState) :
  let s := (cancelMessage_update isInterruption newContent chatId prev).1 in
  typingMessage s = None /\ isSendingMessage s = false /\
  currentChatId s = currentChatId prev /\
  forall lastMessage, last (messages_of s chatId) = Some lastMessage ->
                      m_status lastMessage <> Some thinking.
Proof.
  cbv zeta.
  destruct (last (messages_of prev chatId)) as [lastMessage|] eqn:Hlast.
  - rewrite (cancelMessage_update_cases _ _ _ lastMessage _ Hlast).
    destruct (status_is typing lastMessage && truthy_opt (typingMessage prev))
      eqn:Hty; [|destruct (status_is thinking lastMessage) eqn:Hth].
    + repeat split. intros lm. unfold messages_of. cbn.
      rewrite lookup_insert_eq. cbn [from_option id]. rewrite last_map.
      fold (messages_of prev chatId). rewrite Hlast. cbn.
      apply andb_true_iff in Hty as [-> _]. intros [= <-]. discriminate.
    + repeat split. intros lm. unfold messages_of. cbn.
      rewrite lookup_insert_eq. cbn [from_option id]. rewrite last_map.
      fold (messages_of prev chatId). rewrite Hlast. cbn.
      rewrite Hth. intros [= <-]. discriminate.
    + repeat split. intros lm. cbn. change (messages_of _ chatId) with (messages_of prev chatId).
      rewrite Hlast. intros [= <-]. unfold status_is in Hth.
      now apply bool_decide_eq_false_1 in Hth.
  - unfold cancelMessage_update. rewrite Hlast. repeat split.
    intros lm. cbn. change (messages_of _ chatId) with (messages_of prev chatId).
    rewrite Hlast. discriminate.
Qed.

(** X2. Cancelling twice is cancelling once: a second [cancelMessage],
    with whatever arguments, changes nothing in the state, the refs or the
    calls made. *)
Theorem cancelMessage_idempotent (isInterruption again : bool)
    (newContent other : option string) (w : World) :
  cancelMessage again other (cancelMessage isInterruption newContent w)
    = cancelMessage isInterruption newContent w.
Proof.
  set (w1 := cancelMessage isInterruption newContent w).
  assert (Href : abortControllerRef w1 = None).
  { subst w1. unfold cancelMessage.
    destruct (currentChatId (state w)) as [c|]; [destruct (truthy c)|];
      try reflexivity.
    now destruct (cancelMessage_update _ _ _ _). }
  assert (Hrest : abort_current w1 = w1) by (unfold abort_current; now rewrite Href).
  assert (Hiv : typingIntervalRef w1 = None).
  { subst w1. unfold cancelMessage.
    destruct (currentChatId (state w)) as [c|]; [destruct (truthy c)|];
      try reflexivity.
    now destruct (cancelMessage_update _ _ _ _). }
  assert (Hsame : clearTypingAnimation (set_abortControllerRef None (abort_current w1)) = w1).
  { rewrite Hrest. apply World_eq; cbn; congruence. }
  assert (Hcur : currentChatId (state w1) = currentChatId (state w)).
  { subst w1. unfold cancelMessage.
    destruct (currentChatId (state w)) as [c|] eqn:Hc; [destruct (truthy c)|];
      autorewrite with world; try exact Hc.
    pose proof (cancelMessage_update_result isInterruption newContent c
                  (state (clearTypingAnimation (set_abortControllerRef None (abort_current w)))))
      as (_ & _ & Hk & _).
    autorewrite with world in Hk.
    destruct (cancelMessage_update _ _ _ _) as [s notified]. cbn in *. congruence. }
  unfold cancelMessage at 1. rewrite Hsame, Hcur.
  destruct (currentChatId (state w)) as [c|] eqn:Hc; [|reflexivity].
  destruct (truthy c) eqn:Htruthy; [|reflexivity].
  assert (Hst : typingMessage (state w1) = None /\ isSendingMessage (state w1) = false /\
                forall lm, last (messages_of (state w1) c) = Some lm ->
                           m_status lm <> Some thinking).
  { subst w1. unfold cancelMessage. rewrite Hc, Htruthy.
    pose proof (cancelMessage_update_result isInterruption newContent c
                  (state (clearTypingAnimation (set_abortControllerRef None (abort_current w)))))
      as (H1 & H2 & _ & H3).
    destruct (cancelMessage_update _ _ _ _) as [s notified]. cbn in *. auto. }
  destruct Hst as (Htm & Hsend & Hlast).
  assert (Hupd : cancelMessage_update again other c (state w1) = (state w1, [])).
  { destruct (last (messages_of (state w1) c)) as [lm|] eqn:Hlm.
    - rewrite (cancelMessage_update_cases _ _ _ lm _ Hlm).
      rewrite Htm. cbn [truthy_opt]. rewrite andb_false_r.
      unfold status_is. rewrite bool_decide_eq_false_2 by (apply Hlast; reflexivity).
      unfold cancel_nothing. now rewrite flags_already_clear.
    - unfold cancelMessage_update. rewrite Hlm.
      unfold cancel_nothing. now rewrite flags_already_clear. }
  rewrite Hupd. apply World_eq; cbn; try reflexivity. apply app_nil_r.
Qed.

Lemma elem_of_map_status (g : Message -> Message) (st : MessageStatus)
    (l : list Message) :
  (forall m, m_status (g m) <> Some st) ->
  forall msg, msg ∈ map g l -> m_status msg <> Some st.
Proof.
  intros Hg msg Hin. apply list_elem_of_fmap in Hin as (m & -> & _). apply Hg.
Qed.

Lemma cancelMessage_aborts (isInterruption : bool) (newContent : option string)
    (c : nat) (w : World) :
  abortControllerRef w = Some c ->
  c ∈ aborted (cancelMessage isInterruption newContent w).
Proof.
  intros Hc. unfold cancelMessage.
  assert (Hin : c ∈ aborted (clearTypingAnimation
                    (set_abortControllerRef None (abort_current w)))).
  { autorewrite with world. now apply aborting_fires. }
  destruct (currentChatId (state w)) as [chatId|]; [|exact Hin].
  destruct (truthy chatId); [|exact Hin].
  now destruct (cancelMessage_update _ _ _ _).
Qed.

Section CancelTurn.

Variables (isInterruption : bool) (newContent : option string).
Variables (chatId : string) (w : World) (lastMessage : Message).
Hypothesis Hactive : active_chat (state w) = Some chatId.
Hypothesis Hlast : last (messages_of (state w) chatId) = Some lastMessage.

Let w' : World := cancelMessage isInterruption newContent w.

(** In the thinking phase the list of the chat is mapped, and the rest
    of the state but the two transient fields is kept. *)
Lemma cancel_thinking_state :
  m_status lastMessage = Some thinking ->
  state w' = (cancel_thinking chatId lastMessage (state w)).1 /\
  calls w' = calls w ++ (cancel_thinking chatId lastMessage (state w)).2 /\
  messages_of (state w') chatId
    = map (fun msg => if status_is thinking msg then interrupt_thinking msg else msg)
          (messages_of (state w) chatId).
Proof using Hactive Hlast.
  intros Hst.
  destruct (cancelMessage_active isInterruption newContent chatId w Hactive)
    as (Hstate & Hcalls & _). fold w' in Hstate, Hcalls.
  rewrite (cancelMessage_update_cases _ _ _ lastMessage _ Hlast) in Hstate, Hcalls.
  assert (Hty : status_is typing lastMessage = false)
    by (unfold status_is; rewrite Hst; reflexivity).
  assert (Hth : status_is thinking lastMessage = true)
    by (unfold status_is; rewrite Hst; reflexivity).
  rewrite Hty, Hth in Hstate, Hcalls. cbn [andb] in Hstate, Hcalls.
  split; [exact Hstate|]. split; [exact Hcalls|].
  rewrite Hstate. unfold messages_of at 1. cbn. now rewrite lookup_insert_eq.
Qed.

Lemma interrupt_thinking_clears (l : list Message) :
  forall msg,
    msg ∈ map (fun m => if status_is thinking m then interrupt_thinking m else m) l ->
    m_status msg <> Some thinking.
Proof using Type.
  apply elem_of_map_status. intros m.
  destruct (status_is thinking m) eqn:Hm; [discriminate|].
  unfold status_is in Hm. now apply bool_decide_eq_false_1 in Hm.
Qed.

(** X3. Cancelling while the last message of the active chat is the
    [thinking] placeholder: the placeholder becomes an [interrupted]
    assistant message with empty content and [wasInterrupted] set, no
    message of the chat is left [thinking], the backend is told
    [cancelled] for that message exactly when the message before it is a
    user message, the two transient fields are cleared and the controller
    the ref held has fired. *)
Theorem cancel_thinking_turn :
  m_status lastMessage = Some thinking ->
  last (messages_of (state w') chatId)
    = Some (mkMessage (m_id lastMessage) (m_chatId lastMessage) assistant ""
              (m_timestamp lastMessage) (Some interrupted) (Some true)) /\
  (forall msg, msg ∈ messages_of (state w') chatId ->
               m_status msg <> Some thinking) /\
  calls w'
    = calls w ++
      match second_last (messages_of (state w) chatId) with
      | Some secondLastMessage =>
          if bool_decide (m_role secondLastMessage = user)
          then [call_updateMessage chatId (m_id lastMessage) upd_cancelled ""]
          else []
      | None => []
      end /\
  isSendingMessage (state w') = false /\
  typingMessage (state w') = None /\
  (forall c, abortControllerRef w = Some c -> c ∈ aborted w') /\
  abortControllerRef w' = None /\
  typingIntervalRef w' = None.
Proof using Hactive Hlast.
  intros Hst.
  destruct (cancelMessage_active isInterruption newContent chatId w Hactive)
    as (_ & _ & Href & Hiv). fold w' in Href, Hiv.
  destruct (cancel_thinking_state Hst) as (Hstate & Hcalls & Hlist).
  assert (Hth : status_is thinking lastMessage = true)
    by (unfold status_is; rewrite Hst; reflexivity).
  split; [rewrite Hlist, last_map, Hlast; cbn; now rewrite Hth|].
  split; [rewrite Hlist; apply interrupt_thinking_clears|].
  split; [exact Hcalls|].
  split; [now rewrite Hstate|]. split; [now rewrite Hstate|].
  split; [intros c Hc; now apply cancelMessage_aborts|].
  split; assumption.
Qed.

(** X4. Cancelling while the last message of the active chat is [typing]
    and the text [t] revealed so far is not empty: the message becomes
    [interrupted] with content [t] followed by the dash and
    [wasInterrupted] set, no message of the chat is left [typing], the
    backend is told [interrupted] with that content, the two transient
    fields are cleared, and the interval and the controller are gone. *)
Theorem cancel_typing_turn (t : string) :
  m_status lastMessage = Some typing ->
  typingMessage (state w) = Some t -> t <> "" ->
  last (messages_of (state w') chatId)
    = Some (mkMessage (m_id lastMessage) (m_chatId lastMessage)
              (m_role lastMessage) (t +:+ em_dash) (m_timestamp lastMessage)
              (Some interrupted) (Some true)) /\
  (forall msg, msg ∈ messages_of (state w') chatId ->
               m_status msg <> Some typing) /\
  calls w' = calls w ++ [call_updateMessage chatId (m_id lastMessage)
                           upd_interrupted (t +:+ em_dash)] /\
  isSendingMessage (state w') = false /\
  typingMessage (state w') = None /\
  (forall c, abortControllerRef w = Some c -> c ∈ aborted w') /\
  abortControllerRef w' = None /\
  typingIntervalRef w' = None /\
  (forall n, ticks n w' = w').
Proof using Hactive Hlast.
  intros Hst Ht Hne. apply truthy_true in Hne.
  destruct (cancelMessage_active isInterruption newContent chatId w Hactive)
    as (Hstate & Hcalls & Href & Hiv). fold w' in Hstate, Hcalls, Href, Hiv.
  rewrite (cancelMessage_update_cases _ _ _ lastMessage _ Hlast) in Hstate, Hcalls.
  assert (Hty : status_is typing lastMessage = true)
    by (unfold status_is; rewrite Hst; reflexivity).
  rewrite Hty, Ht in Hstate, Hcalls. cbn [truthy_opt] in Hstate, Hcalls.
  rewrite Hne in Hstate, Hcalls. unfold cancel_typing in Hstate, Hcalls.
  rewrite Ht in Hstate, Hcalls. cbn [andb fst snd truthy_opt] in Hstate, Hcalls.
  rewrite Hne in Hstate, Hcalls.
  assert (Hlist : messages_of (state w') chatId
                  = map (fun msg => if status_is typing msg
                                    then interrupt_typing (t +:+ em_dash) msg
                                    else msg)
                        (messages_of (state w) chatId)).
  { rewrite Hstate. unfold messages_of at 1. cbn. now rewrite lookup_insert_eq. }
  split; [rewrite Hlist, last_map, Hlast; cbn; now rewrite Hty|].
  split.
  { rewrite Hlist. apply elem_of_map_status. intros m.
    destruct (status_is typing m) eqn:Hm; [discriminate|].
    unfold status_is in Hm. now apply bool_decide_eq_false_1 in Hm. }
  split; [exact Hcalls|].
  split; [now rewrite Hstate|]. split; [now rewrite Hstate|].
  split; [intros c Hc; now apply cancelMessage_aborts|].
  split; [assumption|]. split; [assumption|].
  intros n. now apply ticks_idle.
Qed.

End CancelTurn.

Lemma cancel_thinking_turn_witness :
  (active_chat
     (state (sendMessage (Some Scenario.alice) "What are symptoms of flu?"
               Scenario.clk1 Scenario.opened).1) = Some "chat-001" /\
   m_status
     (default Scenario.reply
        (last (messages_of
                 (state (sendMessage (Some Scenario.alice)
                           "What are symptoms of flu?" Scenario.clk1
                           Scenario.opened).1) "chat-001")))
     = Some thinking) /\
  isSendingMessage
    (state (cancelMessage false None
              (sendMessage (Some Scenario.alice) "What are symptoms of flu?"
                 Scenario.clk1 Scenario.opened).1)) = false.
Proof.
  split; [split; by_running|].
  apply (cancel_thinking_turn false None "chat-001"
           (sendMessage (Some Scenario.alice) "What are symptoms of flu?"
              Scenario.clk1 Scenario.opened).1
           (default Scenario.reply
              (last (messages_of
                       (state (sendMessage (Some Scenario.alice)
                                 "What are symptoms of flu?" Scenario.clk1
                                 Scenario.opened).1) "chat-001"))));
    by_running.
Defined.

Lemma cancel_typing_turn_witness :
  (active_chat (state (match Scenario.reply_arrived with
      | Some (p, _) => ticks 4 (world p)
      | None => initialWorld
      end)) = Some "chat-001" /\
   m_status (default Scenario.reply (last (messages_of (state (match Scenario.reply_arrived with
      | Some (p, _) => ticks 4 (world p)
      | None => initialWorld
      end)) "chat-001")))
     = Some typing /\
   typingMessage (state (match Scenario.reply_arrived with
      | Some (p, _) => ticks 4 (world p)
      | None => initialWorld
      end)) = Some "Rest") /\
  m_content
    (default Scenario.reply
       (last (messages_of (state (cancelMessage true None (match Scenario.reply_arrived with
      | Some (p, _) => ticks 4 (world p)
      | None => initialWorld
      end))) "chat-001")))
    = "Rest" +:+ em_dash.
Proof.
  split; [split; [|split]; by_running|].
  destruct (cancel_typing_turn true None "chat-001" (match Scenario.reply_arrived with
      | Some (p, _) => ticks 4 (world p)
      | None => initialWorld
      end)
              (default Scenario.reply (last (messages_of (state (match Scenario.reply_arrived with
      | Some (p, _) => ticks 4 (world p)
      | None => initialWorld
      end)) "chat-001")))
              ltac:(by_running) ltac:(by_running) "Rest"
              ltac:(by_running) ltac:(by_running) ltac:(discriminate))
    as [Hlast _].
  rewrite Hlast. reflexivity.
Defined.

Lemma filter_all {A : Type} (P : A -> Prop) `{forall x, Decision (P x)}
    (l : list A) :
  (forall x, x ∈ l -> P x) -> filter P l = l.
Proof.
  induction l as [|x l IH]; intros Hall; [reflexivity|].
  rewrite filter_cons_True by (apply Hall; left).
  f_equal. apply IH. intros y Hy. apply Hall. now right.
Qed.

(** ** Replies that come too late, or that cannot be stopped *)

Lemma resolved_after_abort (f : SendFrame) (c : nat) (aiResponse : Message)
    (w : World) :
  sf_controller f = Some c -> c ∈ aborted w ->
  sendMessage_resolved f aiResponse w = w.
Proof.
  intros Hf Hin. unfold sendMessage_resolved. rewrite Hf. cbn.
  now rewrite bool_decide_eq_true_2.
Qed.

Lemma selectChat_aborts (chatId : string) (c : nat) (w : World) :
  abortControllerRef w = Some c -> c ∈ aborted (selectChat chatId w).
Proof.
  intros Hc. unfold selectChat, loadMessages. autorewrite with world.
  now apply aborting_fires.
Qed.

Lemma createNewChat_aborts (now : N) (c : nat) (w : World) :
  abortControllerRef w = Some c -> c ∈ aborted (createNewChat now w).
Proof.
  intros Hc. unfold createNewChat. autorewrite with world.
  now apply aborting_fires.
Qed.

Lemma aborted_sendMessage (u : User) (content : string) (clk : Clock)
    (w : World) :
  aborted (sendMessage (Some u) content clk w).1 = aborted (abort_current w).
Proof.
  unfold sendMessage.
  assert (Hfresh : forall s, aborted (abort_current (setState s w))
                             = aborted (abort_current w)).
  { intros s. unfold abort_current. cbn. now destruct (abortControllerRef w). }
  destruct (currentChatId (state w)) as [c|]; [destruct (truthy c)|];
    cbv zeta beta iota;
    match goal with
    | |- context [String.prefix ?a ?b] => destruct (String.prefix a b)
    end; cbn [fst]; autorewrite with world; auto.
Qed.

Lemma deleteChat_aborts (chatId : string) (c : nat) (w : World) :
  currentChatId (state w) = Some chatId -> abortControllerRef w = Some c ->
  c ∈ aborted (deleteChat chatId w).1.
Proof.
  intros Hcur Hc. unfold deleteChat. rewrite Hcur.
  rewrite bool_decide_eq_true_2 by reflexivity.
  autorewrite with world. rewrite Hc.
  rewrite bool_decide_eq_true_2 by (eexists; reflexivity).
  cbn [andb fst]. autorewrite with world.
  apply aborting_fires. now autorewrite with world.
Qed.

(** X5. A reply that resolves after its request was superseded is
    dropped.  If the send awaits its reply under the controller the ref
    holds, then after [cancelMessage], [selectChat], [createNewChat], a newer
    [sendMessage], or [deleteChat] of the current chat, the arrival of the
    reply changes nothing at all. *)
Theorem superseded_reply_is_dropped (f : SendFrame) (c : nat)
    (aiResponse : Message) (w : World) :
  sf_controller f = Some c -> abortControllerRef w = Some c ->
  (forall isInterruption newContent,
     let w' := cancelMessage isInterruption newContent w in
     sendMessage_resolved f aiResponse w' = w') /\
  (forall chatId,
     let w' := selectChat chatId w in
     sendMessage_resolved f aiResponse w' = w') /\
  (forall now,
     let w' := createNewChat now w in
     sendMessage_resolved f aiResponse w' = w') /\
  (forall u content clk,
     let w' := (sendMessage (Some u) content clk w).1 in
     sendMessage_resolved f aiResponse w' = w') /\
  (forall chatId,
     currentChatId (state w) = Some chatId ->
     let w' := (deleteChat chatId w).1 in
     sendMessage_resolved f aiResponse w' = w').
Proof.
  intros Hf Hc. repeat split; intros;
    repeat match goal with x := _ |- _ => subst x end;
    apply (resolved_after_abort f c); try exact Hf.
  - now apply cancelMessage_aborts.
  - now apply selectChat_aborts.
  - now apply createNewChat_aborts.
  - rewrite aborted_sendMessage. now apply aborting_fires.
  - now apply deleteChat_aborts.
Qed.

Lemma superseded_reply_is_dropped_witness :
  let f := mkSendFrame (Some "chat-001") "chat-001" "What are symptoms of flu?"
             "chat-001" (Some 0) in
  let w := (sendMessage (Some Scenario.alice) "What are symptoms of flu?"
              Scenario.clk1 Scenario.opened).1 in
  (sf_controller f = Some 0 /\ abortControllerRef w = Some 0) /\
  sendMessage_resolved f Scenario.reply (selectChat "chat-002" w)
    = selectChat "chat-002" w.
Proof.
  intros f w. split; [split; by_running|].
  exact (proj1 (proj2 (superseded_reply_is_dropped f 0 Scenario.reply w
                         eq_refl ltac:(by_running))) "chat-002").
Defined.

Lemma cancelMessage_ref (isInterruption : bool) (newContent : option string)
    (w : World) :
  abortControllerRef (cancelMessage isInterruption newContent w) = None.
Proof.
  unfold cancelMessage.
  destruct (currentChatId (state w)) as [c|]; [destruct (truthy c)|];
    try reflexivity.
  now destruct (cancelMessage_update _ _ _ _).
Qed.

(** X6. A cancellation issued while the chat is still being created does
    not stop the turn.  [cancelMessage] empties the ref; when the creation
    is acknowledged, [sendMessage] reads its controller from the ref, finds
    none, asks for the reply without a signal, and applies the reply when it
    comes: the reply is appended with status [typing] and the animation
    starts. *)
Theorem cancel_during_creation_does_not_stop (isInterruption : bool)
    (newContent : option string) (f : SendFrame) (newChat : Chat)
    (aiResponse : Message) (w : World) :
  let w1 := cancelMessage isInterruption newContent w in
  let w2 := (sendMessage_chatCreated f newChat w1).1 in
  exists f',
    (sendMessage_chatCreated f newChat w1).2 = AwaitSendMessage f' /\
    sf_controller f' = None /\
    last (calls w2) = Some (call_sendMessage (c_id newChat) (sf_content f) None) /\
    let w3 := sendMessage_resolved f' aiResponse w2 in
    last (messages_of (state w3) (c_id newChat))
      = Some (mkMessage (m_id aiResponse) (c_id newChat) (m_role aiResponse)
                (m_content aiResponse) (m_timestamp aiResponse) (Some typing)
                (m_wasInterrupted aiResponse)) /\
    typingIntervalRef w3
      = Some (mkInterval (m_content aiResponse) (m_id aiResponse) 0).
Proof.
  cbv zeta. unfold sendMessage_chatCreated. cbn [fst snd].
  autorewrite with world. rewrite cancelMessage_ref.
  eexists. split; [reflexivity|]. split; [reflexivity|].
  split; [cbn; apply last_snoc|].
  unfold sendMessage_resolved. cbn [sf_controller signal_aborted sf_actualChatId].
  split; [|reflexivity].
  unfold startTypingAnimation. autorewrite with world.
  unfold sendMessage_typing, messages_of. cbn.
  rewrite lookup_insert_eq. cbn [from_option id]. apply last_snoc.
Qed.

(** X7. The [catch] that follows a cancellation removes nothing.  When
    the placeholder of the active chat is cancelled while [thinking] and the
    aborted request then rejects with an [AbortError], the list of the chat
    is what the cancellation left, the [interrupted] notice included, and no
    error is surfaced. *)
Theorem abort_catch_keeps_interrupted_notice (isInterruption : bool)
    (newContent : option string) (chatId text : string) (lastMessage : Message)
    (f : SendFrame) (w : World) :
  active_chat (state w) = Some chatId ->
  last (messages_of (state w) chatId) = Some lastMessage ->
  m_status lastMessage = Some thinking ->
  errorChatId f = chatId ->
  let w1 := cancelMessage isInterruption newContent w in
  let w2 := (sendMessage_rejected f (ErrorObject "AbortError" text) w1).1 in
  (sendMessage_rejected f (ErrorObject "AbortError" text) w1).2 = Fulfilled /\
  messages_of (state w2) chatId = messages_of (state w1) chatId /\
  last (messages_of (state w2) chatId)
    = Some (mkMessage (m_id lastMessage) (m_chatId lastMessage) assistant ""
              (m_timestamp lastMessage) (Some interrupted) (Some true)) /\
  error (state w2) = error (state w) /\
  isSendingMessage (state w2) = false /\
  calls w2 = calls w1.
Proof.
  intros Hact Hlast Hst Herr. cbv zeta.
  destruct (cancel_thinking_state isInterruption newContent chatId w
              lastMessage Hact Hlast Hst) as (Hstate & _ & Hlist).
  assert (Hth : status_is thinking lastMessage = true)
    by (unfold status_is; rewrite Hst; reflexivity).
  unfold sendMessage_rejected. rewrite bool_decide_eq_true_2 by reflexivity.
  cbn [fst snd]. autorewrite with world. rewrite Herr.
  assert (Hsame : messages_of
            (sendMessage_aborted chatId
               (state (cancelMessage isInterruption newContent w))) chatId
          = messages_of (state (cancelMessage isInterruption newContent w)) chatId).
  { unfold sendMessage_aborted, messages_of at 1. cbn.
    rewrite lookup_insert_eq. cbn [from_option id].
    apply filter_all. rewrite Hlist. apply interrupt_thinking_clears. }
  split; [reflexivity|]. split; [exact Hsame|].
  split; [rewrite Hsame, Hlist, last_map, Hlast; cbn; now rewrite Hth|].
  split; [cbn; now rewrite Hstate|]. split; reflexivity.
Qed.

Lemma abort_catch_keeps_interrupted_notice_witness :
  let w := (sendMessage (Some Scenario.alice) "What are symptoms of flu?"
              Scenario.clk1 Scenario.opened).1 in
  let f := mkSendFrame (Some "chat-001") "chat-001" "What are symptoms of flu?"
             "chat-001" (Some 0) in
  let lastMessage :=
    mkMessage "thinking-1700000000002" "chat-001" assistant ""
      "2023-11-14T22:13:20.002Z" (Some thinking) None in
  (active_chat (state w) = Some "chat-001" /\
   last (messages_of (state w) "chat-001") = Some lastMessage /\
   m_status lastMessage = Some thinking /\
   errorChatId f = "chat-001") /\
  map m_status
    (messages_of
       (state (sendMessage_rejected f (ErrorObject "AbortError" "Aborted")
                 (cancelMessage false None w)).1) "chat-001")
    = [Some sent; Some interrupted].
Proof.
  intros w f lastMessage.
  split; [repeat split; by_running|].
  rewrite (proj1 (proj2
    (abort_catch_keeps_interrupted_notice false None "chat-001" "Aborted"
       lastMessage f w ltac:(by_running) ltac:(by_running) eq_refl eq_refl))).
  by_running.
Defined.

(** ** Switching, creating and deleting chats *)

(** X8. Selecting a chat shows exactly what the backend returns for it.
    After [selectChat] and the arrival of the page it asked for, the list of
    the chat is that page, whatever was in memory for the chat before; the
    chat is current, its [hasMoreMessages] flag is the page's, no flag of a
    turn or of loading is left set, the interval and the controller are
    gone, and the lists of the other chats and the directory are as
    before. *)
Theorem selectChat_shows_fresh_history (chatId : string) (page : MessagesPage)
    (w : World) :
  let w' := loadMessages_resolved chatId None page (selectChat chatId w) in
  currentChatId (state w') = Some chatId /\
  messages_of (state w') chatId = r_messages page /\
  hasMoreMessages (state w') !! chatId = Some (r_hasMore page) /\
  isLoadingMessages (state w') = false /\
  isSendingMessage (state w') = false /\
  typingMessage (state w') = None /\
  typingIntervalRef w' = None /\
  abortControllerRef w' = None /\
  calls w' = calls w ++ [call_getMessages chatId None] /\
  chats (state w') = chats (state w) /\
  (forall other, other <> chatId ->
     messages (state w') !! other = messages (state w) !! other).
Proof.
  cbv zeta. unfold loadMessages_resolved, selectChat, loadMessages.
  autorewrite with world.
  split; [reflexivity|].
  split; [unfold messages_of; cbn; now rewrite lookup_insert_eq|].
  split; [cbn; now rewrite lookup_insert_eq|].
  repeat split.
  intros other Hne. cbn. now rewrite !lookup_insert_ne by congruence.
Qed.

(** X9. When the history that [selectChat] asked for fails to load, the
    selected chat is left empty: its list was cleared by [selectChat] and
    stays so, its [hasMoreMessages] flag stays [true], and the error field
    carries the message of the [Error], or the fixed text for any other
    value thrown. *)
Theorem selectChat_then_failed_load (chatId : string) (e : Thrown) (w : World) :
  let w' := loadMessages_rejected e (selectChat chatId w) in
  currentChatId (state w') = Some chatId /\
  messages (state w') !! chatId = Some [] /\
  hasMoreMessages (state w') !! chatId = Some true /\
  isLoadingMessages (state w') = false /\
  error (state w')
    = Some match e with
           | ErrorObject _ text => text
           | PlainValue | Nullish => "Failed to load messages"
           end /\
  (forall other, other <> chatId ->
     messages (state w') !! other = messages (state w) !! other).
Proof.
  cbv zeta. unfold loadMessages_rejected, selectChat, loadMessages.
  autorewrite with world.
  split; [reflexivity|].
  split; [cbn; now rewrite lookup_insert_eq|].
  split; [cbn; now rewrite lookup_insert_eq|].
  split; [reflexivity|].
  split; [now destruct e|].
  intros other Hne. cbn. now rewrite lookup_insert_ne by congruence.
Qed.

(** X10. A new chat followed by its first message.  [createNewChat]
    makes [new-chat-<now>] current with an empty list and an empty draft;
    the [sendMessage] that follows works on that id (it takes no id of its
    own), leaves exactly the user message and the placeholder in its list,
    and asks the backend to create the chat.  The directory is untouched and
    so is the list of every other chat. *)
Theorem first_message_of_new_chat (u : User) (content : string) (now : N)
    (clk : Clock) (w : World) :
  let chatId := temporary_id now in
  let w1 := createNewChat now w in
  let w2 := (sendMessage (Some u) content clk w1).1 in
  (currentChatId (state w1) = Some chatId /\
   messages (state w1) !! chatId = Some [] /\
   getDraft chatId (state w1) = "") /\
  (sendMessage (Some u) content clk w1).2
    = Some (AwaitCreateChat (mkSendFrame (Some chatId) chatId content chatId None)) /\
  currentChatId (state w2) = Some chatId /\
  messages (state w2) !! chatId
    = Some [mkMessage ("msg-" +:+ pretty (now_msg clk)) chatId user content
              (iso_msg clk) (Some sent) None;
            mkMessage ("thinking-" +:+ pretty (now_thinking clk)) chatId
              assistant "" (iso_thinking clk) (Some thinking) None] /\
  last (calls w2) = Some (call_createChat content) /\
  chats (state w2) = chats (state w) /\
  (forall other, other <> chatId ->
     messages (state w2) !! other = messages (state w) !! other).
Proof.
  cbv zeta. set (w1 := createNewChat now w).
  assert (Hcur : currentChatId (state w1) = Some (temporary_id now))
    by (subst w1; unfold createNewChat; now autorewrite with world).
  assert (Hmsgs : messages (state w1) = <[temporary_id now := []]> (messages (state w)))
    by (subst w1; unfold createNewChat; now autorewrite with world).
  assert (Hchats : chats (state w1) = chats (state w))
    by (subst w1; unfold createNewChat; now autorewrite with world).
  assert (Hdraft : getDraft (temporary_id now) (state w1) = "").
  { subst w1. unfold getDraft, createNewChat. rewrite temporary_id_truthy.
    autorewrite with world. unfold read_draft. cbn.
    now rewrite lookup_insert_eq. }
  clearbody w1.
  split; [split; [exact Hcur|]; split; [rewrite Hmsgs; apply lookup_insert_eq|exact Hdraft]|].
  unfold sendMessage. rewrite Hcur, temporary_id_truthy. cbv zeta beta iota.
  rewrite temporary_id_prefix. cbn [fst snd].
  split; [reflexivity|]. autorewrite with world.
  split; [cbn; exact Hcur|].
  split.
  { cbn. unfold messages_of. rewrite Hmsgs.
    now rewrite !lookup_insert_eq. }
  split; [cbn; apply last_snoc|].
  split; [cbn; exact Hchats|].
  intros other Hne. cbn. rewrite lookup_insert_ne by congruence.
  rewrite Hmsgs. now rewrite lookup_insert_ne by congruence.
Qed.

(** X11. Deleting a chat that is not the current one.  When the backend
    reports success, the directory loses the chats with that id and keeps
    the others in order, the message list, the draft and the pagination flag
    of the chat are removed, those of every other chat are kept, the current
    chat is the same, the deleting flag is cleared, and the refs are not
    touched: a turn in progress in the current chat goes on. *)
Theorem deleteChat_of_other_chat (chatId : string) (result : DeleteResult)
    (now : N) (w : World) :
  currentChatId (state w) <> Some chatId ->
  success result = true ->
  let w1 := (deleteChat chatId w).1 in
  let w2 := (deleteChat_resolved (deleteChat chatId w).2 result now w1).1 in
  chats (state w2) = filter (fun chat => c_id chat <> chatId) (chats (state w)) /\
  messages (state w2) = delete chatId (messages (state w)) /\
  draftMessages (state w2) = delete chatId (draftMessages (state w)) /\
  hasMoreMessages (state w2) = delete chatId (hasMoreMessages (state w)) /\
  currentChatId (state w2) = currentChatId (state w) /\
  isDeletingChat (state w2) = false /\
  error (state w2) = None /\
  abortControllerRef w2 = abortControllerRef w /\
  aborted w2 = aborted w /\
  typingIntervalRef w2 = typingIntervalRef w /\
  calls w2 = calls w ++ [call_deleteChat chatId].
Proof.
  intros Hother Hok. cbv zeta. unfold deleteChat, deleteChat_resolved.
  rewrite (bool_decide_eq_false_2 _ Hother). cbn [andb fst snd df_closure df_chatId].
  rewrite Hok, (bool_decide_eq_false_2 _ Hother). cbn [fst].
  autorewrite with world. unfold deleteChat_success. cbn.
  rewrite (bool_decide_eq_false_2 _ Hother). repeat split.
Qed.

Lemma deleteChat_of_other_chat_witness :
  (currentChatId (state Scenario.opened) <> Some "chat-002" /\
   success (mkDeleteResult true [Scenario.chat1]) = true) /\
  chats
    (state
       (deleteChat_resolved (deleteChat "chat-002" Scenario.opened).2
          (mkDeleteResult true [Scenario.chat1]) 1700000009000
          (deleteChat "chat-002" Scenario.opened).1).1)
    = [Scenario.chat1].
Proof.
  split; [split; [discriminate | reflexivity]|].
  rewrite (proj1 (deleteChat_of_other_chat "chat-002"
                    (mkDeleteResult true [Scenario.chat1]) 1700000009000
                    Scenario.opened ltac:(discriminate) eq_refl)).
  by_running.
Defined.

(** X12. Deleting the current chat.  When the backend reports success, a
    new empty chat [new-chat-<now>] takes its place as the current chat, with
    an empty list and an empty draft; nothing is stored any more under the
    deleted id, which has left the directory; the deleting flag and the
    flags of a turn are cleared, and the interval and the controller are
    gone. *)
Theorem deleteChat_of_current_chat (chatId : string) (result : DeleteResult)
    (now : N) (w : World) :
  currentChatId (state w) = Some chatId ->
  success result = true ->
  chatId <> temporary_id now ->
  let w1 := (deleteChat chatId w).1 in
  let w2 := (deleteChat_resolved (deleteChat chatId w).2 result now w1).1 in
  currentChatId (state w2) = Some (temporary_id now) /\
  messages (state w2) !! temporary_id now = Some [] /\
  getDraft (temporary_id now) (state w2) = "" /\
  messages (state w2) !! chatId = None /\
  draftMessages (state w2) !! chatId = None /\
  hasMoreMessages (state w2) !! chatId = None /\
  chats (state w2) = filter (fun chat => c_id chat <> chatId) (chats (state w)) /\
  isDeletingChat (state w2) = false /\
  isSendingMessage (state w2) = false /\
  typingMessage (state w2) = None /\
  typingIntervalRef w2 = None /\
  abortControllerRef w2 = None /\
  (forall c, abortControllerRef w = Some c -> c ∈ aborted w2).
Proof.
  intros Hcur Hok Hne. cbv zeta.
  assert (Hfired : forall c, abortControllerRef w = Some c ->
                             c ∈ aborted (deleteChat chatId w).1)
    by (intros c Hc; now apply deleteChat_aborts).
  unfold deleteChat_resolved.
  assert (Hframe : (deleteChat chatId w).2 = mkDeleteFrame (Some chatId) chatId).
  { unfold deleteChat. now rewrite Hcur. }
  rewrite Hframe, Hok. cbn [df_closure df_chatId].
  rewrite bool_decide_eq_true_2 by reflexivity. cbn [fst].
  assert (Hstate : state (deleteChat chatId w).1 = deleteChat_begin (state w)).
  { unfold deleteChat.
    destruct (bool_decide (currentChatId (state w) = Some chatId)
              && bool_decide (is_Some (abortControllerRef (setState deleteChat_begin w))));
      cbn [fst]; now autorewrite with world. }
  unfold createNewChat. autorewrite with world. rewrite Hstate.
  unfold getDraft, read_draft. rewrite temporary_id_truthy.
  unfold createNewChat_update, deleteChat_success. cbn.
  rewrite !lookup_insert_eq. rewrite !lookup_insert_ne by congruence.
  rewrite !lookup_delete_eq.
  repeat split.
  intros c Hc. apply aborted_grows. autorewrite with world. now apply Hfired.
Qed.

Lemma deleteChat_of_current_chat_witness :
  (currentChatId (state Scenario.opened) = Some "chat-001" /\
   success (mkDeleteResult true [Scenario.chat2]) = true /\
   "chat-001" <> temporary_id 1700000009000) /\
  currentChatId
    (state
       (deleteChat_resolved (deleteChat "chat-001" Scenario.opened).2
          (mkDeleteResult true [Scenario.chat2]) 1700000009000
          (deleteChat "chat-001" Scenario.opened).1).1)
    = Some "new-chat-1700000009000".
Proof.
  split; [split; [by_running | split; [reflexivity | discriminate]]|].
  exact (proj1 (deleteChat_of_current_chat "chat-001"
                  (mkDeleteResult true [Scenario.chat2]) 1700000009000
                  Scenario.opened ltac:(by_running) eq_refl
                  ltac:(discriminate))).
Defined.

(** ** The animation and the whole turn *)

(** From any point of the reveal, the ticks up to and including the one
    that follows the last character amount to one reveal of the whole text,
    if a character was left, and the completion update. *)
Lemma ticks_to_completion (w : World) (full mid : string) (i : nat) :
  typingIntervalRef w = Some (mkInterval full mid i) ->
  i <= String.length full ->
  ticks (S (String.length full - i)) w
    = setState (typing_complete full mid)
        (clearTypingAnimation
           (setState (if (i <? String.length full)%nat
                      then typing_reveal (revealed (String.length full) full)
                      else fun s => s) w)).
Proof.
  intros Hiv Hle.
  replace (S (String.length full - i)) with ((String.length full - i) + 1) by lia.
  rewrite ticks_add. cbn [ticks].
  destruct (String.length full - i) as [|k] eqn:Hk.
  - assert (i = String.length full) by lia. subst i.
    rewrite Nat.ltb_irrefl. cbn [ticks].
    rewrite (tick_completes w full mid Hiv). reflexivity.
  - rewrite (ticks_reveal k w full mid i Hiv) by lia.
    replace (i + S k) with (String.length full) by lia.
    rewrite (proj2 (Nat.ltb_lt _ _)) by lia.
    erewrite tick_completes by reflexivity. reflexivity.
Qed.

(** What the completion update keeps. *)
Lemma typing_complete_frame (full mid : string) (prev : ChatState) :
  let s := typing_complete full mid prev in
  currentChatId s = currentChatId prev /\ chats s = chats prev /\
  draftMessages s = draftMessages prev /\
  hasMoreMessages s = hasMoreMessages prev /\ error s = error prev /\
  forall cid,
    map m_id (messages_of s cid) = map m_id (messages_of prev cid) /\
    forall k msg, messages_of prev cid !! k = Some msg -> m_id msg <> mid ->
                  messages_of s cid !! k = Some msg.
Proof.
  cbv zeta. unfold typing_complete.
  destruct (currentChatId prev) as [c|] eqn:Hc; [|repeat split; auto].
  destruct (truthy c); [|repeat split; auto].
  repeat split; try exact Hc.
  - unfold messages_of at 1. cbn.
    destruct (decide (c = cid)) as [->|Hne].
    + rewrite lookup_insert_eq. cbn [from_option id]. rewrite map_map.
      apply map_ext. intros m. now destruct (bool_decide (m_id m = mid)).
    + now rewrite lookup_insert_ne by exact Hne.
  - intros k msg Hk Hid. unfold messages_of at 1. cbn.
    destruct (decide (c = cid)) as [->|Hne].
    + rewrite lookup_insert_eq. cbn [from_option id].
      rewrite list_lookup_fmap. fold (messages_of prev cid). rewrite Hk. cbn.
      now rewrite bool_decide_eq_false_2.
    + now rewrite lookup_insert_ne by exact Hne.
Qed.

(** X13. The typing animation always ends.  From any point [i] of the
    reveal of [full], [length full - i + 1] ticks clear the interval,
    whichever chat is current by then, after which ticks do nothing.  The
    ticks make no backend call, leave the controller, the current chat, the
    directory, the drafts and the pagination flags alone, keep the ids of
    every list, and change no message whose id is not the reply's. *)
Theorem typing_animation_ends (w : World) (full mid : string) (i : nat) :
  typingIntervalRef w = Some (mkInterval full mid i) ->
  i <= String.length full ->
  let w' := ticks (S (String.length full - i)) w in
  typingIntervalRef w' = None /\
  (forall n, ticks n w' = w') /\
  calls w' = calls w /\
  abortControllerRef w' = abortControllerRef w /\
  aborted w' = aborted w /\
  currentChatId (state w') = currentChatId (state w) /\
  chats (state w') = chats (state w) /\
  draftMessages (state w') = draftMessages (state w) /\
  hasMoreMessages (state w') = hasMoreMessages (state w) /\
  forall cid,
    map m_id (messages_of (state w') cid) = map m_id (messages_of (state w) cid) /\
    forall k msg, messages_of (state w) cid !! k = Some msg -> m_id msg <> mid ->
                  messages_of (state w') cid !! k = Some msg.
Proof.
  intros Hiv Hle w'. subst w'. rewrite (ticks_to_completion w full mid i Hiv Hle).
  set (g := if (i <? String.length full)%nat
            then typing_reveal (revealed (String.length full) full)
            else fun s : ChatState => s).
  assert (Hg : currentChatId (g (state w)) = currentChatId (state w) /\
               chats (g (state w)) = chats (state w) /\
               draftMessages (g (state w)) = draftMessages (state w) /\
               hasMoreMessages (g (state w)) = hasMoreMessages (state w) /\
               messages (g (state w)) = messages (state w)).
  { subst g. destruct (i <? String.length full)%nat; repeat split. }
  destruct Hg as (Hg1 & Hg2 & Hg3 & Hg4 & Hg5).
  pose proof (typing_complete_frame full mid (g (state w)))
    as (Hc1 & Hc2 & Hc3 & Hc4 & _ & Hc5).
  autorewrite with world.
  split; [reflexivity|]. split; [intros n; now apply ticks_idle|].
  split; [reflexivity|]. split; [reflexivity|]. split; [reflexivity|].
  split; [congruence|]. split; [congruence|]. split; [congruence|].
  split; [congruence|].
  intros cid. destruct (Hc5 cid) as [Hids Hkeep].
  assert (Hlist : messages_of (g (state w)) cid = messages_of (state w) cid)
    by (unfold messages_of; now rewrite Hg5).
  rewrite Hlist in Hids, Hkeep. split; assumption.
Qed.

Lemma typing_animation_ends_witness :
  let f := mkSendFrame (Some "chat-001") "chat-001" "What are symptoms of flu?"
             "chat-001" (Some 0) in
  let w := ticks 4
             (sendMessage_resolved f Scenario.reply
                (sendMessage (Some Scenario.alice) "What are symptoms of flu?"
                   Scenario.clk1 Scenario.opened).1) in
  (typingIntervalRef w = Some (mkInterval "Rest and fluids." "msg-k3x9q0z1a" 4) /\
   4 <= String.length "Rest and fluids.") /\
  typingIntervalRef (ticks (S (String.length "Rest and fluids." - 4)) w) = None.
Proof.
  intros f w. split; [split; [by_running | cbn; lia]|].
  exact (proj1 (typing_animation_ends w "Rest and fluids." "msg-k3x9q0z1a" 4
                  ltac:(by_running) ltac:(cbn; lia))).
Defined.

Lemma controllers_abort_current (w : World) :
  controllers (abort_current w) = controllers w.
Proof. unfold abort_current. now destruct (abortControllerRef w). Qed.

(** The state a send on a selected chat leaves when it is suspended. *)
Lemma sendMessage_selected_state (u : User) (content chatId : string)
    (clk : Clock) (w : World) :
  currentChatId (state w) = Some chatId -> chatId <> "" ->
  state (sendMessage (Some u) content clk w).1
    = sendMessage_optimistic chatId
        (mkMessage ("msg-" +:+ pretty (now_msg clk)) chatId user content
           (iso_msg clk) (Some sent) None)
        (mkMessage ("thinking-" +:+ pretty (now_thinking clk)) chatId
           assistant "" (iso_thinking clk) (Some thinking) None)
        (state w).
Proof.
  intros Hcur Hne. apply truthy_true in Hne.
  unfold sendMessage. rewrite Hcur, Hne. cbv zeta beta iota.
  destruct (String.prefix "new-chat-" chatId); cbn [fst];
    now autorewrite with world.
Qed.

(** X14. A send on a selected chat.  The part of [sendMessage] that runs
    at once appends the user message and the [thinking] placeholder after
    the messages the chat already has, clears the draft of the chat and the
    error, sets the sending flag, fires the controller the ref held and
    installs a new one; the current chat, the directory, the lists of the
    other chats and their drafts are as before. *)
Theorem sendMessage_on_selected_chat (u : User) (content chatId : string)
    (clk : Clock) (w : World) :
  currentChatId (state w) = Some chatId -> chatId <> "" ->
  let w' := (sendMessage (Some u) content clk w).1 in
  messages_of (state w') chatId
    = messages_of (state w) chatId ++
      [mkMessage ("msg-" +:+ pretty (now_msg clk)) chatId user content
         (iso_msg clk) (Some sent) None;
       mkMessage ("thinking-" +:+ pretty (now_thinking clk)) chatId assistant ""
         (iso_thinking clk) (Some thinking) None] /\
  getDraft chatId (state w') = "" /\
  error (state w') = None /\
  isSendingMessage (state w') = true /\
  currentChatId (state w') = Some chatId /\
  chats (state w') = chats (state w) /\
  abortControllerRef w' = Some (controllers w) /\
  (forall c, abortControllerRef w = Some c -> c ∈ aborted w') /\
  (forall other, other <> chatId ->
     messages (state w') !! other = messages (state w) !! other /\
     draftMessages (state w') !! other = draftMessages (state w) !! other).
Proof.
  intros Hcur Hne w'. pose proof Hne as Htruthy. apply truthy_true in Htruthy.
  assert (Hrun : exists pending call,
    sendMessage (Some u) content clk w
      = (issue call
           (setState
              (sendMessage_optimistic chatId
                 (mkMessage ("msg-" +:+ pretty (now_msg clk)) chatId user content
                    (iso_msg clk) (Some sent) None)
                 (mkMessage ("thinking-" +:+ pretty (now_thinking clk)) chatId
                    assistant "" (iso_thinking clk) (Some thinking) None))
              (new_controller (abort_current w))),
         pending)).
  { unfold sendMessage. rewrite Hcur, Htruthy. cbv zeta beta iota.
    destruct (String.prefix "new-chat-" chatId); eexists _, _; reflexivity. }
  destruct Hrun as (pending & call & Hrun). subst w'. rewrite Hrun in *.
  cbn [fst] in *. autorewrite with world.
  split; [unfold messages_of at 1; cbn; now rewrite lookup_insert_eq|].
  split; [unfold getDraft, read_draft; rewrite Htruthy; cbn;
          now rewrite lookup_insert_eq|].
  split; [reflexivity|]. split; [reflexivity|].
  split; [cbn; exact Hcur|]. split; [reflexivity|].
  split; [cbn; now rewrite controllers_abort_current|].
  split; [intros c Hc; now apply aborting_fires|].
  intros other Hother. cbn. now rewrite !lookup_insert_ne by congruence.
Qed.

Lemma sendMessage_on_selected_chat_witness :
  (currentChatId (state Scenario.opened) = Some "chat-001" /\ "chat-001" <> "") /\
  getDraft "chat-001"
    (state (sendMessage (Some Scenario.alice) "hello" Scenario.clk1
              (saveDraft "chat-001" "hel" Scenario.opened)).1) = "".
Proof.
  split; [split; [by_running | discriminate]|].
  exact (proj1 (proj2
    (sendMessage_on_selected_chat Scenario.alice "hello" "chat-001" Scenario.clk1
       (saveDraft "chat-001" "hel" Scenario.opened)
       ltac:(by_running) ltac:(discriminate)))).
Defined.

Lemma state_startTypingAnimation (full mid : string) (w : World) :
  state (startTypingAnimation full mid w) = state w.
Proof. reflexivity. Qed.

Lemma calls_startTypingAnimation (full mid : string) (w : World) :
  calls (startTypingAnimation full mid w) = calls w.
Proof. reflexivity. Qed.

Lemma map_fixed {A : Type} (g : A -> A) (l : list A) :
  (forall x, x ∈ l -> g x = x) -> map g l = l.
Proof.
  induction l as [|x l IH]; intros Hg; [reflexivity|]. cbn.
  rewrite (Hg x) by left. f_equal. apply IH. intros y Hy. apply Hg. now right.
Qed.

(** X15. A whole turn.  On a selected chat with a server id, a send whose
    reply arrives and is typed out to the end, with nothing else happening
    in between, leaves in the list of the chat the messages it had, less any
    [thinking] one, then the user message with status [sent], then the reply
    with status [sent] and its full text; the sending flag, the revealed
    text, the interval and the error are clear, and one request was made.
    The reply's id is taken to differ from the ids already in the list and
    from the user message's. *)
Theorem whole_turn (u : User) (content chatId : string) (clk : Clock)
    (aiResponse : Message) (w : World) :
  currentChatId (state w) = Some chatId -> chatId <> "" ->
  String.prefix "new-chat-" chatId = false ->
  controllers_known w ->
  (forall m, m ∈ messages_of (state w) chatId -> m_id m <> m_id aiResponse) ->
  "msg-" +:+ pretty (now_msg clk) <> m_id aiResponse ->
  exists w1 f,
    sendMessage (Some u) content clk w = (w1, Some (AwaitSendMessage f)) /\
    let w3 := ticks (S (String.length (m_content aiResponse)))
                (sendMessage_resolved f aiResponse w1) in
    messages_of (state w3) chatId
      = filter (fun m => m_status m <> Some thinking) (messages_of (state w) chatId)
        ++ [mkMessage ("msg-" +:+ pretty (now_msg clk)) chatId user content
              (iso_msg clk) (Some sent) None;
            mkMessage (m_id aiResponse) chatId (m_role aiResponse)
              (m_content aiResponse) (m_timestamp aiResponse) (Some sent)
              (m_wasInterrupted aiResponse)] /\
    isSendingMessage (state w3) = false /\
    typingMessage (state w3) = None /\
    typingIntervalRef w3 = None /\
    error (state w3) = None /\
    calls w3 = calls w ++ [call_sendMessage chatId content (Some (controllers w))].
Proof.
  intros Hcur Hne Hpre Hknown Hfresh Huser.
  destruct (sendMessage_reaches_backend u content chatId clk w Hcur Hne Hpre Hknown)
    as (w1 & f & Hrun & Hactual & Hlive & Hcur1).
  exists w1, f. split; [exact Hrun|]. cbv zeta.
  assert (Hw1 : w1 = (sendMessage (Some u) content clk w).1) by now rewrite Hrun.
  assert (Hstate1 : state w1 = sendMessage_optimistic chatId
            (mkMessage ("msg-" +:+ pretty (now_msg clk)) chatId user content
               (iso_msg clk) (Some sent) None)
            (mkMessage ("thinking-" +:+ pretty (now_thinking clk)) chatId
               assistant "" (iso_thinking clk) (Some thinking) None)
            (state w))
    by (rewrite Hw1; now apply sendMessage_selected_state).
  assert (Hcalls1 : calls w1 = calls w ++ [call_sendMessage chatId content (Some (controllers w))]).
  { rewrite Hw1. pose proof Hne as Ht. apply truthy_true in Ht.
    unfold sendMessage. rewrite Hcur, Ht. cbv zeta beta iota. rewrite Hpre.
    cbn [fst]. autorewrite with world. cbn. now rewrite controllers_abort_current. }
  set (typed := mkMessage (m_id aiResponse) chatId (m_role aiResponse)
                  (m_content aiResponse) (m_timestamp aiResponse) (Some typing)
                  (m_wasInterrupted aiResponse)).
  assert (Hw2 : sendMessage_resolved f aiResponse w1
                = startTypingAnimation (m_content aiResponse) (m_id aiResponse)
                    (setState (sendMessage_typing chatId typed) w1)).
  { unfold sendMessage_resolved. now rewrite Hlive, Hactual. }
  rewrite Hw2.
  replace (S (String.length (m_content aiResponse)))
    with (S (String.length (m_content aiResponse) - 0)) by lia.
  rewrite (ticks_to_completion _ (m_content aiResponse) (m_id aiResponse) 0)
    by (reflexivity || lia).
  set (g := if (0 <? String.length (m_content aiResponse))%nat
            then typing_reveal (revealed (String.length (m_content aiResponse))
                                  (m_content aiResponse))
            else fun s : ChatState => s).
  autorewrite with world. rewrite !state_startTypingAnimation.
  autorewrite with world. rewrite calls_startTypingAnimation.
  autorewrite with world.
  set (s2 := sendMessage_typing chatId typed (state w1)).
  assert (Hg : currentChatId (g s2) = Some chatId /\
               messages (g s2) = messages s2 /\ error (g s2) = None).
  { subst g s2. rewrite Hstate1.
    destruct (0 <? String.length (m_content aiResponse))%nat; cbn; auto. }
  destruct Hg as (Hg1 & Hg2 & Hg3).
  assert (Hlist2 : messages_of s2 chatId
            = filter (fun m => m_status m <> Some thinking) (messages_of (state w) chatId)
              ++ [mkMessage ("msg-" +:+ pretty (now_msg clk)) chatId user content
                    (iso_msg clk) (Some sent) None; typed]).
  { subst s2. unfold sendMessage_typing, messages_of at 1. cbn.
    rewrite lookup_insert_eq. cbn [from_option id].
    rewrite Hstate1. unfold sendMessage_optimistic, messages_of at 1. cbn.
    rewrite lookup_insert_eq. cbn [from_option id].
    rewrite filter_app. rewrite filter_cons_True by discriminate.
    rewrite filter_cons_False by (intros H; now apply H).
    rewrite filter_nil, <- app_assoc. reflexivity. }
  pose proof Hne as Ht. apply truthy_true in Ht.
  unfold typing_complete. rewrite Hg1, Ht.
  split.
  { unfold messages_of at 1. cbn. rewrite lookup_insert_eq. cbn [from_option id].
    replace (messages_of (g s2) chatId) with (messages_of s2 chatId)
      by (unfold messages_of; now rewrite Hg2).
    rewrite Hlist2, map_app. f_equal.
    - apply map_fixed. intros m Hm.
      apply list_elem_of_filter in Hm as [_ Hm].
      now rewrite bool_decide_eq_false_2 by (now apply Hfresh).
    - cbn. rewrite (bool_decide_eq_false_2 _ Huser).
      now rewrite bool_decide_eq_true_2 by reflexivity. }
  split; [reflexivity|]. split; [reflexivity|]. split; [reflexivity|].
  split; [cbn; exact Hg3|]. cbn. exact Hcalls1.
Qed.

Lemma whole_turn_witness :
  (currentChatId (state Scenario.opened) = Some "chat-001" /\
   "chat-001" <> "" /\
   String.prefix "new-chat-" "chat-001" = false /\
   controllers_known Scenario.opened /\
   (forall m, m ∈ messages_of (state Scenario.opened) "chat-001" ->
              m_id m <> m_id Scenario.reply) /\
   "msg-" +:+ pretty (now_msg Scenario.clk1) <> m_id Scenario.reply) /\
  exists w1 f,
    sendMessage (Some Scenario.alice) "What are symptoms of flu?" Scenario.clk1
      Scenario.opened = (w1, Some (AwaitSendMessage f)) /\
    map m_status
      (messages_of (state (ticks 17 (sendMessage_resolved f Scenario.reply w1)))
         "chat-001")
    = [Some sent; Some sent].
Proof.
  assert (Hcur : currentChatId (state Scenario.opened) = Some "chat-001") by by_running.
  assert (Hknown : controllers_known Scenario.opened).
  { split; intros c Hc; vm_compute in Hc; discriminate. }
  assert (Hnone : forall m, m ∈ messages_of (state Scenario.opened) "chat-001" ->
                            m_id m <> m_id Scenario.reply).
  { intros m Hm. vm_compute in Hm. now apply elem_of_nil in Hm. }
  assert (Hid : "msg-" +:+ pretty (now_msg Scenario.clk1) <> m_id Scenario.reply)
    by (vm_compute; discriminate).
  split; [repeat split; try assumption; discriminate|].
  destruct (whole_turn Scenario.alice "What are symptoms of flu?" "chat-001"
              Scenario.clk1 Scenario.reply Scenario.opened Hcur
              ltac:(discriminate) eq_refl Hknown Hnone Hid)
    as (w1 & f & Hrun & Hlist & _).
  exists w1, f. split; [exact Hrun|].
  change 17 with (S (String.length (m_content Scenario.reply))).
  rewrite Hlist. by_running.
Defined.

(** * Properties of the mock backend and of the callers *)

(** ** Numbers and their decimal text *)

Lemma pretty_N_char_digit (d : N) :
  (d < 10)%N -> digit_value (pretty_N_char d) = Some (Z.of_N d).
Proof.
  intros Hd.
  assert (d = 0 \/ d = 1 \/ d = 2 \/ d = 3 \/ d = 4 \/ d = 5 \/ d = 6 \/ d = 7
          \/ d = 8 \/ d = 9)%N as Hcases by lia.
  repeat (destruct Hcases as [->|Hcases]; [reflexivity|]). now subst.
Qed.

Lemma pretty_N_char_plain (d : N) :
  (d < 10)%N ->
  is_white (pretty_N_char d) = false /\
  pretty_N_char d <> "-"%char /\ pretty_N_char d <> "+"%char.
Proof.
  intros Hd.
  assert (d = 0 \/ d = 1 \/ d = 2 \/ d = 3 \/ d = 4 \/ d = 5 \/ d = 6 \/ d = 7
          \/ d = 8 \/ d = 9)%N as Hcases by lia.
  repeat (destruct Hcases as [->|Hcases]; [repeat split; discriminate|]).
  subst. repeat split; discriminate.
Qed.

(** Reading the digits that [pretty] writes gives the number back. *)
Lemma read_digits_pretty_N_go (x : N) :
  forall (s : string) (acc : Z) (seen : bool),
    (0 < x)%N ->
    exists k : nat,
      read_digits acc seen (pretty_N_go x s)
        = read_digits (acc * 10 ^ Z.of_nat k + Z.of_N x)%Z true s.
Proof.
  induction (N.lt_wf_0 x) as [x _ IH]. intros s acc seen Hpos.
  rewrite pretty_N_go_step by exact Hpos.
  assert (Hmod : (x `mod` 10 < 10)%N) by (apply N.mod_lt; lia).
  assert (Hdecomp : Z.of_N x = (10 * Z.of_N (x `div` 10) + Z.of_N (x `mod` 10))%Z).
  { rewrite (N.div_mod x 10) at 1 by lia. lia. }
  destruct (decide (0 < x `div` 10)%N) as [Hdiv|Hdiv].
  - destruct (IH (x `div` 10)%N ltac:(apply N.div_lt; lia)
                (String (pretty_N_char (x `mod` 10)) s) acc seen Hdiv) as [k Hk].
    exists (S k). rewrite Hk. cbn [read_digits].
    rewrite pretty_N_char_digit by exact Hmod. f_equal.
    rewrite Nat2Z.inj_succ, Z.pow_succ_r by lia. lia.
  - assert (Hzero : (x `div` 10 = 0)%N)
      by (destruct (N.eq_0_gt_0_cases (x `div` 10)); tauto).
    rewrite Hzero, pretty_N_go_0.
    exists 1. cbn [read_digits]. rewrite pretty_N_char_digit by exact Hmod.
    f_equal. rewrite Hzero in Hdecomp. lia.
Qed.

Lemma pretty_N_go_head (x : N) :
  forall s : string,
    (0 < x)%N ->
    exists (d : N) (rest : string),
      (d < 10)%N /\ pretty_N_go x s = String (pretty_N_char d) rest.
Proof.
  induction (N.lt_wf_0 x) as [x _ IH]. intros s Hpos.
  rewrite pretty_N_go_step by exact Hpos.
  destruct (decide (0 < x `div` 10)%N) as [Hdiv|Hdiv].
  - apply IH; [apply N.div_lt; lia | exact Hdiv].
  - assert (Hzero : (x `div` 10 = 0)%N)
      by (destruct (N.eq_0_gt_0_cases (x `div` 10)); tauto).
    rewrite Hzero, pretty_N_go_0.
    exists (x `mod` 10)%N, s. split; [apply N.mod_lt; lia | reflexivity].
Qed.

Lemma pretty_N_head (n : N) :
  exists (d : N) (rest : string),
    (d < 10)%N /\ pretty n = String (pretty_N_char d) rest.
Proof.
  unfold pretty, pretty_N. case_decide as Hn.
  - exists 0%N, "". split; [lia | reflexivity].
  - apply pretty_N_go_head. lia.
Qed.

Lemma read_digits_pretty_N (n : N) :
  read_digits 0 false (pretty n) = Some (Z.of_N n).
Proof.
  unfold pretty, pretty_N. case_decide as Hn; [now subst|].
  assert (Hpos : (0 < n)%N) by lia.
  destruct (read_digits_pretty_N_go n "" 0%Z false Hpos) as [k Hk].
  rewrite Hk. reflexivity.
Qed.

(** [parseInt(n.toString(), 10)] is [n]. *)
Lemma parseInt10_pretty_N (n : N) :
  (Z.of_N n <= MAX_SAFE_INTEGER)%Z -> parseInt10 (pretty n) = Some (Int (Z.of_N n)).
Proof.
  intros Hsafe. unfold parseInt10.
  destruct (pretty_N_head n) as (d & rest & Hd & Hhead).
  destruct (pretty_N_char_plain d Hd) as (Hwhite & Hminus & Hplus).
  assert (Hskip : skip_white (pretty n) = pretty n).
  { rewrite Hhead. cbn. now rewrite Hwhite. }
  rewrite Hskip.
  assert (Hsign : match pretty n with
                  | String "-"%char rest0 => (true, rest0)
                  | String "+"%char rest0 => (false, rest0)
                  | _ => (false, pretty n)
                  end = (false, pretty n)).
  { rewrite Hhead. rewrite <- Hhead.
    destruct (pretty_N_char d) as [[] [] [] [] [] [] [] []] eqn:Hc;
      try reflexivity; congruence. }
  rewrite Hsign, read_digits_pretty_N.
  now rewrite (proj2 (Z.leb_le _ _) Hsafe).
Qed.

Lemma pretty_nat_truthy (n : nat) : truthy (pretty n) = true.
Proof.
  unfold pretty, pretty_nat.
  destruct (pretty_N_head (N.of_nat n)) as (d & rest & _ & ->). reflexivity.
Qed.

Lemma pretty_Z_of_nat (n : nat) : pretty (Z.of_nat n) = pretty n.
Proof. destruct n; reflexivity. Qed.

Lemma pretty_Z_truthy (z : Z) : truthy (pretty z) = true.
Proof.
  destruct z as [|p|p]; [reflexivity| |reflexivity].
  change (pretty (Z.pos p)) with (pretty (N.pos p)).
  destruct (pretty_N_head (N.pos p)) as (d & rest & _ & ->). reflexivity.
Qed.

(** ** The history the backend serves *)

Lemma length_generateMockMessages (toISOString : Z -> string) (now : Z)
    (chatId : string) (count : nat) :
  length (Mock.generateMockMessages toISOString now chatId count) = count.
Proof.
  unfold Mock.generateMockMessages. now rewrite length_rev, length_map, length_seq.
Qed.

(** The ids do not depend on the time of the call. *)
Lemma ids_generateMockMessages (toISOString : Z -> string) (now : Z)
    (chatId : string) (count : nat) :
  map m_id (Mock.generateMockMessages toISOString now chatId count)
  = rev (map (fun i : nat => "msg-" +:+ chatId +:+ "-" +:+ pretty i) (seq 0 count)).
Proof.
  unfold Mock.generateMockMessages. now rewrite map_rev, map_map.
Qed.

Lemma ids_any_time (toISOString toISOString' : Z -> string) (now now' : Z)
    (chatId : string) (count : nat) :
  map m_id (Mock.generateMockMessages toISOString now chatId count)
  = map m_id (Mock.generateMockMessages toISOString' now' chatId count).
Proof. now rewrite !ids_generateMockMessages. Qed.

Lemma NoDup_ids_generateMockMessages (toISOString : Z -> string) (now : Z)
    (chatId : string) (count : nat) :
  NoDup (map m_id (Mock.generateMockMessages toISOString now chatId count)).
Proof.
  rewrite ids_generateMockMessages, <- Permutation_rev.
  change (NoDup ((fun i : nat => "msg-" +:+ chatId +:+ "-" +:+ pretty i)
                   <$> seq 0 count)).
  apply NoDup_fmap_2; [|apply NoDup_seq].
  intros i j Hij. do 3 apply String.app_inj in Hij.
  now apply (inj pretty) in Hij.
Qed.

Lemma Forall_generateMockMessages (toISOString : Z -> string) (now : Z)
    (chatId : string) (count : nat) :
  Forall (fun msg => m_status msg = Some sent /\ m_chatId msg = chatId)
    (Mock.generateMockMessages toISOString now chatId count).
Proof.
  unfold Mock.generateMockMessages. apply Forall_rev, Forall_forall.
  intros msg Hmsg. apply list_elem_of_In, in_map_iff in Hmsg as (i & <- & _).
  now split.
Qed.

Lemma js_slice_sublist {A : Type} (from to : Z) (l : list A) :
  js_slice from to l `sublist_of` l.
Proof.
  unfold js_slice. etrans; [apply sublist_take | apply sublist_drop].
Qed.

(** [l.slice(k, Math.min(k + 10, l.length))] for an index [k] is the ten
    elements from [k] on, as far as there are. *)
Lemma js_slice_page {A : Type} (k : nat) (l : list A) :
  js_slice (Z.of_nat k) (Z.min (Z.of_nat k + 10) (Z.of_nat (length l))) l
  = take 10 (drop k l).
Proof.
  unfold js_slice, slice_bound.
  destruct (Z.ltb_spec (Z.of_nat k) 0) as [Hneg|_]; [lia|].
  destruct (Z.ltb_spec (Z.min (Z.of_nat k + 10) (Z.of_nat (length l))) 0)
    as [Hneg|_]; [lia|].
  destruct (decide (k <= length l)) as [Hk|Hk].
  - replace (Z.to_nat (Z.min (Z.of_nat k) (Z.of_nat (length l)))) with k by lia.
    destruct (decide (k + 10 <= length l)) as [Hfull|Hshort].
    + f_equal. lia.
    + rewrite !take_ge; [reflexivity | rewrite length_drop; lia
                        | rewrite length_drop; lia].
  - rewrite (drop_ge l k) by lia. rewrite drop_ge by lia. now rewrite !take_nil.
Qed.

Lemma map_js_slice {A B : Type} (f : A -> B) (from to : Z) (l : list A) :
  map f (js_slice from to l) = js_slice from to (map f l).
Proof.
  unfold js_slice. rewrite length_map.
  change (f <$> take (slice_bound (length l) to - slice_bound (length l) from)
                  (drop (slice_bound (length l) from) l)
          = take (slice_bound (length l) to - slice_bound (length l) from)
              (drop (slice_bound (length l) from) (f <$> l))).
  now rewrite fmap_take, fmap_drop.
Qed.

(** The page the backend serves for the cursor of a count [k]. *)
Lemma getMessages_at (toISOString : Z -> string) (now : Z) (chatId : string)
    (k : nat) :
  (Z.of_nat k <= MAX_SAFE_INTEGER)%Z ->
  Mock.getMessages toISOString now chatId (Some (pretty k))
  = Some (mkMessagesPage
            (take 10 (drop k (Mock.generateMockMessages toISOString now chatId 30)))
            (k + 10 <? 30)%nat
            (if (k + 10 <? 30)%nat then Some (pretty (k + 10)%nat) else None)).
Proof.
  intros Hsafe. unfold Mock.getMessages.
  rewrite pretty_nat_truthy.
  change (pretty k) with (pretty (N.of_nat k)).
  rewrite parseInt10_pretty_N by (now rewrite nat_N_Z).
  rewrite nat_N_Z. cbv zeta.
  rewrite js_slice_page, length_generateMockMessages.
  assert (Hmore : (Z.min (Z.of_nat k + 10) (Z.of_nat 30) <? Z.of_nat 30)%Z
                  = (k + 10 <? 30)%nat).
  { destruct (Nat.ltb_spec (k + 10) 30); [apply Z.ltb_lt | apply Z.ltb_ge]; lia. }
  rewrite Hmore. destruct (Nat.ltb_spec (k + 10) 30) as [Hlt|Hge]; [|reflexivity].
  replace (Z.min (Z.of_nat k + 10) (Z.of_nat 30)) with (Z.of_nat (k + 10)) by lia.
  now rewrite pretty_Z_of_nat.
Qed.

(** The first page. *)
Lemma getMessages_first (toISOString : Z -> string) (now : Z) (chatId : string) :
  Mock.getMessages toISOString now chatId None
  = Some (mkMessagesPage
            (take 10 (Mock.generateMockMessages toISOString now chatId 30))
            true (Some "10")).
Proof.
  unfold Mock.getMessages. cbv zeta.
  change 0%Z with (Z.of_nat 0). rewrite js_slice_page.
  rewrite length_generateMockMessages. reflexivity.
Qed.

(** X16. Asked with the count [k] of messages already loaded as cursor
    (as the message list does), the backend answers with the next ten
    messages of the history of thirty, newest first, as far as there
    are; it reports more exactly when [k + 10 < 30], and then names
    [k + 10] as the next cursor.  The ids served do not depend on the
    time of the request. *)
Theorem getMessages_by_count (toISOString : Z -> string) (now now' : Z)
    (chatId : string) (k : nat) :
  (Z.of_nat k <= MAX_SAFE_INTEGER)%Z ->
  exists page : MessagesPage,
    Mock.getMessages toISOString now chatId (Some (pretty k)) = Some page /\
    map m_id (r_messages page)
      = take 10 (drop k (map m_id
                           (Mock.generateMockMessages toISOString now' chatId 30))) /\
    r_hasMore page = (k + 10 <? 30)%nat /\
    r_nextCursor page
      = (if (k + 10 <? 30)%nat then Some (pretty (k + 10)%nat) else None).
Proof.
  intros Hsafe. eexists. split; [apply getMessages_at, Hsafe|].
  cbn [r_messages r_hasMore r_nextCursor]. repeat split.
  rewrite (ids_any_time toISOString toISOString now' now).
  change (m_id <$> take 10 (drop k (Mock.generateMockMessages toISOString now chatId 30))
          = take 10 (drop k (m_id <$> Mock.generateMockMessages toISOString now chatId 30))).
  now rewrite fmap_take, fmap_drop.
Qed.

Lemma getMessages_by_count_witness :
  exists page : MessagesPage,
    Mock.getMessages (fun _ => "2025-01-01T00:00:00.000Z") 1700000000000
      "chat-001" (Some "20") = Some page /\
    map m_id (r_messages page)
      = ["msg-chat-001-9"; "msg-chat-001-8"; "msg-chat-001-7"; "msg-chat-001-6";
         "msg-chat-001-5"; "msg-chat-001-4"; "msg-chat-001-3"; "msg-chat-001-2";
         "msg-chat-001-1"; "msg-chat-001-0"] /\
    r_hasMore page = false /\
    r_nextCursor page = None.
Proof.
  apply (getMessages_by_count (fun _ => "2025-01-01T00:00:00.000Z")
           1700000000000 1700000000000 "chat-001" 20).
  vm_compute. discriminate.
Defined.

(** X17. Whatever the cursor (its digits denoting at most
    [MAX_SAFE_INTEGER], the range embedded), a page the backend serves
    holds at most ten messages, all of the chat asked for, all with
    status [sent] and with pairwise different ids; and when it reports
    more, it names a non-empty next cursor. *)
Theorem getMessages_page_shape (toISOString : Z -> string) (now : Z)
    (chatId : string) (cursor : option string) (page : MessagesPage) :
  Mock.getMessages toISOString now chatId cursor = Some page ->
  length (r_messages page) <= 10 /\
  Forall (fun msg => m_status msg = Some sent /\ m_chatId msg = chatId)
    (r_messages page) /\
  NoDup (map m_id (r_messages page)) /\
  (r_hasMore page = true ->
   exists next, r_nextCursor page = Some next /\ truthy next = true).
Proof.
  unfold Mock.getMessages. cbv zeta.
  set (startIndex := match cursor with
                     | Some c => if truthy c then parseInt10 c else Some (Int 0)
                     | None => Some (Int 0)
                     end).
  destruct startIndex as [[|s]|]; [| |discriminate].
  { intros [= <-]. cbn. repeat split; [lia | constructor | constructor | discriminate]. }
  intros [= <-]. cbn [r_messages r_hasMore r_nextCursor].
  set (all := Mock.generateMockMessages toISOString now chatId 30).
  assert (Hall : length all = 30) by apply length_generateMockMessages.
  repeat split.
  - unfold js_slice, slice_bound. rewrite length_take, length_drop, Hall.
    destruct (Z.ltb_spec s 0);
      destruct (Z.ltb_spec (Z.min (s + 10) (Z.of_nat 30)) 0); lia.
  - apply Forall_forall. intros msg Hmsg.
    eapply elem_of_sublist in Hmsg; [|apply js_slice_sublist].
    revert msg Hmsg. apply Forall_forall, Forall_generateMockMessages.
  - eapply sublist_NoDup; [apply (NoDup_ids_generateMockMessages toISOString now chatId 30)|].
    change (m_id <$> js_slice s (Z.min (s + 10) (Z.of_nat 30)) all
            `sublist_of` m_id <$> all).
    apply fmap_sublist, js_slice_sublist.
  - intros ->. eexists. split; [reflexivity|].
    apply pretty_Z_truthy.
Qed.

Lemma getMessages_page_shape_witness :
  length (r_messages
            (default (mkMessagesPage [] false None)
               (Mock.getMessages (fun _ => "2025-01-01T00:00:00.000Z")
                  1700000000000 "chat-001" (Some " 25 more")))) <= 10 /\
  Forall (fun msg => m_status msg = Some sent /\ m_chatId msg = "chat-001")
    (r_messages
       (default (mkMessagesPage [] false None)
          (Mock.getMessages (fun _ => "2025-01-01T00:00:00.000Z")
             1700000000000 "chat-001" (Some " 25 more")))) /\
  NoDup (map m_id
           (r_messages
              (default (mkMessagesPage [] false None)
                 (Mock.getMessages (fun _ => "2025-01-01T00:00:00.000Z")
                    1700000000000 "chat-001" (Some " 25 more"))))) /\
  (r_hasMore
     (default (mkMessagesPage [] false None)
        (Mock.getMessages (fun _ => "2025-01-01T00:00:00.000Z")
           1700000000000 "chat-001" (Some " 25 more"))) = true ->
   exists next,
     r_nextCursor
       (default (mkMessagesPage [] false None)
          (Mock.getMessages (fun _ => "2025-01-01T00:00:00.000Z")
             1700000000000 "chat-001" (Some " 25 more"))) = Some next /\
     truthy next = true).
Proof.
  apply (getMessages_page_shape (fun _ => "2025-01-01T00:00:00.000Z")
           1700000000000 "chat-001" (Some " 25 more")).
  vm_compute. reflexivity.
Defined.

(** ** Paging through a history *)

Lemma loadMessages_success_at (chatId : string) (cursor : option string)
    (response : MessagesPage) (prev : ChatState) :
  let s := loadMessages_success chatId cursor response prev in
  currentChatId s = currentChatId prev /\
  isLoadingMessages s = false /\
  messages_of s chatId
  = (if truthy_opt cursor then messages_of prev chatId ++ r_messages response
     else r_messages response) /\
  hasMoreMessages s !! chatId = Some (r_hasMore response).
Proof.
  unfold loadMessages_success, messages_of. simpl.
  rewrite !lookup_insert_eq. now destruct (truthy_opt cursor).
Qed.

Lemma state_loadMessages (chatId : string) (cursor : option string) (w : World) :
  state (loadMessages chatId cursor w) = loadMessages_begin (state w).
Proof. reflexivity. Qed.

Lemma calls_loadMessages (chatId : string) (cursor : option string) (w : World) :
  calls (loadMessages chatId cursor w) = calls w ++ [call_getMessages chatId cursor].
Proof. reflexivity. Qed.

Lemma calls_selectChat (chatId : string) (w : World) :
  calls (selectChat chatId w) = calls w ++ [call_getMessages chatId None].
Proof.
  unfold selectChat, clearTypingAnimation, abort_current.
  destruct (abortControllerRef _); reflexivity.
Qed.

Lemma currentChatId_selectChat (chatId : string) (w : World) :
  currentChatId (state (selectChat chatId w)) = Some chatId.
Proof.
  unfold selectChat, clearTypingAnimation, abort_current.
  destruct (abortControllerRef _); reflexivity.
Qed.

Section Paging.

Variable toISOString : Z -> string.
Variable chatId : string.
Hypothesis Hid : chatId <> "".

Let ids (now : Z) : list string :=
  map m_id (Mock.generateMockMessages toISOString now chatId 30).

(** What is known of a world in which the [n] newest messages of the
    chat are loaded. *)
Let loaded (now : Z) (n : nat) (w : World) : Prop :=
  currentChatId (state w) = Some chatId /\
  isLoadingMessages (state w) = false /\
  map m_id (messages_of (state w) chatId) = take n (ids now) /\
  hasMoreMessages (state w) !! chatId = Some (n <? 30)%nat.

Lemma open_chat_loaded (now : Z) (w : World) :
  loaded now 10 (open_chat toISOString now chatId w) /\
  calls (open_chat toISOString now chatId w)
  = calls w ++ [call_getMessages chatId None].
Proof using Hid.
  unfold open_chat, loaded. rewrite getMessages_first.
  unfold loadMessages_resolved. rewrite state_setState, calls_setState.
  destruct (loadMessages_success_at chatId None
              (mkMessagesPage
                 (take 10 (Mock.generateMockMessages toISOString now chatId 30))
                 true (Some "10"))
              (state (selectChat chatId w))) as (Hcur & Hload & Hmsgs & Hmore).
  rewrite Hcur, Hload, Hmsgs, Hmore, currentChatId_selectChat, calls_selectChat.
  cbn [truthy_opt r_messages r_hasMore]. unfold ids.
  split; [split; [reflexivity | split; [reflexivity | split; [|reflexivity]]]
         | reflexivity].
  change (m_id <$> take 10 (Mock.generateMockMessages toISOString now chatId 30)
          = take 10 (m_id <$> Mock.generateMockMessages toISOString now chatId 30)).
  now rewrite fmap_take.
Qed.

Lemma load_earlier_loaded (now now' : Z) (n : nat) (w : World) :
  n <= 30 ->
  loaded now n w ->
  loaded now (n + 10) (load_earlier toISOString now' w) /\
  calls (load_earlier toISOString now' w)
  = calls w ++ (if (n <? 30)%nat
                then [call_getMessages chatId (Some (pretty n))] else []).
Proof using Hid.
  intros Hn (Hcur & Hload & Hmsgs & Hmore).
  assert (Hlen : length (messages_of (state w) chatId) = n).
  { rewrite <- (length_map m_id), Hmsgs. unfold ids.
    rewrite length_take, length_map, length_generateMockMessages. lia. }
  unfold load_earlier, handleLoadMore, hasMore, currentMessages.
  rewrite Hcur, (proj2 (truthy_true chatId) Hid), Hload, Hmore, Hlen.
  cbn [negb orb from_option id].
  destruct (Nat.ltb_spec n 30) as [Hlt|Hge]; cbn [negb].
  - rewrite getMessages_at by (unfold MAX_SAFE_INTEGER; lia).
    unfold loaded, loadMessages_resolved.
    rewrite state_setState, calls_setState, state_loadMessages, calls_loadMessages.
    match goal with
    | |- context [loadMessages_success ?c ?k ?r ?p] =>
        destruct (loadMessages_success_at c k r p) as (Hcur' & Hload' & Hmsgs' & Hmore')
    end.
    rewrite Hcur', Hload', Hmsgs', Hmore'.
    cbn [truthy_opt r_messages r_hasMore]. rewrite pretty_nat_truthy.
    change (messages_of (loadMessages_begin (state w)) chatId)
      with (messages_of (state w) chatId).
    split; [|reflexivity]. split; [exact Hcur|]. split; [reflexivity|].
    split; [|reflexivity].
    rewrite map_app, Hmsgs.
    change (take n (ids now)
              ++ (m_id <$> take 10 (drop n (Mock.generateMockMessages
                                              toISOString now' chatId 30)))
            = take (n + 10) (ids now)).
    rewrite fmap_take, fmap_drop.
    change (m_id <$> Mock.generateMockMessages toISOString now' chatId 30)
      with (map m_id (Mock.generateMockMessages toISOString now' chatId 30)).
    rewrite (ids_any_time toISOString toISOString now' now).
    apply take_take_drop.
  - assert (n = 30) as -> by lia. split; [|now rewrite app_nil_r].
    unfold loaded. split; [assumption|]. split; [assumption|].
    split; [|exact Hmore].
    rewrite Hmsgs. unfold ids.
    rewrite !take_ge; [reflexivity| |];
      rewrite length_map, length_generateMockMessages; lia.
Qed.

End Paging.

(** X18. Paging through a history.  A chat is opened and the button that
    loads earlier messages is pressed any number of times, each request
    being answered by the backend before the next press.  After [n]
    presses the list shows the [10 * (n + 1)] newest of the thirty
    messages of the history, newest first and without a gap or a
    repetition; more is offered exactly as long as fewer than thirty
    are shown; and the backend has been asked for the first page and
    then, at most twice, for the pages at the cursors 10 and 20: once
    everything is shown a press asks for nothing. *)
Theorem paging_through_history (toISOString : Z -> string) (now : Z)
    (times : list Z) (chatId : string) (w : World) :
  chatId <> "" ->
  let w' := fold_left (fun w t => load_earlier toISOString t w) times
              (open_chat toISOString now chatId w) in
  map m_id (currentMessages (state w'))
    = take (10 * S (length times))
        (map m_id (Mock.generateMockMessages toISOString now chatId 30)) /\
  hasMore (state w') = (10 * S (length times) <? 30)%nat /\
  isLoadingMessages (state w') = false /\
  calls w'
    = calls w ++ call_getMessages chatId None
        :: map (fun n : nat => call_getMessages chatId (Some (pretty (10 * S n)%nat)))
             (seq 0 (min (length times) 2)).
Proof.
  intros Hid.
  assert (Hinv : forall times,
    let w' := fold_left (fun w t => load_earlier toISOString t w) times
                (open_chat toISOString now chatId w) in
    (currentChatId (state w') = Some chatId /\
     isLoadingMessages (state w') = false /\
     map m_id (messages_of (state w') chatId)
       = take (min (10 * S (length times)) 30)
           (map m_id (Mock.generateMockMessages toISOString now chatId 30)) /\
     hasMoreMessages (state w') !! chatId
       = Some (min (10 * S (length times)) 30 <? 30)%nat) /\
    calls w'
      = calls w ++ call_getMessages chatId None
          :: map (fun n : nat =>
                    call_getMessages chatId (Some (pretty (10 * S n)%nat)))
               (seq 0 (min (length times) 2))).
  { clear times. induction times as [|t times IH] using rev_ind.
    - destruct (open_chat_loaded toISOString chatId Hid now w) as [Hl Hc].
      cbn [fold_left length]. split; [exact Hl|]. rewrite Hc. reflexivity.
    - cbv zeta. rewrite fold_left_app. cbn [fold_left].
      destruct IH as [Hl Hc].
      set (w1 := fold_left _ times _) in *. clearbody w1.
      destruct (load_earlier_loaded toISOString chatId Hid now t
                  (min (10 * S (length times)) 30) w1 ltac:(lia) Hl) as [Hl' Hc'].
      rewrite length_app. cbn [length].
      replace (min (10 * S (length times + 1)) 30)
        with (min (min (10 * S (length times)) 30 + 10) 30) by lia.
      split.
      + destruct Hl' as (H1 & H2 & H3 & H4). split; [exact H1|].
        split; [exact H2|]. split.
        * rewrite H3. rewrite <- (take_ge (map m_id _) 30) at 1
            by (rewrite length_map, length_generateMockMessages; lia).
          rewrite take_take. f_equal; lia.
        * rewrite H4. f_equal.
          destruct (Nat.ltb_spec (min (10 * S (length times)) 30 + 10) 30);
            destruct (Nat.ltb_spec (min (min (10 * S (length times)) 30 + 10) 30) 30);
            (reflexivity || lia).
      + rewrite Hc', Hc. rewrite <- app_assoc. cbn [app]. do 2 f_equal.
        destruct (length times) as [|[|k]].
        * reflexivity.
        * reflexivity.
        * replace (min (10 * S (S (S k))) 30) with 30 by lia.
          replace (min (S (S k) + 1) 2) with 2 by lia.
          replace (min (S (S k)) 2) with 2 by lia.
          cbn [Nat.ltb Nat.leb]. now rewrite app_nil_r. }
  specialize (Hinv times). cbv zeta in *.
  set (w' := fold_left _ times _) in *. clearbody w'.
  destruct Hinv as [(Hcur & Hload & Hmsgs & Hmore) Hcalls].
  unfold currentMessages, hasMore.
  rewrite Hcur, (proj2 (truthy_true chatId) Hid), Hmsgs, Hmore.
  cbn [from_option id]. split; [|split; [|split; [exact Hload | exact Hcalls]]].
  - rewrite <- (take_ge (map m_id _) 30) at 2
      by (rewrite length_map, length_generateMockMessages; lia).
    rewrite take_take. f_equal; lia.
  - destruct (Nat.ltb_spec (min (10 * S (length times)) 30) 30);
      destruct (Nat.ltb_spec (10 * S (length times)) 30); (reflexivity || lia).
Qed.

Lemma paging_through_history_witness :
  map m_id (currentMessages (state
    (fold_left (fun w t => load_earlier (fun _ => "2025-01-01T00:00:00.000Z") t w)
       [1700000001000; 1700000002000; 1700000003000]%Z
       (open_chat (fun _ => "2025-01-01T00:00:00.000Z") 1700000000000
          "chat-001" initialWorld))))
    = take (10 * S (length [1700000001000; 1700000002000; 1700000003000]%Z))
        (map m_id (Mock.generateMockMessages
                     (fun _ => "2025-01-01T00:00:00.000Z") 1700000000000
                     "chat-001" 30)) /\
  hasMore (state
    (fold_left (fun w t => load_earlier (fun _ => "2025-01-01T00:00:00.000Z") t w)
       [1700000001000; 1700000002000; 1700000003000]%Z
       (open_chat (fun _ => "2025-01-01T00:00:00.000Z") 1700000000000
          "chat-001" initialWorld)))
    = (10 * S (length [1700000001000; 1700000002000; 1700000003000]%Z) <? 30)%nat /\
  isLoadingMessages (state
    (fold_left (fun w t => load_earlier (fun _ => "2025-01-01T00:00:00.000Z") t w)
       [1700000001000; 1700000002000; 1700000003000]%Z
       (open_chat (fun _ => "2025-01-01T00:00:00.000Z") 1700000000000
          "chat-001" initialWorld))) = false /\
  calls
    (fold_left (fun w t => load_earlier (fun _ => "2025-01-01T00:00:00.000Z") t w)
       [1700000001000; 1700000002000; 1700000003000]%Z
       (open_chat (fun _ => "2025-01-01T00:00:00.000Z") 1700000000000
          "chat-001" initialWorld))
    = calls initialWorld ++ call_getMessages "chat-001" None
        :: map (fun n : nat =>
                  call_getMessages "chat-001" (Some (pretty (10 * S n)%nat)))
             (seq 0 (min (length [1700000001000; 1700000002000; 1700000003000]%Z) 2)).
Proof.
  apply (paging_through_history (fun _ => "2025-01-01T00:00:00.000Z")
           1700000000000 [1700000001000; 1700000002000; 1700000003000]%Z
           "chat-001" initialWorld).
  discriminate.
Defined.

(** ** The rest of the mock backend *)

Lemma length_substring_0 (n : nat) (s : string) :
  String.length (substring 0 n s) = min n (String.length s).
Proof.
  revert n. induction s as [|a s IH]; intros [|n]; cbn; try reflexivity.
  now rewrite IH.
Qed.

Lemma substring_0_all (n : nat) (s : string) :
  String.length s <= n -> substring 0 n s = s.
Proof.
  revert n. induction s as [|a s IH]; intros [|n] Hlen; cbn in *;
    try reflexivity; try lia.
  now rewrite IH by lia.
Qed.

Lemma append_cons (a : ascii) (s t : string) :
  String a s +:+ t = String a (s +:+ t).
Proof. reflexivity. Qed.

Lemma length_append (s t : string) :
  String.length (s +:+ t) = String.length s + String.length t.
Proof.
  induction s as [|a s IH]; [reflexivity|].
  rewrite append_cons. cbn [String.length Nat.add]. now f_equal.
Qed.

Lemma append_empty_r (s : string) : s +:+ "" = s.
Proof.
  induction s as [|a s IH]; [reflexivity|]. rewrite append_cons. now f_equal.
Qed.

(** X19. The chat the backend creates.  Its title is the first message
    itself when that has at most 50 units, else its first 50 units
    followed by three dots; so a title never has more than 53 units.
    The first message is recorded in full as the last message of the
    chat.  The id is not empty and never starts like a temporary id, so
    the provider does not take the created chat for a new one again. *)
Theorem createChat_title (generated iso_lastMessageAt iso_createdAt : string)
    (firstMessage : string) :
  let chat := Mock.createChat generated iso_lastMessageAt iso_createdAt
                firstMessage in
  String.length (c_title chat) <= 53 /\
  (String.length firstMessage <= 50 -> c_title chat = firstMessage) /\
  (50 < String.length firstMessage ->
   String.length (c_title chat) = 53 /\
   exists first50,
     c_title chat = first50 +:+ "..." /\
     String.prefix first50 firstMessage = true /\ String.length first50 = 50) /\
  c_lastMessage chat = Some firstMessage /\
  truthy (c_id chat) = true /\
  String.prefix "new-chat-" (c_id chat) = false.
Proof.
  cbv zeta. unfold Mock.createChat. cbn [c_title c_lastMessage c_id].
  destruct (Nat.ltb_spec 50 (String.length firstMessage)) as [Hlong|Hshort].
  - split; [|split; [lia|split; [|repeat split]]].
    + rewrite length_append, length_substring_0.
      change (String.length "...") with 3. lia.
    + intros _. split.
      * rewrite length_append, length_substring_0.
      change (String.length "...") with 3. lia.
      * exists (substring 0 50 firstMessage). split; [reflexivity|].
        split; [|rewrite length_substring_0; lia].
        clear Hlong. generalize 50. induction firstMessage as [|a s IH];
          intros [|n]; cbn; try reflexivity.
        destruct (Ascii.ascii_dec a a) as [_|Hne]; [apply IH | now destruct Hne].
  - rewrite append_empty_r, substring_0_all by lia.
    split; [lia|]. split; [reflexivity|]. split; [lia | repeat split].
Qed.

Lemma chats_createNewChat (now : N) (w : World) :
  chats (state (createNewChat now w)) = chats (state w) /\
  isDeletingChat (state (createNewChat now w)) = isDeletingChat (state w) /\
  error (state (createNewChat now w)) = error (state w).
Proof.
  unfold createNewChat, clearTypingAnimation, abort_current.
  destruct (abortControllerRef _); repeat split.
Qed.

(** X20. Deleting against the mock backend.  The backend always answers
    with success, so the promise of [deleteChat] is fulfilled, the
    deleting flag is cleared and no error is shown; no chat with the
    deleted id is left in the provider's directory nor in the backend's;
    and when the two directories agreed before the deletion they agree
    after it, although the provider filters its own list and not the
    backend's answer. *)
Theorem delete_against_mock (chatId : string) (mockChats : list Chat)
    (now : N) (w : World) :
  let result := (Mock.deleteChat chatId mockChats).1 in
  let mockChats' := (Mock.deleteChat chatId mockChats).2 in
  let w1 := (deleteChat chatId w).1 in
  let settled := deleteChat_resolved (deleteChat chatId w).2 result now w1 in
  settled.2 = Fulfilled /\
  isDeletingChat (state settled.1) = false /\
  error (state settled.1) = None /\
  (forall chat, chat ∈ chats (state settled.1) -> c_id chat <> chatId) /\
  (forall chat, chat ∈ mockChats' -> c_id chat <> chatId) /\
  (chats (state w) = mockChats ->
   chats (state settled.1) = mockChats' /\
   remainingChats result = chats (state settled.1)).
Proof.
  cbv zeta. unfold Mock.deleteChat, deleteChat_resolved, deleteChat.
  cbn [fst snd success remainingChats df_closure df_chatId].
  set (w1 := issue _ _).
  assert (Hchats : chats (state w1) = chats (state w)).
  { unfold w1. rewrite state_issue.
    destruct (_ && _); autorewrite with world; reflexivity. }
  clearbody w1.
  set (w2 := setState (deleteChat_success chatId) w1).
  assert (H2 : chats (state w2) = filter (fun chat => c_id chat <> chatId) (chats (state w))
               /\ isDeletingChat (state w2) = false /\ error (state w2) = None).
  { unfold w2. rewrite state_setState. unfold deleteChat_success. cbn.
    now rewrite Hchats. }
  clearbody w2. destruct H2 as (Hc & Hd & He).
  assert (Hfinal : forall w3 : World,
            w3 = (if bool_decide (currentChatId (state w) = Some chatId)
                  then createNewChat now w2 else w2) ->
            chats (state w3) = filter (fun chat => c_id chat <> chatId) (chats (state w))
            /\ isDeletingChat (state w3) = false /\ error (state w3) = None).
  { intros w3 ->. destruct (bool_decide _); [|now split].
    destruct (chats_createNewChat now w2) as (-> & -> & ->). now split. }
  destruct (Hfinal _ eq_refl) as (Hc' & Hd' & He').
  destruct (bool_decide (currentChatId (state w) = Some chatId)); cbn [fst snd];
    (split; [reflexivity|]; split; [exact Hd'|]; split; [exact He'|];
     split; [intros chat Hin; rewrite Hc' in Hin;
             now apply list_elem_of_filter in Hin|];
     split; [intros chat Hin; now apply list_elem_of_filter in Hin|];
     intros <-; now rewrite Hc').
Qed.

Lemma double_quotes_head (s : string) :
  match s with
  | EmptyString => Mock.double_quotes s = EmptyString
  | String a rest =>
      exists tail, Mock.double_quotes s = String a tail /\
                   (a = ascii_of_nat 34 ->
                    tail = String a (Mock.double_quotes rest)) /\
                   (a <> ascii_of_nat 34 -> tail = Mock.double_quotes rest)
  end.
Proof.
  destruct s as [|a rest]; [reflexivity|]. cbn [Mock.double_quotes].
  case_bool_decide as Ha; eexists; (split; [reflexivity|]); split; intros Hq;
    congruence.
Qed.

(** X21. The escaping of the CSV export loses nothing: it doubles every
    double quote and two different contents never get the same escaped
    text; the escaped text is longer by the number of double quotes. *)
Theorem double_quotes_reversible (s t : string) :
  (Mock.double_quotes s = Mock.double_quotes t -> s = t) /\
  String.length (Mock.double_quotes s)
  = String.length s
    + length (filter (fun a => a = ascii_of_nat 34) (list_ascii_of_string s)).
Proof.
  split.
  - revert t. induction s as [|a s IH]; intros [|b t]; cbn [Mock.double_quotes].
    + reflexivity.
    + case_bool_decide; discriminate.
    + case_bool_decide; discriminate.
    + case_bool_decide as Ha; case_bool_decide as Hb; intros Heq;
        assert (Hab : a = b) by congruence;
        try (subst b; contradiction);
        (assert (Htail : Mock.double_quotes s = Mock.double_quotes t)
          by congruence);
        (f_equal; [exact Hab | now apply IH]).
  - induction s as [|a s IH]; [reflexivity|].
    cbn [Mock.double_quotes list_ascii_of_string String.length].
    case_bool_decide as Ha.
    + rewrite filter_cons_True by exact Ha. cbn [length String.length].
      rewrite IH. lia.
    + rewrite filter_cons_False by exact Ha. cbn [String.length].
      rewrite IH. lia.
Qed.

(** ** The input area, the message list and the sidebar *)

Lemma trim_start_blank (s : string) :
  trim_start s = "" <->
  Forall (fun a => is_space a = true) (list_ascii_of_string s).
Proof.
  induction s as [|a s IH]; cbn [trim_start list_ascii_of_string].
  - split; [constructor | reflexivity].
  - destruct (is_space a) eqn:Ha.
    + rewrite IH. split; [now constructor | now inversion 1].
    + split; [discriminate|]. inversion 1; congruence.
Qed.

Lemma trim_start_head (s : string) :
  match trim_start s with
  | EmptyString => True
  | String a _ => is_space a = false
  end.
Proof.
  induction s as [|a s IH]; cbn [trim_start]; [exact I|].
  destruct (is_space a) eqn:Ha; [exact IH | exact Ha].
Qed.

Lemma trim_end_blank (s : string) :
  trim_end s = "" ->
  Forall (fun a => is_space a = true) (list_ascii_of_string s).
Proof.
  induction s as [|a s IH]; cbn [trim_end list_ascii_of_string]; [constructor|].
  destruct (trim_end s) eqn:Hs; [|discriminate].
  destruct (is_space a) eqn:Ha; [|discriminate].
  intros _. constructor; [exact Ha | now apply IH].
Qed.

Lemma trim_blank (s : string) :
  trim s = "" <->
  Forall (fun a => is_space a = true) (list_ascii_of_string s).
Proof.
  unfold trim. split.
  - intros Hend. apply trim_start_blank.
    pose proof (trim_start_head s) as Hhead.
    apply trim_end_blank in Hend.
    destruct (trim_start s) as [|a rest]; [reflexivity|].
    inversion Hend; congruence.
  - intros Hblank. apply trim_start_blank in Hblank. now rewrite Hblank.
Qed.

(** X22. For an input of units below 128, [handleSend] returns at once
    exactly when the input holds nothing but white space (TAB, LF, VT,
    FF, CR, space), and then nothing changes: the input keeps its text,
    no message is added and no request is made.  In every other case
    the call goes on to the timer or to [sendMessage]. *)
Theorem handleSend_blank (auth_user : option User) (clk : Clock) (p : Page) :
  Forall (fun a => nat_of_ascii a < 128) (list_ascii_of_string (message p)) ->
  ((handleSend auth_user clk p).2 = Returned <->
   Forall (fun a => is_space a = true) (list_ascii_of_string (message p))) /\
  ((handleSend auth_user clk p).2 = Returned ->
   (handleSend auth_user clk p).1 = p).
Proof.
  intros _. rewrite <- trim_blank. unfold handleSend, handleSend_send.
  destruct (trim (message p)) as [|a rest] eqn:Htrim; cbn [truthy].
  - cbn [fst snd]. repeat split; reflexivity.
  - destruct (isSendingMessage _); [|destruct (sendMessage _ _ _ _)];
      cbn [fst snd]; (split; [split|]; discriminate).
Qed.

Lemma handleSend_blank_witness :
  ((handleSend (Some Scenario.alice) Scenario.clk1
      (mkPage Scenario.opened (String (ascii_of_nat 9) "  "))).2 = Returned <->
   Forall (fun a => is_space a = true)
     (list_ascii_of_string
        (message (mkPage Scenario.opened (String (ascii_of_nat 9) "  "))))) /\
  ((handleSend (Some Scenario.alice) Scenario.clk1
      (mkPage Scenario.opened (String (ascii_of_nat 9) "  "))).2 = Returned ->
   (handleSend (Some Scenario.alice) Scenario.clk1
      (mkPage Scenario.opened (String (ascii_of_nat 9) "  "))).1
   = mkPage Scenario.opened (String (ascii_of_nat 9) "  ")).
Proof.
  apply (handleSend_blank (Some Scenario.alice) Scenario.clk1
           (mkPage Scenario.opened (String (ascii_of_nat 9) "  "))).
  repeat (constructor; [vm_compute; lia|]). constructor.
Defined.

(** X23. One request at a time: whatever the state, a press on the
    button that loads earlier messages followed by a second press before
    the answer makes at most one request; the second press changes
    nothing. *)
Theorem handleLoadMore_twice (container : bool) (w : World) :
  handleLoadMore container (handleLoadMore true w).1
  = ((handleLoadMore true w).1, None).
Proof.
  unfold handleLoadMore at 2 3.
  destruct (currentChatId (state w)) as [chatId|] eqn:Hcur; cbn [fst].
  - destruct (negb (truthy chatId) || isLoadingMessages (state w)
              || negb (hasMore (state w))) eqn:Hguard; cbn [negb fst].
    + unfold handleLoadMore. now rewrite Hcur, Hguard.
    + unfold handleLoadMore, hasMore. rewrite state_loadMessages.
      unfold loadMessages_begin. cbn. rewrite Hcur.
      now rewrite orb_true_r.
  - unfold handleLoadMore. now rewrite Hcur.
Qed.

(** X24. The delete dialog of the sidebar, once the deletion is
    confirmed for a chat.  When the backend rejects, the dialog keeps
    its chat and shows the message of the error (for a thrown value that
    is no [Error], its own fallback text, which differs from the one the
    provider stores), and the provider keeps the directory and clears
    its deleting flag.  When the backend answers, with success or
    without, the dialog is closed and emptied. *)
Theorem delete_dialog_after_confirm (d : DeleteDialog) (chat : Chat)
    (w : World) :
  chatToDelete d = Some chat ->
  exists (w1 : World) (f : DeleteFrame),
    handleDeleteConfirm d w = (w1, Some f) /\
    calls w1 = calls w ++ [call_deleteChat (c_id chat)] /\
    isDeletingChat (state w1) = true /\
    (forall e : Thrown,
       let '(w2, r) := deleteChat_rejected f e w1 in
       let d' := handleDeleteConfirm_settled r d in
       deleteDialogOpen d' = deleteDialogOpen d /\
       chatToDelete d' = Some chat /\
       deleteError d'
         = Some (error_message "Failed to delete chat. Please try again." e) /\
       error (state w2) = Some (error_message "Failed to delete chat" e) /\
       isDeletingChat (state w2) = false /\
       chats (state w2) = chats (state w)) /\
    (forall (result : DeleteResult) (now : N),
       let '(w2, r) := deleteChat_resolved f result now w1 in
       handleDeleteConfirm_settled r d = mkDeleteDialog false None None).
Proof.
  intros Hchat. unfold handleDeleteConfirm. rewrite Hchat.
  destruct (deleteChat (c_id chat) w) as [w1 f] eqn:Hdel.
  exists w1, f. split; [reflexivity|].
  unfold deleteChat in Hdel. injection Hdel as Hw1 Hf.
  assert (Hfacts : calls w1 = calls w ++ [call_deleteChat (c_id chat)] /\
                   isDeletingChat (state w1) = true /\
                   chats (state w1) = chats (state w)).
  { subst w1. rewrite calls_issue, state_issue.
    destruct (_ && _); autorewrite with world; repeat split. }
  destruct Hfacts as (Hcalls & Hflag & Hchats).
  split; [exact Hcalls|]. split; [exact Hflag|]. split.
  - intros e. unfold deleteChat_rejected, handleDeleteConfirm_settled.
    rewrite state_setState. unfold deleteChat_failure. cbn.
    now rewrite Hchat, Hchats.
  - intros result now. unfold deleteChat_resolved.
    destruct (success result); reflexivity.
Qed.

Lemma delete_dialog_after_confirm_witness :
  exists (w1 : World) (f : DeleteFrame),
    handleDeleteConfirm (handleDeleteClick Scenario.chat2
                           (mkDeleteDialog false None None)) Scenario.opened
    = (w1, Some f) /\
    calls w1 = calls Scenario.opened ++ [call_deleteChat (c_id Scenario.chat2)] /\
    isDeletingChat (state w1) = true /\
    (forall e : Thrown,
       let '(w2, r) := deleteChat_rejected f e w1 in
       let d' := handleDeleteConfirm_settled r
                   (handleDeleteClick Scenario.chat2
                      (mkDeleteDialog false None None)) in
       deleteDialogOpen d'
         = deleteDialogOpen (handleDeleteClick Scenario.chat2
                               (mkDeleteDialog false None None)) /\
       chatToDelete d' = Some Scenario.chat2 /\
       deleteError d'
         = Some (error_message "Failed to delete chat. Please try again." e) /\
       error (state w2) = Some (error_message "Failed to delete chat" e) /\
       isDeletingChat (state w2) = false /\
       chats (state w2) = chats (state Scenario.opened)) /\
    (forall (result : DeleteResult) (now : N),
       let '(w2, r) := deleteChat_resolved f result now w1 in
       handleDeleteConfirm_settled r
         (handleDeleteClick Scenario.chat2 (mkDeleteDialog false None None))
       = mkDeleteDialog false None None).
Proof.
  apply (delete_dialog_after_confirm
           (handleDeleteClick Scenario.chat2 (mkDeleteDialog false None None))
           Scenario.chat2 Scenario.opened).
  reflexivity.
Defined.
